(** * s2.term: the browser front end (ts-frontend/src/main.ts)

    A shallow embedding of the [StreamingTerminal] class, the Client Bridge
    of the terminal session streaming protocol.  The class is a state
    machine over its private fields; everything it does to the outside
    world (the xterm widget, the console, the S2 record API, timers) is
    recorded in a trace, each entry together with the object as it was when
    the call was made. *)

From Stdlib Require Import ZArith QArith Qminmax Qround Qpower String Ascii List Bool.
From Stdlib Require Import Lia Lqa DecimalString DecimalN.
Import ListNotations.

Local Open Scope string_scope.
Local Open Scope Z_scope.
Local Open Scope list_scope.

(** ** JavaScript values *)

Module JS.

(** A JavaScript [number]: a finite value is held as the rational it
    denotes, and the one arithmetic operation that rounds, [/], rounds its
    result to binary64.  [Fin 0] is [+0]. *)
Inductive number : Type :=
| NaN
| PosInf
| NegInf
| NegZero
| Fin (q : Q).

Definition of_Z (z : Z) : number := Fin (inject_Z z).

Definition Qeqb0 (q : Q) : bool := (Qnum q =? 0)%Z.
Definition Qltb0 (q : Q) : bool := (Qnum q <? 0)%Z.
Definition Qgtb0 (q : Q) : bool := (0 <? Qnum q)%Z.

(** ToBoolean on a number: [NaN], [+0] and [-0] are falsy. *)
Definition truthy (n : number) : bool :=
  match n with
  | NaN | NegZero => false
  | PosInf | NegInf => true
  | Fin q => negb (Qeqb0 q)
  end.

(** ToBoolean on [number | undefined]. *)
Definition truthy_opt (o : option number) : bool :=
  match o with
  | None => false
  | Some n => truthy n
  end.

(** ToBoolean on an integral number (a record timestamp). *)
Definition truthy_Z (z : Z) : bool := negb (z =? 0)%Z.

Definition truthy_optZ (o : option Z) : bool :=
  match o with
  | None => false
  | Some z => truthy_Z z
  end.

(** ToBoolean on [string | null]: the empty string is falsy. *)
Definition truthy_str (o : option string) : bool :=
  match o with
  | None | Some EmptyString => false
  | Some (String _ _) => true
  end.

Definition is_zero (n : number) : bool :=
  match n with
  | NegZero => true
  | Fin q => Qeqb0 q
  | _ => false
  end.

Definition negative (n : number) : bool :=
  match n with
  | NegInf | NegZero => true
  | Fin q => Qltb0 q
  | _ => false
  end.

Definition signed_zero (neg : bool) : number := if neg then NegZero else Fin 0.
Definition signed_inf (neg : bool) : number := if neg then NegInf else PosInf.

Definition value (n : number) : Q :=
  match n with
  | Fin q => q
  | _ => 0%Q
  end.

(** Rounding to binary64.  [ilog2 x] is the exponent of a positive [x]:
    2^e <= x < 2^(e+1). *)
Definition ilog2 (x : Q) : Z :=
  let e := (Z.log2 (Qnum x) - Z.log2 (Zpos (Qden x)))%Z in
  if Qle_bool (Qpower 2 e) x then e else (e - 1)%Z.

(** The integer nearest to [y], ties to even. *)
Definition nearest (y : Q) : Z :=
  let m := Qfloor y in
  match Qcompare (y - inject_Z m) (1 # 2) with
  | Lt => m
  | Gt => (m + 1)%Z
  | Eq => if Z.even m then m else (m + 1)%Z
  end.

(** The binary64 value nearest to a positive [x], ties to even: a multiple
    of the unit in the last place 2^u of [x], with 53 significant bits, or
    with fewer below 2^-1022 (subnormal numbers are multiples of 2^-1074);
    [None] when the result is 2^1024 or more (overflow). *)
Definition round64 (x : Q) : option Q :=
  let e := ilog2 x in
  let u := Z.max (e - 52) (-1074) in
  let r := (inject_Z (nearest (x / Qpower 2 u)) * Qpower 2 u)%Q in
  if Qle_bool (Qpower 2 1024) r then None else Some (Qred r).

(** The number that an exact result [x] is rounded to. *)
Definition binary64 (x : Q) : number :=
  match Qcompare x 0 with
  | Eq => Fin 0
  | Gt =>
      match round64 x with
      | None => PosInf
      | Some r => Fin r
      end
  | Lt =>
      match round64 (- x) with
      | None => NegInf
      | Some r => if Qeqb0 r then NegZero else Fin (- r)
      end
  end.

(** Half a unit in the last place of 1, the relative error of a rounding in
    the range of the normal numbers. *)
Definition unit_roundoff : Q := Qpower 2 (-53).

Definition normal (x : Q) : Prop :=
  (Qpower 2 (-1022) <= x)%Q /\ (x < Qpower 2 1023)%Q.

(** The [/] operator (Number::divide). *)
Definition div (a b : number) : number :=
  let neg := xorb (negative a) (negative b) in
  match a, b with
  | NaN, _ | _, NaN => NaN
  | (PosInf | NegInf), (PosInf | NegInf) => NaN
  | (PosInf | NegInf), _ => signed_inf neg
  | _, (PosInf | NegInf) => signed_zero neg
  | _, _ =>
      if is_zero b then (if is_zero a then NaN else signed_inf neg)
      else if is_zero a then signed_zero neg
      else binary64 (value a / value b)
  end.

(** [x > 0]. *)
Definition gt0 (n : number) : bool :=
  match n with
  | PosInf => true
  | Fin q => Qgtb0 q
  | _ => false
  end.

(** Code units that [String.prototype.trim] strips, among those below 256:
    TAB, LF, VT, FF, CR, SP and NBSP. *)
Definition is_white (c : ascii) : bool :=
  let n := nat_of_ascii c in
  ((9 <=? n)%nat && (n <=? 13)%nat) || (n =? 32)%nat || (n =? 160)%nat.

Fixpoint trimStart (s : string) : string :=
  match s with
  | String c s' => if is_white c then trimStart s' else s
  | EmptyString => EmptyString
  end.

Fixpoint trimEnd (s : string) : string :=
  match s with
  | String c s' =>
      match trimEnd s' with
      | EmptyString => if is_white c then EmptyString else String c EmptyString
      | t => String c t
      end
  | EmptyString => EmptyString
  end.

Definition trim (s : string) : string := trimEnd (trimStart s).

(** [s.slice(0, -1)]. *)
Fixpoint slice_0_m1 (s : string) : string :=
  match s with
  | String c EmptyString => EmptyString
  | String c s' => String c (slice_0_m1 s')
  | EmptyString => EmptyString
  end.

(** [n.toString()] on a non-negative integer. *)
Definition toString (n : N) : string := NilZero.string_of_uint (N.to_uint n).

(** [new Date(n).toISOString()] throws a RangeError unless the time value is
    finite and within 8.64e15 ms of the epoch. *)
Definition valid_time (n : number) : bool :=
  match n with
  | Fin q => Qle_bool (- 8640000000000000) q && Qle_bool q 8640000000000000
  | NegZero => true
  | _ => false
  end.

End JS.

Export JS(number(..)).

(** ** The object and its environment *)

Inductive SetupState : Type :=
| GREETING
| COLLECTING_BASIN
| COLLECTING_SESSION
| COLLECTING_TOKEN
| TESTING_CONNECTION
| STREAMING.

(** The fields of [StreamingTerminal] that the class reads and writes itself.
    The [!:] fields are empty strings until they are assigned; they are never
    read before. *)
Record StreamingTerminal : Type := mkTerminal {
  basin : string;
  sessionNumber : string;
  token : string;
  setupState : SetupState;
  currentInput : string;
  keystrokes_stream : string;
  pty_stream : string;
  since : option number;
  speedup : number;
  lastRecordTimestamp : option Z;
  isLiveMode : bool
}.

(** The object as the field initialisers leave it. *)
Definition new_StreamingTerminal : StreamingTerminal :=
  {| basin := ""; sessionNumber := ""; token := "";
     setupState := GREETING; currentInput := "";
     keystrokes_stream := ""; pty_stream := "";
     since := None; speedup := JS.of_Z 1;
     lastRecordTimestamp := None; isLiveMode := false |}.

(** A template literal: text with the numbers it interpolates kept symbolic. *)
Inductive fragment : Type :=
| Lit (s : string)
| Num (n : number)
| ISODate (n : number).

Definition text : Type := list fragment.

Definition error : Type := string.

(** A record as handed to [records.append]. *)
Record AppendRecord : Type := mkAppendRecord {
  body : string;
  headers : list (string * string);
  timestamp : Z
}.

(** A record as delivered by [records.read]. *)
Record SequencedRecord : Type := mkSequencedRecord {
  sr_body : option string;
  sr_headers : list (string * string);
  sr_seqNum : N;
  sr_timestamp : Z
}.

Inductive ReadEvent : Type :=
| Batch (records : list SequencedRecord)
| OtherEvent (event : string).

Record ReadParams : Type := mkReadParams {
  rp_stream : string;
  rp_s2Basin : string;
  rp_timestamp : option number;
  rp_tailOffset : option Z
}.

(** What the object does to the world. *)
Inductive effect : Type :=
| terminal_write (data : text)
| terminal_writeln (data : text)
| console_log (msg : text)
| console_error (msg : string) (e : error)
| records_checkTail (s2Basin stream : string)
| records_append (stream s2Basin : string) (records : list AppendRecord)
| records_read (params : ReadParams)
| setTimeout (ms : number).

Definition Trace : Type := list (StreamingTerminal * effect).

(** The async iterator behind [for await]: the events it yields, each with
    the wall clock seen while its records are processed (record [i] of the
    batch reads [Date_now i]), and how the iteration goes on: it is still
    waiting for the next event, it is exhausted, or it throws. *)
Inductive AsyncIter : Type :=
| Pending
| Return
| Throws (e : error)
| Yield (Date_now : nat -> Z) (event : ReadEvent) (rest : AsyncIter).

Inductive ReadResult : Type :=
| EventStream (events : AsyncIter)
| NotIterable.

(** The answers of the environment during one run of a handler. *)
Record Host : Type := mkHost {
  Date_now : Z;
  append_throws : option error;
  checkTail_result : error + (N * N);
  terminal_cols : N;
  terminal_rows : N;
  read_result : error + ReadResult
}.

(** ** A monad for the methods: state, trace, exceptions *)

Inductive completion (A : Type) : Type :=
| Normal (a : A)
| Throw (e : error)
| Suspended.

Arguments Normal {A} a.
Arguments Throw {A} e.
Arguments Suspended {A}.

Definition M (A : Type) : Type :=
  StreamingTerminal -> Trace * StreamingTerminal * completion A.

Definition ret {A} (a : A) : M A := fun s => ([], s, Normal a).

Definition bind {A B} (m : M A) (k : A -> M B) : M B :=
  fun s =>
    match m s with
    | (t1, s1, Normal a) =>
        match k a s1 with
        | (t2, s2, c) => (t1 ++ t2, s2, c)
        end
    | (t1, s1, Throw e) => (t1, s1, Throw e)
    | (t1, s1, Suspended) => (t1, s1, Suspended)
    end.

Declare Scope js_scope.
Delimit Scope js_scope with js.
Notation "x <- m ;; k" := (bind m (fun x => k))
  (at level 61, m at next level, right associativity) : js_scope.
Notation "m ;; k" := (bind m (fun _ => k))
  (at level 61, right associativity) : js_scope.
Local Open Scope js_scope.

Definition this : M StreamingTerminal := fun s => ([], s, Normal s).
Definition assign (f : StreamingTerminal -> StreamingTerminal) : M unit :=
  fun s => ([], f s, Normal tt).
Definition perform (e : effect) : M unit := fun s => ([(s, e)], s, Normal tt).
Definition throw {A} (e : error) : M A := fun s => ([], s, Throw e).
Definition suspend {A} : M A := fun s => ([], s, Suspended).

Definition try_catch {A} (m : M A) (handler : error -> M A) : M A :=
  fun s =>
    match m s with
    | (t1, s1, Throw e) =>
        match handler e s1 with
        | (t2, s2, c) => (t1 ++ t2, s2, c)
        end
    | r => r
    end.

Definition when (b : bool) (m : M unit) : M unit := if b then m else ret tt.

Definition trace_of {A} (r : Trace * StreamingTerminal * completion A) : Trace :=
  fst (fst r).
Definition final {A} (r : Trace * StreamingTerminal * completion A)
  : StreamingTerminal := snd (fst r).
Definition completion_of {A} (r : Trace * StreamingTerminal * completion A)
  : completion A := snd r.
Definition effects_of {A} (r : Trace * StreamingTerminal * completion A)
  : list effect := map snd (trace_of r).

(** Field assignments. *)
Definition set_basin v s :=
  mkTerminal v (sessionNumber s) (token s) (setupState s) (currentInput s)
    (keystrokes_stream s) (pty_stream s) (since s) (speedup s)
    (lastRecordTimestamp s) (isLiveMode s).
Definition set_sessionNumber v s :=
  mkTerminal (basin s) v (token s) (setupState s) (currentInput s)
    (keystrokes_stream s) (pty_stream s) (since s) (speedup s)
    (lastRecordTimestamp s) (isLiveMode s).
Definition set_token v s :=
  mkTerminal (basin s) (sessionNumber s) v (setupState s) (currentInput s)
    (keystrokes_stream s) (pty_stream s) (since s) (speedup s)
    (lastRecordTimestamp s) (isLiveMode s).
Definition set_setupState v s :=
  mkTerminal (basin s) (sessionNumber s) (token s) v (currentInput s)
    (keystrokes_stream s) (pty_stream s) (since s) (speedup s)
    (lastRecordTimestamp s) (isLiveMode s).
Definition set_currentInput v s :=
  mkTerminal (basin s) (sessionNumber s) (token s) (setupState s) v
    (keystrokes_stream s) (pty_stream s) (since s) (speedup s)
    (lastRecordTimestamp s) (isLiveMode s).
Definition set_keystrokes_stream v s :=
  mkTerminal (basin s) (sessionNumber s) (token s) (setupState s)
    (currentInput s) v (pty_stream s) (since s) (speedup s)
    (lastRecordTimestamp s) (isLiveMode s).
Definition set_pty_stream v s :=
  mkTerminal (basin s) (sessionNumber s) (token s) (setupState s)
    (currentInput s) (keystrokes_stream s) v (since s) (speedup s)
    (lastRecordTimestamp s) (isLiveMode s).
Definition set_since v s :=
  mkTerminal (basin s) (sessionNumber s) (token s) (setupState s)
    (currentInput s) (keystrokes_stream s) (pty_stream s) v (speedup s)
    (lastRecordTimestamp s) (isLiveMode s).
Definition set_speedup v s :=
  mkTerminal (basin s) (sessionNumber s) (token s) (setupState s)
    (currentInput s) (keystrokes_stream s) (pty_stream s) (since s) v
    (lastRecordTimestamp s) (isLiveMode s).
Definition set_lastRecordTimestamp v s :=
  mkTerminal (basin s) (sessionNumber s) (token s) (setupState s)
    (currentInput s) (keystrokes_stream s) (pty_stream s) (since s)
    (speedup s) v (isLiveMode s).
Definition set_isLiveMode v s :=
  mkTerminal (basin s) (sessionNumber s) (token s) (setupState s)
    (currentInput s) (keystrokes_stream s) (pty_stream s) (since s)
    (speedup s) (lastRecordTimestamp s) v.

(** ** The methods of [StreamingTerminal] *)

Definition ESC : string := String (ascii_of_nat 27) "".
Definition CR : string := String (ascii_of_nat 13) "".
Definition DEL : string := String (ascii_of_nat 127) "".
Definition BS : string := String (ascii_of_nat 8) "".

Definition green (s : string) : string := (ESC ++ "[32m" ++ s ++ ESC ++ "[0m")%string.
Definition red (s : string) : string := (ESC ++ "[31m" ++ s ++ ESC ++ "[0m")%string.

Definition RangeError : error := "RangeError: Invalid time value".

Definition SetupState_eq_dec (a b : SetupState) : {a = b} + {a <> b}.
Proof. decide equality. Defined.

Definition sleep (ms : number) : M unit := perform (setTimeout ms).
Definition writeAsync (data : text) : M unit := perform (terminal_write data).
Definition writelnAsync (data : text) : M unit := perform (terminal_writeln data).

(** [s2.records.append]: the call is made, then it resolves or rejects. *)
Definition records_append_call (h : Host) (stream s2Basin : string)
    (records : list AppendRecord) : M unit :=
  perform (records_append stream s2Basin records);;
  match append_throws h with
  | Some e => throw e
  | None => ret tt
  end.

Definition keystroke_record (data : string) (now : Z) : AppendRecord :=
  {| body := data;
     headers := [("type", "keystroke")];
     timestamp := now |}.

Definition window_record (cols rows : N) (now : Z) : AppendRecord :=
  {| body := "";
     headers := [("type", "window");
                 ("rows", JS.toString rows);
                 ("cols", JS.toString cols)];
     timestamp := now |}.

Definition sendKeystroke (h : Host) (data : string) : M unit :=
  try_catch
    (s <- this;;
     records_append_call h (keystrokes_stream s) (basin s)
       [keystroke_record data (Date_now h)])
    (fun error => perform (console_error "Failed to send keystroke to S2:" error)).

Definition sendWindowResize (h : Host) (cols rows : N) : M unit :=
  try_catch
    (s <- this;;
     records_append_call h (keystrokes_stream s) (basin s)
       [window_record cols rows (Date_now h)];;
     perform (console_log
       [Lit ("Sent window resize: " ++ JS.toString cols ++ "x" ++ JS.toString rows)%string]))
    (fun error => perform (console_error "Failed to send window resize to S2:" error)).

(** [record.body || ""]. *)
Definition body_or_empty (record : SequencedRecord) : string :=
  match sr_body record with
  | Some b => b
  | None => ""
  end.

Definition processRecord (now : Z) (record : SequencedRecord) : M unit :=
  (* Check if we've caught up to live mode *)
  when (JS.truthy_Z (sr_timestamp record))
    (let timeDiffFromNow := now - sr_timestamp record in
     when (timeDiffFromNow <=? 5000)
       (s <- this;;
        when (negb (isLiveMode s) && JS.truthy_opt (since s))
          (perform (console_log [Lit "Caught up to live time - entering live mode"]);;
           writelnAsync [Lit (green "[Live mode activated]")];;
           assign (set_isLiveMode true))));;
  (* Handle timing for replay mode (only if not in live mode) *)
  s <- this;;
  match lastRecordTimestamp s with
  | Some last =>
      when (JS.truthy_opt (since s) && negb (isLiveMode s)
            && JS.truthy_Z (sr_timestamp record) && JS.truthy_Z last)
        (let timeDiff := sr_timestamp record - last in
         let adjustedDelay := JS.div (JS.of_Z timeDiff) (speedup s) in
         when (JS.gt0 adjustedDelay) (sleep adjustedDelay))
  | None => ret tt
  end;;
  assign (set_lastRecordTimestamp (Some (sr_timestamp record)));;
  writeAsync [Lit (body_or_empty record)].

Fixpoint for_records (Date_now : nat -> Z) (i : nat)
    (records : list SequencedRecord) : M unit :=
  match records with
  | [] => ret tt
  | record :: rest =>
      processRecord (Date_now i) record;;
      for_records Date_now (S i) rest
  end.

Definition applyS2Record (Date_now : nat -> Z) (event : ReadEvent) : M unit :=
  match event with
  | Batch records => for_records Date_now 0 records
  | OtherEvent name =>
      perform (console_log [Lit ("Received non-batch from S2 read: " ++ name)%string])
  end.

Fixpoint for_await (stream : AsyncIter) : M unit :=
  match stream with
  | Pending => suspend
  | Return => ret tt
  | Throws e => throw e
  | Yield Date_now event rest =>
      applyS2Record Date_now event;;
      for_await rest
  end.

(** The [catch] block of [startS2Streaming]. *)
Definition startS2Streaming_catch (error : error) : M unit :=
  perform (console_error "S2 streaming error:" error);;
  writelnAsync [Lit (red ("Streaming error: " ++ error))%string].

Definition startS2Streaming (h : Host) : M unit :=
  try_catch
    (perform (console_log [Lit "Starting S2 stream reading..."]);;
     s <- this;;
     let readParams :=
       {| rp_stream := pty_stream s; rp_s2Basin := basin s;
          rp_timestamp := None; rp_tailOffset := None |} in
     readParams <-
       match since s with
       | Some n =>
           if JS.truthy n then
             (* Replay mode: start from specific timestamp *)
             (if JS.valid_time n
              then perform (console_log
                     [Lit "Using timestamp: "; Num n; Lit " ("; ISODate n; Lit ")"])
              else throw RangeError);;
             ret {| rp_stream := rp_stream readParams;
                    rp_s2Basin := rp_s2Basin readParams;
                    rp_timestamp := Some n;
                    rp_tailOffset := rp_tailOffset readParams |}
           else
             (* Live mode: start from current tail *)
             perform (console_log [Lit "Starting from live tail"]);;
             assign (set_isLiveMode true);;
             ret {| rp_stream := rp_stream readParams;
                    rp_s2Basin := rp_s2Basin readParams;
                    rp_timestamp := rp_timestamp readParams;
                    rp_tailOffset := Some 0 |}
       | None =>
           perform (console_log [Lit "Starting from live tail"]);;
           assign (set_isLiveMode true);;
           ret {| rp_stream := rp_stream readParams;
                  rp_s2Basin := rp_s2Basin readParams;
                  rp_timestamp := rp_timestamp readParams;
                  rp_tailOffset := Some 0 |}
       end;;
     perform (records_read readParams);;
     stream <- match read_result h with
               | inl e => throw e
               | inr r => ret r
               end;;
     s <- this;;
     writelnAsync
       [Lit ("Now reading from " ++ green ("s2://" ++ basin s ++ "/" ++ pty_stream s))%string];;
     writelnAsync [Lit "Terminal ready - start typing!"];;
     writelnAsync [Lit ""];;
     match stream with
     | EventStream events => for_await events
     | NotIterable => ret tt
     end)
    startS2Streaming_catch.

Definition testS2Connection (h : Host) : M unit :=
  try_catch
    (s <- this;;
     perform (records_checkTail (basin s) (keystrokes_stream s));;
     tail <- match checkTail_result h with
             | inl e => throw e
             | inr t => ret t
             end;;
     let seqNum := fst tail in
     let timestamp := snd tail in
     writelnAsync [Lit (green "Connection successful!")];;
     writelnAsync [Lit ""];;
     writelnAsync
       [Lit ("Connected to " ++ green ("s2://" ++ basin s ++ "/" ++ keystrokes_stream s))%string];;
     writelnAsync
       [Lit ("Current tail seqNum: " ++ JS.toString seqNum
             ++ ", timestamp: " ++ JS.toString timestamp)%string];;
     writelnAsync [Lit ""];;
     assign (set_setupState STREAMING);;
     (* Send initial window size *)
     sendWindowResize h (terminal_cols h) (terminal_rows h);;
     startS2Streaming h)
    (fun error =>
       writelnAsync [Lit (red ("Connection failed: " ++ error))%string];;
       writelnAsync [Lit ""];;
       assign (set_setupState COLLECTING_TOKEN);;
       writelnAsync [Lit "Please enter S2 token: "];;
       writeAsync [Lit "> "]).

(** The two stream names of a session. *)
Definition term_input (sessionNumber : string) : string :=
  ("sessions/" ++ sessionNumber ++ "/term_input")%string.
Definition term_output (sessionNumber : string) : string :=
  ("sessions/" ++ sessionNumber ++ "/term_output")%string.

Definition processSetupInput (h : Host) (input : string) : M unit :=
  s <- this;;
  match setupState s with
  | COLLECTING_BASIN =>
      assign (set_basin input);;
      assign (set_setupState COLLECTING_SESSION);;
      writelnAsync [Lit "Please enter session number: "];;
      writeAsync [Lit "% "]
  | COLLECTING_SESSION =>
      assign (set_sessionNumber input);;
      assign (fun s => set_keystrokes_stream (term_input (sessionNumber s)) s);;
      assign (fun s => set_pty_stream (term_output (sessionNumber s)) s);;
      assign (set_setupState COLLECTING_TOKEN);;
      writelnAsync [Lit "Please enter S2 token: "];;
      writeAsync [Lit "% "]
  | COLLECTING_TOKEN =>
      assign (set_token input);;
      assign (set_setupState TESTING_CONNECTION);;
      writelnAsync [Lit "Testing S2 connection..."];;
      testS2Connection h
  | _ => ret tt
  end.

Definition handleSetupInput (h : Host) (data : string) : M unit :=
  if String.eqb data CR then (* Enter key *)
    writelnAsync [Lit ""];;
    s <- this;;
    processSetupInput h (JS.trim (currentInput s));;
    assign (set_currentInput "")
  else if String.eqb data DEL then (* Backspace *)
    s <- this;;
    when (0 <? Z.of_nat (String.length (currentInput s)))
      (assign (set_currentInput (JS.slice_0_m1 (currentInput s)));;
       writeAsync [Lit (BS ++ " " ++ BS)%string])
  else if String.leb " " data && String.leb data "~" then (* Printable characters *)
    assign (fun s => set_currentInput (currentInput s ++ data)%string s);;
    writeAsync [Lit data]
  else ret tt.

(** The two handlers that [setupEventHandlers] installs. *)
Definition onData (h : Host) (data : string) : M unit :=
  s <- this;;
  if SetupState_eq_dec (setupState s) STREAMING
  then sendKeystroke h data
  else handleSetupInput h data.

Definition onResize (h : Host) (cols rows : N) : M unit :=
  perform (console_log
    [Lit ("Terminal resized to " ++ JS.toString cols ++ "x" ++ JS.toString rows)%string]);;
  s <- this;;
  when (if SetupState_eq_dec (setupState s) STREAMING then true else false)
    (sendWindowResize h cols rows).

(** The suspended [for await] of [startS2Streaming] goes on with [stream];
    when the loop is over, so are [startS2Streaming] and [testS2Connection],
    and the caller that awaited them continues: [handleSetupInput] (if the
    token was typed in) clears [currentInput]. *)
Definition resumeS2Streaming (interactive : bool) (stream : AsyncIter) : M unit :=
  try_catch (for_await stream) startS2Streaming_catch;;
  when interactive (assign (set_currentInput "")).

(** The query string of the page: what [urlParams.get] returns for each of
    the five names, [None] for [null]. *)
Record URLSearchParams : Type := mkParams {
  basinParam : option string;
  sessionParam : option string;
  tokenParam : option string;
  sinceParam : option string;
  speedupParam : option string
}.

(** A parameter where the code has found it truthy, hence a string. *)
Definition string_of (o : option string) : string :=
  match o with
  | Some v => v
  | None => ""
  end.

Section SetupFlow.

(** The global functions [parseInt] and [parseFloat]. *)
Variable parseInt : string -> number.
Variable parseFloat : string -> number.

Definition startSetupFlow (h : Host) (urlParams : URLSearchParams) : M unit :=
  writelnAsync [Lit "s2.term 🌊"];;
  writelnAsync [Lit ""];;
  (* Check for query parameters first *)
  if JS.truthy_str (basinParam urlParams)
     && JS.truthy_str (sessionParam urlParams)
     && JS.truthy_str (tokenParam urlParams)
  then
    (* Use query params and skip interactive flow *)
    assign (set_basin (string_of (basinParam urlParams)));;
    assign (set_sessionNumber (string_of (sessionParam urlParams)));;
    assign (set_token (string_of (tokenParam urlParams)));;
    assign (set_since
      (if JS.truthy_str (sinceParam urlParams)
       then Some (parseInt (string_of (sinceParam urlParams))) else None));;
    assign (set_speedup
      (if JS.truthy_str (speedupParam urlParams)
       then parseFloat (string_of (speedupParam urlParams)) else JS.of_Z 1));;
    assign (fun s => set_keystrokes_stream (term_input (sessionNumber s)) s);;
    assign (fun s => set_pty_stream (term_output (sessionNumber s)) s);;
    s <- this;;
    writelnAsync [Lit ("Using basin: " ++ basin s)%string];;
    writelnAsync [Lit ("Using session: " ++ sessionNumber s)%string];;
    match since s with
    | Some n =>
        when (JS.truthy n)
          ((if JS.valid_time n
            then writelnAsync
                   [Lit "Starting from timestamp: "; Num n; Lit " ("; ISODate n; Lit ")"]
            else throw RangeError);;
           writelnAsync [Lit "Speedup: "; Num (speedup s); Lit "x"])
    | None => ret tt
    end;;
    writelnAsync [Lit "Testing S2 connection..."];;
    assign (set_setupState TESTING_CONNECTION);;
    testS2Connection h
  else
    (* Start interactive flow *)
    assign (set_setupState COLLECTING_BASIN);;
    writelnAsync [Lit "Please enter basin name: "];;
    writeAsync [Lit "% "].

(** ** The event loop *)

Inductive Event : Type :=
| Loaded (urlParams : URLSearchParams)
| Data (data : string)
| Resize (cols rows : N)
| Stream (interactive : bool) (stream : AsyncIter).

Definition handle (h : Host) (ev : Event) : M unit :=
  match ev with
  | Loaded urlParams => startSetupFlow h urlParams
  | Data data => onData h data
  | Resize cols rows => onResize h cols rows
  | Stream interactive stream => resumeS2Streaming interactive stream
  end.

(** Events delivered one at a time: each handler runs until it returns,
    throws or is left waiting in the read loop, and the next event is
    delivered then; a handler that throws or is left waiting does not keep
    the next one from running.  Events that arrive while a handler awaits a
    write or a call to S2 are not in this model. *)
Fixpoint run (evs : list (Host * Event)) (s : StreamingTerminal)
  : Trace * StreamingTerminal :=
  match evs with
  | [] => ([], s)
  | (h, ev) :: rest =>
      let r := handle h ev s in
      let r' := run rest (final r) in
      (trace_of r ++ fst r', snd r')
  end.

End SetupFlow.

(** ** Reading traces *)

(** The time a run spends in [sleep], in milliseconds. *)
Fixpoint suspension (es : list effect) : Q :=
  match es with
  | [] => 0
  | setTimeout ms :: es' => JS.value ms + suspension es'
  | _ :: es' => suspension es'
  end.

(** The calls to [records.append] in a run. *)
Fixpoint appends_of (es : list effect) : list (string * string * list AppendRecord) :=
  match es with
  | [] => []
  | records_append stream s2Basin records :: es' =>
      (stream, s2Basin, records) :: appends_of es'
  | _ :: es' => appends_of es'
  end.

(** The calls to [records.read] in a run. *)
Fixpoint reads_of (es : list effect) : list ReadParams :=
  match es with
  | [] => []
  | records_read params :: es' => params :: reads_of es'
  | _ :: es' => reads_of es'
  end.

Definition is_append (e : effect) : bool :=
  match e with
  | records_append _ _ _ => true
  | _ => false
  end.

Definition is_setTimeout (e : effect) : bool :=
  match e with
  | setTimeout _ => true
  | _ => false
  end.

(** How an iteration ends, whatever it yields before. *)
Fixpoint outcome (stream : AsyncIter) : completion unit :=
  match stream with
  | Pending => Suspended
  | Return => Normal tt
  | Throws e => Throw e
  | Yield _ _ rest => outcome rest
  end.

(** [always pre P post m]: run from a state that satisfies [pre], the method
    [m] only makes calls that satisfy [P] (of the call and of the object at
    the time of the call) and leaves a state that satisfies [post], however
    it completes. *)
Definition always {A} (pre : StreamingTerminal -> Prop)
    (P : StreamingTerminal * effect -> Prop)
    (post : StreamingTerminal -> Prop) (m : M A) : Prop :=
  forall s, pre s -> Forall P (trace_of (m s)) /\ post (final (m s)).

(** Two sessions used in the examples below: a replay from a timestamp of
    September 2020, and a record of November 2023. *)
Definition replay_session (last : option Z) : StreamingTerminal :=
  {| basin := "s2term-00001"; sessionNumber := "0001"; token := "t";
     setupState := STREAMING; currentInput := "";
     keystrokes_stream := "sessions/0001/term_input";
     pty_stream := "sessions/0001/term_output";
     since := Some (JS.of_Z 1600000000000); speedup := JS.of_Z 1;
     lastRecordTimestamp := last; isLiveMode := false |}.

Definition record_at (t : Z) : SequencedRecord :=
  {| sr_body := Some "ls"; sr_headers := []; sr_seqNum := 42; sr_timestamp := t |}.

(** Predicates on states and calls. *)
Definition is_live (s : StreamingTerminal) : Prop := isLiveMode s = true.
Definition at_live (x : StreamingTerminal * effect) : Prop := is_live (fst x).


(** The records of the input log, as the spec lists them: a keystroke
    carries its bytes under [type=keystroke]; a window record has an empty
    body and the headers [type=window], [rows] and [cols]. *)
Inductive wire_shape : AppendRecord -> Prop :=
| keystroke_shape (data : string) (now : Z) :
    wire_shape {| body := data;
                  headers := [("type", "keystroke")];
                  timestamp := now |}
| window_shape (cols rows : N) (now : Z) :
    wire_shape {| body := "";
                  headers := [("type", "window");
                              ("rows", JS.toString rows);
                              ("cols", JS.toString cols)];
                  timestamp := now |}.

Definition anything (s : StreamingTerminal) : Prop := True.

Definition appends_wire_shapes (x : StreamingTerminal * effect) : Prop :=
  forall stream s2Basin records,
    snd x = records_append stream s2Basin records ->
    exists r, records = [r] /\ wire_shape r.

Definition no_append (x : StreamingTerminal * effect) : Prop :=
  is_append (snd x) = false.

Definition append_while_streaming (x : StreamingTerminal * effect) : Prop :=
  is_append (snd x) = true -> setupState (fst x) = STREAMING.

(** A host whose services all answer, for a terminal of 80 columns and 24
    rows, with a read stream that has delivered nothing yet. *)
Definition friendly_host : Host :=
  {| Date_now := 1700000000000;
     append_throws := None;
     checkTail_result := inr (7%N, 1699999999000%N);
     terminal_cols := 80;
     terminal_rows := 24;
     read_result := inr (EventStream Pending) |}.

(** The same host with an input log that rejects appends. *)
Definition failing_host : Host :=
  {| Date_now := 1700000000000;
     append_throws := Some "503 Service Unavailable";
     checkTail_result := inr (7%N, 1699999999000%N);
     terminal_cols := 80;
     terminal_rows := 24;
     read_result := inr (EventStream Pending) |}.

(** A connected session with no start timestamp. *)
Definition live_session : StreamingTerminal :=
  {| basin := "s2term-00001"; sessionNumber := "0001"; token := "t";
     setupState := STREAMING; currentInput := "";
     keystrokes_stream := "sessions/0001/term_input";
     pty_stream := "sessions/0001/term_output";
     since := None; speedup := JS.of_Z 1;
     lastRecordTimestamp := None; isLiveMode := true |}.

(** The interactive setup, at the token prompt with a token typed in. *)
Definition token_prompt : StreamingTerminal :=
  {| basin := "s2term-00001"; sessionNumber := "0001"; token := "";
     setupState := COLLECTING_TOKEN; currentInput := "secret";
     keystrokes_stream := "sessions/0001/term_input";
     pty_stream := "sessions/0001/term_output";
     since := None; speedup := JS.of_Z 1;
     lastRecordTimestamp := None; isLiveMode := false |}.

(** The only append of the setup flow: the initial window record, made once
    the state is STREAMING. *)
Definition initial_window_only (h : Host) (x : StreamingTerminal * effect) : Prop :=
  forall stream s2Basin records,
    snd x = records_append stream s2Basin records ->
    setupState (fst x) = STREAMING
    /\ records = [window_record (terminal_cols h) (terminal_rows h) (Date_now h)].

(** What [testS2Connection] does before it sends the window size, when the
    tail check answers [tail]. *)
Definition connected_trace (s : StreamingTerminal) (tail : N * N) : Trace :=
  [(s, records_checkTail (basin s) (keystrokes_stream s));
   (s, terminal_writeln [Lit (green "Connection successful!")]);
   (s, terminal_writeln [Lit ""]);
   (s, terminal_writeln
         [Lit ("Connected to "
               ++ green ("s2://" ++ basin s ++ "/" ++ keystrokes_stream s))%string]);
   (s, terminal_writeln
         [Lit ("Current tail seqNum: " ++ JS.toString (fst tail)
               ++ ", timestamp: " ++ JS.toString (snd tail))%string]);
   (s, terminal_writeln [Lit ""])].

(** A replay that is about to connect, and a host whose output log delivers
    one old record and then one that is a second old. *)
Definition connecting_replay : StreamingTerminal :=
  set_setupState TESTING_CONNECTION (replay_session None).

Definition replay_host : Host :=
  {| Date_now := 1700000000000;
     append_throws := None;
     checkTail_result := inr (7%N, 1699999999000%N);
     terminal_cols := 80;
     terminal_rows := 24;
     read_result :=
       inr (EventStream
              (Yield (fun _ => 1700000000000)
                 (Batch [record_at 1600000001000; record_at 1699999999000])
                 Pending)) |}.

Definition no_read (x : StreamingTerminal * effect) : Prop :=
  match snd x with
  | records_read _ => False
  | _ => True
  end.

(** The names of the session [id], and nothing else about the object. *)
Definition named (id : string) (s : StreamingTerminal) : Prop :=
  sessionNumber s = id
  /\ keystrokes_stream s = ("sessions/" ++ id ++ "/term_input")%string
  /\ pty_stream s = ("sessions/" ++ id ++ "/term_output")%string.

Definition since_is (v : option number) (s : StreamingTerminal) : Prop :=
  since s = v.

(** A session with no start timestamp, once it reads: live, and it stays so
    without a pause and without a catch-up. *)
Definition live_without_since (s : StreamingTerminal) : Prop :=
  JS.truthy_opt (since s) = false /\ isLiveMode s = true.

Definition unpaced (x : StreamingTerminal * effect) : Prop :=
  isLiveMode (fst x) = true
  /\ is_setTimeout (snd x) = false
  /\ snd x <> terminal_writeln [Lit (green "[Live mode activated]")].

(** A query string with the three parameters that skip the interactive
    flow, and the builtins that parse it in the examples (only [since=0]
    and [speedup=1] are ever parsed there). *)
Definition query (since_ : option string) : URLSearchParams :=
  {| basinParam := Some "s2term-00001";
     sessionParam := Some "0001";
     tokenParam := Some "t";
     sinceParam := since_;
     speedupParam := None |}.

Definition parse_zero (s : string) : number := JS.of_Z 0.
Definition parse_one (s : string) : number := JS.of_Z 1.

(** An output log that delivers one record and then fails, and a host that
    serves it. *)
Definition broken_stream : AsyncIter :=
  Yield (fun _ => 1700000000000) (Batch [record_at 1600000001000])
    (Throws "connection reset").

Definition broken_host : Host :=
  {| Date_now := 1700000000000;
     append_throws := None;
     checkTail_result := inr (7%N, 1699999999000%N);
     terminal_cols := 80;
     terminal_rows := 24;
     read_result := inr (EventStream broken_stream) |}.

(** ** More readings of traces and streams *)

(** The calls to [terminal.write] in a run: what is rendered, in order. *)
Fixpoint writes_of (es : list effect) : list text :=
  match es with
  | [] => []
  | terminal_write data :: es' => data :: writes_of es'
  | _ :: es' => writes_of es'
  end.

(** The records of the batches that an iteration yields, in order. *)
Fixpoint records_of (stream : AsyncIter) : list SequencedRecord :=
  match stream with
  | Yield _ (Batch records) rest => records ++ records_of rest
  | Yield _ (OtherEvent _) rest => records_of rest
  | _ => []
  end.

(** What [processRecord] renders for a record. *)
Definition rendered (record : SequencedRecord) : text :=
  [Lit (body_or_empty record)].

(** The announcement of live mode on the terminal. *)
Definition is_announcement (e : effect) : bool :=
  match e with
  | terminal_writeln [Lit m] => String.eqb m (green "[Live mode activated]")
  | _ => false
  end.

Definition announcements (es : list effect) : nat :=
  length (filter is_announcement es).

(** A [sleep] is a pause of the replay: made with [isLiveMode] false, a
    truthy [since], a truthy [lastRecordTimestamp], for a positive time. *)
Definition sleeps_in_replay (x : StreamingTerminal * effect) : Prop :=
  forall ms, snd x = setTimeout ms ->
    isLiveMode (fst x) = false
    /\ JS.truthy_opt (since (fst x)) = true
    /\ JS.truthy_optZ (lastRecordTimestamp (fst x)) = true
    /\ JS.gt0 ms = true.

(** Records that are more than 5000 ms old when they are processed, record
    [k] of the list being processed at [Date_now (i + k)]. *)
Fixpoint all_old (Date_now : nat -> Z) (i : nat) (records : list SequencedRecord)
  : Prop :=
  match records with
  | [] => True
  | r :: rest => 5000 < Date_now i - sr_timestamp r /\ all_old Date_now (S i) rest
  end.

(** Timestamps that never go back, from [last] on. *)
Fixpoint ascending (last : Z) (records : list SequencedRecord) : Prop :=
  match records with
  | [] => True
  | r :: rest => last <= sr_timestamp r /\ ascending (sr_timestamp r) rest
  end.

Fixpoint last_timestamp (last : Z) (records : list SequencedRecord) : Z :=
  match records with
  | [] => last
  | r :: rest => last_timestamp (sr_timestamp r) rest
  end.

(** The events of a page that is already loaded. *)
Definition after_load (ev : Event) : bool :=
  match ev with
  | Loaded _ => false
  | _ => true
  end.

(** What a session is: everything in the object but the input line being
    typed and the two fields of the replay. *)
Definition same_session (a b : StreamingTerminal) : Prop :=
  basin b = basin a /\ sessionNumber b = sessionNumber a /\ token b = token a
  /\ setupState b = setupState a
  /\ keystrokes_stream b = keystrokes_stream a /\ pty_stream b = pty_stream a
  /\ since b = since a /\ speedup b = speedup a.

(** The start point and the pace of the replay. *)
Definition same_replay (a b : StreamingTerminal) : Prop :=
  since b = since a /\ speedup b = speedup a.

(** Each call to S2 is made on the object's own logs: appends and the tail
    check on the input log, reads on the output log. *)
Definition on_own_logs (x : StreamingTerminal * effect) : Prop :=
  match snd x with
  | records_append stream s2Basin _ =>
      stream = keystrokes_stream (fst x) /\ s2Basin = basin (fst x)
  | records_checkTail s2Basin stream =>
      stream = keystrokes_stream (fst x) /\ s2Basin = basin (fst x)
  | records_read params =>
      rp_stream params = pty_stream (fst x) /\ rp_s2Basin params = basin (fst x)
  | _ => True
  end.

Definition is_S2_call (e : effect) : bool :=
  match e with
  | records_append _ _ _ | records_checkTail _ _ | records_read _ => true
  | _ => false
  end.

(** The test of [handleSetupInput] for printable characters. *)
Definition printable (data : string) : bool :=
  String.leb " " data && String.leb data "~".

(** Ten minutes of output, a record every 200 seconds, and a replay sixty
    times faster. *)
Definition ten_minutes : list SequencedRecord :=
  [record_at 1600000200000; record_at 1600000400000; record_at 1600000600000].

Definition fast_replay : StreamingTerminal :=
  set_speedup (JS.of_Z 60) (replay_session (Some 1600000000000)).

(** The interactive setup at its first prompt. *)
Definition basin_prompt : StreamingTerminal :=
  set_setupState COLLECTING_BASIN new_StreamingTerminal.

(** A host whose tail check is refused. *)
Definition refusing_host : Host :=
  {| Date_now := 1700000000000;
     append_throws := None;
     checkTail_result := inl "401 Unauthorized";
     terminal_cols := 80;
     terminal_rows := 24;
     read_result := inr (EventStream Pending) |}.

(** A run from [s] that announces live mode at most once: either it does
    not and leaves a live session live, or it does so once, from a session
    that was not live and now is. *)
Definition announces_once {A} (s : StreamingTerminal)
    (r : Trace * StreamingTerminal * completion A) : Prop :=
  (announcements (effects_of r) = 0%nat
   /\ (isLiveMode s = true -> isLiveMode (final r) = true))
  \/ (announcements (effects_of r) = 1%nat
      /\ isLiveMode s = false /\ isLiveMode (final r) = true).

Definition once {A} (m : M A) : Prop := forall s, announces_once s (m s).

(** The events that cannot set the start point of the replay: all but the
    load of a page whose query string has the three credentials. *)
Definition keeps_replay (ev : Event) : bool :=
  match ev with
  | Loaded urlParams =>
      negb (JS.truthy_str (basinParam urlParams)
            && JS.truthy_str (sessionParam urlParams)
            && JS.truthy_str (tokenParam urlParams))
  | _ => true
  end.

(** A stand-in for [parseInt] in an example: the reading of
    ["8640000000000001"], one millisecond past the last valid time. *)
Definition parse_late (s : string) : number := JS.of_Z 8640000000000001.


(** What the user does at the terminal: typing and resizing the window. *)
Definition is_input (x : Host * Event) : bool :=
  match snd x with
  | Data _ | Resize _ _ => true
  | _ => false
  end.

(** The append that an input event is forwarded as by the session [s]. *)
Definition forwarded (s : StreamingTerminal) (x : Host * Event)
  : string * string * list AppendRecord :=
  (keystrokes_stream s, basin s,
   match snd x with
   | Data data => [keystroke_record data (Date_now (fst x))]
   | Resize cols rows => [window_record cols rows (Date_now (fst x))]
   | _ => []
   end).

(** The calls that change what the terminal shows. *)
Definition on_screen (e : effect) : bool :=
  match e with
  | terminal_write _ | terminal_writeln _ => true
  | _ => false
  end.

(** Timestamps that never go back, from the last one seen if there is one. *)
Definition ascending_from (last : option Z) (records : list SequencedRecord)
  : Prop :=
  match last, records with
  | Some l, _ => ascending l records
  | None, r :: rest => ascending (sr_timestamp r) rest
  | None, [] => True
  end.

Definition pauses (es : list effect) : list effect := filter is_setTimeout es.

(** A replay run backwards, and one at a standstill. *)
Definition backward_replay : StreamingTerminal :=
  set_speedup (JS.of_Z (-1)) (replay_session (Some 1600000000000)).

Definition still_replay : StreamingTerminal :=
  set_speedup (JS.of_Z 0) (replay_session (Some 1600000000000)).

(** A host whose read stream stays open. *)
Definition open_host : Host :=
  {| Date_now := 1700000000000;
     append_throws := None;
     checkTail_result := inr (7%N, 1699999999000%N);
     terminal_cols := 80;
     terminal_rows := 24;
     read_result := inr (EventStream Pending) |}.

(** The token prompt with a token typed in. *)
Definition typed_token : StreamingTerminal :=
  set_currentInput "secret" (set_setupState COLLECTING_TOKEN new_StreamingTerminal).

(** The gaps between consecutive timestamps, from [last] on: each is nil or
    its exact quotient by [q] is in the range of the normal numbers. *)
Fixpoint paced_normally (q : Q) (last : Z) (records : list SequencedRecord)
  : Prop :=
  match records with
  | [] => True
  | r :: rest =>
      (sr_timestamp r = last \/ JS.normal (inject_Z (sr_timestamp r - last) / q))
      /\ paced_normally q (sr_timestamp r) rest
  end.

(** Keys typed one at a time: each one is delivered when the handler of the
    previous one has returned, and is handled from the object that handler
    left.  [None] when a handler does not return: it throws or is left
    waiting. *)
Fixpoint typed_in_turn (keys : list (Host * string)) (s : StreamingTerminal)
  : option StreamingTerminal :=
  match keys with
  | [] => Some s
  | (h, data) :: rest =>
      match completion_of (onData h data s) with
      | Normal _ => typed_in_turn rest (final (onData h data s))
      | _ => None
      end
  end.

(** The two stream names are those of session numbers. *)
Definition has_names (s : StreamingTerminal) : Prop :=
  exists a b, keystrokes_stream s = term_input a /\ pty_stream s = term_output b.

(** The object has its stream names, or the session prompt is still to be
    answered. *)
Definition well_named (s : StreamingTerminal) : Prop :=
  has_names s
  \/ setupState s = GREETING
  \/ setupState s = COLLECTING_BASIN
  \/ setupState s = COLLECTING_SESSION.

Definition calls_when_named (x : StreamingTerminal * effect) : Prop :=
  is_S2_call (snd x) = true -> has_names (fst x).

(** A call to S2 on a log of the right kind: appends and tail checks on the
    input log of a session number, reads on the output log of one. *)
Definition on_right_log (x : StreamingTerminal * effect) : Prop :=
  match snd x with
  | records_append stream _ _ => exists a, stream = term_input a
  | records_checkTail _ stream => exists a, stream = term_input a
  | records_read params => exists b, rp_stream params = term_output b
  | _ => True
  end.

(** The streams that a run appends to, and those that it reads. *)
Definition written (es : list effect) : list string :=
  map (fun c => fst (fst c)) (appends_of es).

Definition read_from (es : list effect) : list string :=
  map rp_stream (reads_of es).
(** ** Symbolic execution *)

Arguments JS.div : simpl never.
Arguments JS.gt0 : simpl never.
Arguments JS.truthy : simpl never.
Arguments JS.truthy_opt : simpl never.
Arguments JS.truthy_Z : simpl never.
Arguments JS.truthy_str : simpl never.
Arguments JS.valid_time : simpl never.
Arguments JS.toString : simpl never.
Arguments JS.trim : simpl never.
Arguments JS.slice_0_m1 : simpl never.
Arguments JS.of_Z : simpl never.
Arguments String.append : simpl never.
Arguments String.eqb : simpl never.
Arguments String.leb : simpl never.
Arguments Z.leb : simpl never.
Arguments Z.ltb : simpl never.
Arguments Z.sub : simpl never.

(** Runs a method on a symbolic object: every test the run meets is split. *)
Ltac symex :=
  repeat (cbn in *;
    match goal with
    | |- context [(?a && _)%bool] =>
        match a with
        | (_ && _)%bool => fail 1
        | _ => destruct a eqn:?
        end
    | |- context [match ?x with _ => _ end] =>
        match x with
        | context [match _ with _ => _ end] => fail 1
        | _ => destruct x eqn:?
        end
    end).

Ltac unfold_M :=
  unfold effects_of, trace_of, final, completion_of, when, sleep, writeAsync,
    writelnAsync, records_append_call, try_catch, bind, this, assign, perform,
    throw, suspend, ret in *.

Lemma Qgtb0_spec (q : Q) : JS.Qgtb0 q = true <-> (0 < q)%Q.
Proof.
  unfold JS.Qgtb0, Qlt. simpl. rewrite Z.ltb_lt. lia.
Qed.

Lemma truthy_Z_spec (z : Z) : JS.truthy_Z z = true <-> z <> 0.
Proof.
  unfold JS.truthy_Z. rewrite negb_true_iff, Z.eqb_neq. tauto.
Qed.

(** ** Rounding to binary64 *)

Arguments JS.binary64 : simpl never.
Arguments JS.round64 : simpl never.
Arguments Qpower : simpl never.
Arguments Qred : simpl never.

Lemma nearest_spec (y : Q) :
  (inject_Z (JS.nearest y) - y <= 1 # 2)%Q /\ (y - inject_Z (JS.nearest y) <= 1 # 2)%Q.
Proof.
  unfold JS.nearest.
  pose proof (Qfloor_le y) as Hl. pose proof (Qlt_floor y) as Hu.
  rewrite inject_Z_plus in Hu. change (inject_Z 1) with 1%Q in Hu.
  destruct (Qcompare_spec (y - inject_Z (Qfloor y)) (1 # 2)) as [H|H|H];
    [destruct (Z.even (Qfloor y))| |];
    rewrite ?inject_Z_plus; change (inject_Z 1) with 1%Q;
    generalize dependent (inject_Z (Qfloor y)); intros f; intros; split; lra.
Qed.

Lemma nearest_nonneg (y : Q) : (0 <= y)%Q -> 0 <= JS.nearest y.
Proof.
  intros Hy. unfold JS.nearest.
  assert (H0 : 0 <= Qfloor y).
  { change 0 with (Qfloor 0). apply Qfloor_resp_le. exact Hy. }
  destruct (Qcompare _ _); [destruct (Z.even _)| |]; lia.
Qed.

Lemma pow2_pos (e : Z) : (0 < Qpower 2 e)%Q.
Proof. apply Qpower_0_lt. reflexivity. Qed.

Lemma pow2_add (a b : Z) : (Qpower 2 (a + b) == Qpower 2 a * Qpower 2 b)%Q.
Proof. apply Qpower_plus. discriminate. Qed.

Lemma pow2_succ (e : Z) : (Qpower 2 (e + 1) == 2 * Qpower 2 e)%Q.
Proof. rewrite pow2_add. change (Qpower 2 1) with 2%Q. ring. Qed.

Lemma pow2_le (a b : Z) : a <= b -> (Qpower 2 a <= Qpower 2 b)%Q.
Proof. intros H. apply Qpower_le_compat_l; [exact H | discriminate]. Qed.

Lemma pow2_of_Z (a : Z) : 0 <= a -> (inject_Z (2 ^ a) == Qpower 2 a)%Q.
Proof. intros Ha. rewrite Zpower_Qpower by exact Ha. reflexivity. Qed.

Lemma log2_bounds (n : Z) :
  0 < n ->
  (Qpower 2 (Z.log2 n) <= inject_Z n)%Q /\ (inject_Z n < 2 * Qpower 2 (Z.log2 n))%Q.
Proof.
  intros Hn. destruct (Z.log2_spec n Hn) as [Hl Hu].
  pose proof (Z.log2_nonneg n) as H0.
  rewrite <- pow2_succ, <- !pow2_of_Z by lia.
  rewrite <- Zle_Qle, <- Zlt_Qlt. unfold Z.succ in Hu. split; assumption.
Qed.

(** [ilog2] is the exponent: 2^e <= x < 2^(e+1). *)
Lemma ilog2_spec (x : Q) :
  (0 < x)%Q ->
  (Qpower 2 (JS.ilog2 x) <= x)%Q /\ (x < Qpower 2 (JS.ilog2 x + 1))%Q.
Proof.
  intros Hx. unfold JS.ilog2.
  assert (Hn : 0 < Qnum x) by (revert Hx; unfold Qlt; simpl; lia).
  destruct (log2_bounds (Qnum x) Hn) as [Ha Ha'].
  destruct (log2_bounds (Zpos (Qden x)) eq_refl) as [Hb Hb'].
  set (a := Z.log2 (Qnum x)) in *. set (b := Z.log2 (Zpos (Qden x))) in *.
  assert (HP : (Qpower 2 (a - b) * Qpower 2 b == Qpower 2 a)%Q).
  { rewrite <- pow2_add. replace (a - b + b) with a by lia. reflexivity. }
  assert (Hxd : (x * inject_Z (Zpos (Qden x)) == inject_Z (Qnum x))%Q).
  { unfold Qeq, Qmult, inject_Z. simpl. lia. }
  pose proof (pow2_pos (a - b)) as HP0. pose proof (pow2_pos b) as HB0.
  pose proof (pow2_pos a) as HA0.
  set (A := Qpower 2 a) in *. set (B := Qpower 2 b) in *.
  set (P := Qpower 2 (a - b)) in *.
  set (N := inject_Z (Qnum x)) in *. set (D := inject_Z (Zpos (Qden x))) in *.
  destruct (Qle_bool P x) eqn:Ht.
  - apply Qle_bool_iff in Ht. split; [exact Ht|].
    rewrite pow2_succ. fold P.
    apply Qnot_le_lt. intros Hc.
    assert (H1 : (2 * P * D <= x * D)%Q) by (apply Qmult_le_compat_r; lra).
    assert (H2 : (P * B <= P * D)%Q).
    { rewrite !(Qmult_comm P). apply Qmult_le_compat_r; lra. }
    lra.
  - assert (Hlt : (x < P)%Q).
    { apply Qnot_le_lt. intros Hc. apply Qle_bool_iff in Hc. congruence. }
    replace (a - b - 1 + 1) with (a - b) by lia. fold P. split; [|exact Hlt].
    assert (HP' : (2 * Qpower 2 (a - b - 1) == P)%Q).
    { rewrite <- pow2_succ. replace (a - b - 1 + 1) with (a - b) by lia.
      reflexivity. }
    pose proof (pow2_pos (a - b - 1)) as HQ0.
    set (Q' := Qpower 2 (a - b - 1)) in *.
    apply Qnot_lt_le. intros Hc.
    assert (H1 : (x * D < Q' * D)%Q) by (apply Qmult_lt_compat_r; lra).
    assert (H2 : (Q' * D <= Q' * (2 * B))%Q).
    { rewrite !(Qmult_comm Q'). apply Qmult_le_compat_r; lra. }
    assert (H3 : (Q' * (2 * B) == A)%Q) by (rewrite <- HP, <- HP'; ring).
    lra.
Qed.

Lemma scaled_back (x : Q) (u : Z) : (x / Qpower 2 u * Qpower 2 u == x)%Q.
Proof. field. apply Qpower_not_0. discriminate. Qed.

Lemma Some_eq {A} (a b : A) : Some a = Some b -> a = b.
Proof. congruence. Qed.

Lemma round64_nonneg (x r : Q) : (0 < x)%Q -> JS.round64 x = Some r -> (0 <= r)%Q.
Proof.
  intros Hx. unfold JS.round64.
  set (u := Z.max (JS.ilog2 x - 52) (-1074)).
  destruct (Qle_bool _ _); [discriminate|]. intros H. apply Some_eq in H. subst r.
  match goal with |- (0 <= Qred ?q)%Q =>
    apply (Qle_trans _ q); [|rewrite (Qred_correct q); apply Qle_refl] end.
  apply Qmult_le_0_compat; [|apply Qlt_le_weak, pow2_pos].
  change 0%Q with (inject_Z 0). rewrite <- Zle_Qle. apply nearest_nonneg.
  apply Qlt_le_weak. apply Qlt_shift_div_l; [apply pow2_pos|]. lra.
Qed.

(** In the range of the normal numbers a rounding is finite and its
    relative error is at most 2^-53. *)
Lemma round64_normal (x : Q) :
  JS.normal x ->
  exists r, JS.round64 x = Some r
    /\ (x * (1 - JS.unit_roundoff) <= r)%Q /\ (r <= x * (1 + JS.unit_roundoff))%Q.
Proof.
  intros [Hlo Hhi].
  assert (Hx : (0 < x)%Q).
  { eapply Qlt_le_trans; [apply (pow2_pos (-1022)) | exact Hlo]. }
  destruct (ilog2_spec x Hx) as [He He'].
  unfold JS.round64. set (e := JS.ilog2 x) in *.
  assert (He1 : -1022 <= e).
  { destruct (Z_le_gt_dec (-1022) e) as [H|H]; [exact H|]. exfalso.
    pose proof (pow2_le (e + 1) (-1022) ltac:(lia)). lra. }
  assert (He2 : e <= 1022).
  { destruct (Z_le_gt_dec e 1022) as [H|H]; [exact H|]. exfalso.
    pose proof (pow2_le 1023 e ltac:(lia)). lra. }
  replace (Z.max (e - 52) (-1074)) with (e - 52) by lia.
  set (u := e - 52).
  destruct (nearest_spec (x / Qpower 2 u)) as [Hn1 Hn2].
  pose proof (scaled_back x u) as Hsc.
  pose proof (pow2_pos u) as Hu0.
  assert (Hu : (Qpower 2 u == 2 * (Qpower 2 e * JS.unit_roundoff))%Q).
  { unfold JS.unit_roundoff. rewrite <- pow2_add, <- pow2_succ.
    replace (e + -53 + 1) with u by (subst u; lia). reflexivity. }
  pose proof (pow2_pos (-53)) as Heps. fold JS.unit_roundoff in Heps.
  assert (Heps1 : (JS.unit_roundoff <= 1)%Q)
    by (unfold JS.unit_roundoff; vm_compute; discriminate).
  set (m := inject_Z (JS.nearest (x / Qpower 2 u))) in *.
  set (y := (x / Qpower 2 u)%Q) in *.
  set (U := Qpower 2 u) in *. set (E := Qpower 2 e) in *.
  set (eps := JS.unit_roundoff) in *.
  assert (H1 : ((m - y) * U <= (1 # 2) * U)%Q) by (apply Qmult_le_compat_r; lra).
  assert (H2 : ((y - m) * U <= (1 # 2) * U)%Q) by (apply Qmult_le_compat_r; lra).
  assert (H3 : (E * eps <= x * eps)%Q) by (apply Qmult_le_compat_r; lra).
  assert (Hlo' : (x * (1 - eps) <= m * U)%Q) by lra.
  assert (Hhi' : (m * U <= x * (1 + eps))%Q) by lra.
  assert (Hov : Qle_bool (Qpower 2 1024) (m * U) = false).
  { apply not_true_is_false. intros Hc. apply Qle_bool_iff in Hc.
    assert (H4 : (x * eps <= x * 1)%Q).
    { rewrite !(Qmult_comm x). apply Qmult_le_compat_r; lra. }
    pose proof (pow2_succ 1023) as H5. change (1023 + 1) with 1024 in H5.
    lra. }
  rewrite Hov. eexists. split; [reflexivity|].
  pose proof (Qred_correct (m * U)) as Hred. split; lra.
Qed.

Lemma normal_pos (x : Q) : JS.normal x -> (0 < x)%Q.
Proof.
  intros [Hlo _]. eapply Qlt_le_trans; [apply (pow2_pos (-1022)) | exact Hlo].
Qed.

Lemma binary64_normal (x : Q) :
  JS.normal x ->
  exists r, JS.binary64 x = Fin r /\ (0 < r)%Q
    /\ (x * (1 - JS.unit_roundoff) <= r)%Q /\ (r <= x * (1 + JS.unit_roundoff))%Q.
Proof.
  intros Hn. destruct (round64_normal x Hn) as [r [Hr [Hlo Hhi]]].
  pose proof (normal_pos x Hn) as Hx.
  exists r. unfold JS.binary64.
  apply Qgt_alt in Hx. rewrite Hx, Hr. split; [reflexivity|].
  split; [|split; assumption].
  apply Qgt_alt in Hx.
  assert (He : (JS.unit_roundoff < 1)%Q)
    by (unfold JS.unit_roundoff; vm_compute; reflexivity).
  assert (H : (0 < x * (1 - JS.unit_roundoff))%Q).
  { apply Qmult_lt_0_compat; lra. }
  lra.
Qed.

(** The rounding of a number that is not positive is not positive. *)
Lemma binary64_not_positive (x : Q) : (x <= 0)%Q -> JS.gt0 (JS.binary64 x) = false.
Proof.
  intros Hx. unfold JS.binary64.
  destruct (Qcompare_spec x 0) as [H|H|H]; [reflexivity| |lra].
  destruct (JS.round64 (- x)) as [r|] eqn:Hr; [|reflexivity].
  destruct (JS.Qeqb0 r); [reflexivity|].
  assert (H0 : (0 <= r)%Q) by (apply (round64_nonneg (- x)); [lra | exact Hr]).
  unfold JS.gt0, JS.Qgtb0. apply Z.ltb_ge.
  revert H0. unfold Qle. simpl. lia.
Qed.

(** Two roundings: 200000 / 60 is rounded up to 3333.3333333333335, and a
    quotient of 2^1074 overflows. *)
Lemma binary64_examples :
  JS.binary64 (200000 / 60) = Fin (7330077518506667 # 2199023255552)
  /\ JS.binary64 (1 / Qpower 2 (-1074)) = PosInf
  /\ JS.binary64 (5000 / 5) = Fin 1000.
Proof. vm_compute. repeat split. Qed.

(** An integer divided by a positive finite number is the rounding of the
    exact quotient. *)
Lemma div_by_positive (z : Z) (q : Q) :
  (0 < q)%Q ->
  JS.div (JS.of_Z z) (Fin q) = JS.binary64 (inject_Z z / q).
Proof.
  intros Hq.
  assert (Hq0 : JS.Qeqb0 q = false).
  { unfold Qlt, JS.Qeqb0 in *. simpl in *. apply Z.eqb_neq. lia. }
  assert (Hqn : JS.Qltb0 q = false).
  { unfold Qlt, JS.Qltb0 in *. simpl in *. apply Z.ltb_ge. lia. }
  unfold JS.div, JS.of_Z. cbn [JS.negative JS.is_zero JS.value].
  rewrite Hq0, Hqn.
  destruct (JS.Qeqb0 (inject_Z z)) eqn:Hz; [|reflexivity].
  unfold JS.Qeqb0 in Hz. simpl in Hz. apply Z.eqb_eq in Hz. subst z.
  change (JS.Qltb0 (inject_Z 0)) with false. cbn [xorb JS.signed_zero].
  unfold JS.binary64.
  assert (H : (inject_Z 0 / q == 0)%Q) by (unfold Qeq, Qdiv, Qmult; simpl; lia).
  apply Qeq_alt in H. rewrite H. reflexivity.
Qed.

(** ** Replay pacing *)

Lemma processRecord_last (now : Z) (r : SequencedRecord) (s : StreamingTerminal) :
  lastRecordTimestamp (final (processRecord now r s)) = Some (sr_timestamp r).
Proof.
  destruct s. unfold processRecord. unfold_M. symex; reflexivity.
Qed.

Lemma processRecord_replaying now r s last q :
  JS.truthy_opt (since s) = true -> isLiveMode s = false ->
  5000 < now - sr_timestamp r ->
  lastRecordTimestamp s = Some last -> 0 < last ->
  speedup s = Fin q -> (0 < q)%Q ->
  let delay := JS.binary64 (inject_Z (sr_timestamp r - last) / q) in
  effects_of (processRecord now r s) =
    (if JS.gt0 delay then [setTimeout delay] else [])
    ++ [terminal_write [Lit (body_or_empty r)]].
Proof.
  intros Hs Hl Hf Hlast Hpos Hq Hq0 delay. subst delay.
  destruct s; cbn in *; subst.
  assert (Hnf : (now - sr_timestamp r <=? 5000) = false) by (apply Z.leb_gt; lia).
  assert (Hlt : JS.truthy_Z last = true) by (apply truthy_Z_spec; lia).
  pose proof (div_by_positive (sr_timestamp r - last) q Hq0) as Hd.
  unfold processRecord. unfold_M.
  destruct (JS.truthy_Z (sr_timestamp r)) eqn:Ht; cbn.
  - rewrite Hnf. cbn. rewrite Hs, Hlt. cbn. rewrite Hd.
    destruct (JS.gt0 _); reflexivity.
  - rewrite Hs. cbn.
    assert (H0 : sr_timestamp r = 0).
    { destruct (Z.eq_dec (sr_timestamp r) 0) as [|n]; auto.
      apply truthy_Z_spec in n. congruence. }
    rewrite binary64_not_positive; [reflexivity|].
    rewrite H0. revert Hq0.
    unfold Qlt, Qle, Qdiv, Qmult, Qinv, inject_Z.
    destruct q as [[|p|p] d]; simpl; lia.
Qed.

Lemma suspension_paced (delay : number) (rest : effect) :
  is_setTimeout rest = false ->
  suspension ((if JS.gt0 delay then [setTimeout delay] else []) ++ [rest])
  = (if JS.gt0 delay then JS.value delay + 0 else 0)%Q.
Proof.
  intros Hr.
  assert (Hrest : suspension [rest] = 0%Q) by (destruct rest; auto; discriminate).
  destruct (JS.gt0 delay); cbn [app]; [|exact Hrest].
  change (suspension [setTimeout delay; rest])
    with (JS.value delay + suspension [rest])%Q.
  rewrite Hrest. reflexivity.
Qed.

Lemma processRecord_stays_replaying now r s :
  isLiveMode s = false -> 5000 < now - sr_timestamp r ->
  final (processRecord now r s) = set_lastRecordTimestamp (Some (sr_timestamp r)) s
  /\ completion_of (processRecord now r s) = Normal tt.
Proof.
  intros Hl Hf. destruct s; cbn in *; subst.
  assert (Hnf : (now - sr_timestamp r <=? 5000) = false) by (apply Z.leb_gt; lia).
  unfold processRecord. unfold_M.
  destruct (JS.truthy_Z (sr_timestamp r)); cbn; rewrite ?Hnf; symex; auto.
Qed.

Lemma two_records_paced clock r1 r2 s t0 :
  JS.truthy_opt (since s) = true -> isLiveMode s = false ->
  speedup s = JS.of_Z 5 -> 0 < t0 ->
  sr_timestamp r1 = t0 -> sr_timestamp r2 = t0 + 5000 ->
  5000 < clock 0%nat - sr_timestamp r1 ->
  5000 < clock 1%nat - sr_timestamp r2 ->
  exists delay,
    effects_of (for_records clock 0 [r1; r2] s) =
      effects_of (processRecord (clock 0%nat) r1 s)
      ++ [setTimeout (Fin delay); terminal_write [Lit (body_or_empty r2)]]
    /\ (delay == 1000)%Q.
Proof.
  intros Hs Hl Hq Ht0 H1 H2 Hf1 Hf2.
  destruct (processRecord_stays_replaying (clock 0%nat) r1 s Hl Hf1) as [Hfin Hc].
  pose proof (processRecord_replaying (clock 1%nat) r2
                (set_lastRecordTimestamp (Some (sr_timestamp r1)) s) t0 5) as Hp.
  rewrite H1 in Hp.
  assert (Hp' := Hp ltac:(destruct s; exact Hs) ltac:(destruct s; exact Hl) Hf2
                    ltac:(destruct s; reflexivity) Ht0
                    ltac:(destruct s; exact Hq) ltac:(reflexivity)).
  clear Hp. cbv zeta in Hp'. rewrite H2 in Hp'.
  replace (t0 + 5000 - t0) with 5000 in Hp' by lia.
  change (JS.binary64 (inject_Z 5000 / 5)) with (JS.binary64 (5000 / 5)) in Hp'.
  rewrite (proj2 (proj2 binary64_examples)) in Hp'.
  change (JS.gt0 (Fin 1000)) with true in Hp'. cbv iota in Hp'.
  exists 1000%Q. split; [|reflexivity].
  cbn [for_records]. unfold bind, effects_of, trace_of, final, completion_of in *.
  destruct (processRecord (clock 0%nat) r1 s) as [[t1 s1] c1].
  cbn [fst snd] in *. subst c1 s1. rewrite H1.
  destruct (processRecord (clock 1%nat) r2 (set_lastRecordTimestamp (Some t0) s))
    as [[t2 s2] c2].
  cbn [fst snd] in *. destruct c2; cbn [fst snd ret]; rewrite ?app_nil_r;
    rewrite map_app, Hp'; reflexivity.
Qed.

(** C1, as the spec states it, fails on two inputs.  A record that is inside
    the five-second freshness window is delivered while the session is
    REPLAYING and [lastRecordTimestamp] is set 59 s earlier: the catch-up
    check runs first, the session goes LIVE and the record is rendered with
    no pause.  And when the previous record carried the timestamp 0,
    [lastRecordTimestamp] is set but falsy, and the next record is not
    paced either. *)
Lemma processRecord_pacing_counterexample :
  (let s := replay_session (Some 1699999940000) in
   let r := record_at 1699999999000 in
   JS.truthy_opt (since s) = true /\ isLiveMode s = false
   /\ lastRecordTimestamp s = Some 1699999940000
   /\ speedup s = Fin 1
   /\ effects_of (processRecord 1700000000000 r s) =
        [console_log [Lit "Caught up to live time - entering live mode"];
         terminal_writeln [Lit (green "[Live mode activated]")];
         terminal_write [Lit "ls"]]
   /\ ~ (suspension (effects_of (processRecord 1700000000000 r s))
         == Qmax (inject_Z (sr_timestamp r - 1699999940000) / 1) 0)%Q)
  /\
  (let s := replay_session (Some 0) in
   let r := record_at 5000 in
   JS.truthy_opt (since s) = true /\ isLiveMode s = false
   /\ lastRecordTimestamp s = Some 0
   /\ speedup s = Fin 1
   /\ effects_of (processRecord 1700000000000 r s) = [terminal_write [Lit "ls"]]
   /\ ~ (suspension (effects_of (processRecord 1700000000000 r s))
         == Qmax (inject_Z (sr_timestamp r - 0) / 1) 0)%Q).
Proof.
  split; cbv zeta; (repeat split; try reflexivity); vm_compute; discriminate.
Qed.

(** C1 (amended): [lastRecordTimestamp] becomes the record's timestamp after
    every record, whatever the mode.  While the session is REPLAYING, a
    record that is more than 5000 ms old (so that the catch-up check, which
    runs first, leaves the session REPLAYING), met with [lastRecordTimestamp]
    set to a positive timestamp and a positive [speedup], is rendered after a
    pause of max(delay, 0), where delay is the quotient
    (record.timestamp - lastRecordTimestamp) / speedup as the [/] operator
    computes it, rounded to binary64: one [sleep] of the delay when it is
    positive, none otherwise (so none when the timestamp is not later than
    the last one), and then the write of the body.  When the exact quotient
    is in the range of the normal numbers the delay is finite and positive,
    within a relative error of 2^-53 of the exact quotient, and it is the
    time the record is suspended for.  For two such records with timestamps
    t0 and t0 + 5000 and speedup 5, the second is rendered after a [sleep] of
    1000 ms. *)
Theorem processRecord_pacing_delay :
  (forall now r s,
     lastRecordTimestamp (final (processRecord now r s)) = Some (sr_timestamp r))
  /\
  (forall now r s last q,
     JS.truthy_opt (since s) = true -> isLiveMode s = false ->
     5000 < now - sr_timestamp r ->
     lastRecordTimestamp s = Some last -> 0 < last ->
     speedup s = Fin q -> (0 < q)%Q ->
     let exact := (inject_Z (sr_timestamp r - last) / q)%Q in
     let delay := JS.binary64 exact in
     effects_of (processRecord now r s) =
       (if JS.gt0 delay then [setTimeout delay] else [])
       ++ [terminal_write [Lit (body_or_empty r)]]
     /\ (sr_timestamp r <= last -> JS.gt0 delay = false)
     /\ (JS.normal exact ->
         exists d,
           delay = Fin d /\ JS.gt0 delay = true
           /\ (exact * (1 - JS.unit_roundoff) <= d)%Q
           /\ (d <= exact * (1 + JS.unit_roundoff))%Q
           /\ (suspension (effects_of (processRecord now r s)) == d)%Q))
  /\
  (forall clock r1 r2 s t0,
     JS.truthy_opt (since s) = true -> isLiveMode s = false ->
     speedup s = JS.of_Z 5 -> 0 < t0 ->
     sr_timestamp r1 = t0 -> sr_timestamp r2 = t0 + 5000 ->
     5000 < clock 0%nat - sr_timestamp r1 ->
     5000 < clock 1%nat - sr_timestamp r2 ->
     exists delay,
       effects_of (for_records clock 0 [r1; r2] s) =
         effects_of (processRecord (clock 0%nat) r1 s)
         ++ [setTimeout (Fin delay); terminal_write [Lit (body_or_empty r2)]]
       /\ (delay == 1000)%Q).
Proof.
  split; [exact processRecord_last|].
  split; [|exact two_records_paced].
  intros now r s last q Hs Hl Hf Hlast Hpos Hq Hq0 exact delay.
  pose proof (processRecord_replaying now r s last q Hs Hl Hf Hlast Hpos Hq Hq0)
    as He. cbv zeta in He. fold exact in He. fold delay in He.
  split; [exact He|]. split.
  - intros Hle. apply binary64_not_positive. subst exact.
    assert (Hz : (inject_Z (sr_timestamp r - last) <= 0)%Q).
    { change 0%Q with (inject_Z 0). rewrite <- Zle_Qle. lia. }
    unfold Qdiv.
    assert (Hi : (0 < / q)%Q) by (apply Qinv_lt_0_compat; exact Hq0).
    setoid_replace 0%Q with (0 * / q)%Q by ring.
    apply Qmult_le_compat_r; [exact Hz | apply Qlt_le_weak; exact Hi].
  - intros Hn. destruct (binary64_normal exact Hn) as [d [Hd [Hd0 [Hlo Hhi]]]].
    fold delay in Hd.
    assert (Hg : JS.gt0 delay = true) by (rewrite Hd; apply Qgtb0_spec; exact Hd0).
    exists d. repeat split; try assumption.
    rewrite He, suspension_paced by reflexivity. rewrite Hg, Hd.
    cbn [JS.value]. ring.
Qed.

Lemma processRecord_pacing_delay_witness :
  (exists d,
     JS.binary64 (inject_Z (1600000200000 - 1600000000000) / 60) = Fin d
     /\ JS.gt0 (JS.binary64 (inject_Z (1600000200000 - 1600000000000) / 60)) = true
     /\ Qle (inject_Z (1600000200000 - 1600000000000) / 60 * (1 - JS.unit_roundoff)) d
     /\ Qle d (inject_Z (1600000200000 - 1600000000000) / 60 * (1 + JS.unit_roundoff))
     /\ Qeq (suspension (effects_of (processRecord 1700000000000
                (record_at 1600000200000)
                (set_speedup (JS.of_Z 60) (replay_session (Some 1600000000000))))))
            d)
  /\
  JS.gt0 (JS.binary64 (inject_Z (1600000000000 - 1600000000000) / 60)) = false
  /\
  (exists delay,
     effects_of (for_records (fun _ => 1700000000000) 0
                   [record_at 1600000000000; record_at 1600000005000]
                   (set_speedup (JS.of_Z 5) (replay_session None))) =
       effects_of (processRecord 1700000000000 (record_at 1600000000000)
                     (set_speedup (JS.of_Z 5) (replay_session None)))
       ++ [setTimeout (Fin delay); terminal_write [Lit "ls"]]
     /\ Qeq delay 1000%Q).
Proof.
  split; [|split].
  - refine (proj2 (proj2 (proj1 (proj2 processRecord_pacing_delay)
             1700000000000 (record_at 1600000200000)
             (set_speedup (JS.of_Z 60) (replay_session (Some 1600000000000)))
             1600000000000 60%Q _ _ _ _ _ _ _)) _);
      try solve [reflexivity | vm_compute; reflexivity].
    vm_compute. split; [discriminate | reflexivity].
  - refine (proj1 (proj2 (proj1 (proj2 processRecord_pacing_delay)
             1700000000000 (record_at 1600000000000)
             (set_speedup (JS.of_Z 60) (replay_session (Some 1600000000000)))
             1600000000000 60%Q _ _ _ _ _ _ _)) _);
      solve [reflexivity | vm_compute; reflexivity].
  - apply (proj2 (proj2 processRecord_pacing_delay)
             (fun _ => 1700000000000) (record_at 1600000000000)
             (record_at 1600000005000)
             (set_speedup (JS.of_Z 5) (replay_session None)) 1600000000000);
      solve [reflexivity | vm_compute; reflexivity].
Defined.

(** ** Invariants of runs *)

Section Invariants.

Variable I : StreamingTerminal -> Prop.
Variable P : StreamingTerminal * effect -> Prop.

Lemma inv_ret {A} (a : A) : always I P I (ret a).
Proof. intros s Hs. split; [constructor | exact Hs]. Qed.

Lemma inv_this : always I P I this.
Proof. intros s Hs. split; [constructor | exact Hs]. Qed.

Lemma inv_throw {A} (e : error) : always I P I (@throw A e).
Proof. intros s Hs. split; [constructor | exact Hs]. Qed.

Lemma inv_suspend {A} : always I P I (@suspend A).
Proof. intros s Hs. split; [constructor | exact Hs]. Qed.

Lemma inv_assign (f : StreamingTerminal -> StreamingTerminal) :
  (forall s, I s -> I (f s)) -> always I P I (assign f).
Proof. intros Hf s Hs. split; [constructor | exact (Hf s Hs)]. Qed.

Lemma inv_perform (e : effect) :
  (forall s, I s -> P (s, e)) -> always I P I (perform e).
Proof.
  intros He s Hs. split; [|exact Hs].
  constructor; [exact (He s Hs) | constructor].
Qed.

Lemma inv_bind {A B} (m : M A) (k : A -> M B) :
  always I P I m -> (forall a, always I P I (k a)) -> always I P I (bind m k).
Proof.
  intros Hm Hk s Hs. destruct (Hm s Hs) as [Ht Hf].
  unfold bind, trace_of, final in *.
  destruct (m s) as [[t1 s1] [a| e |]]; cbn in *; auto.
  destruct (Hk a s1 Hf) as [Ht2 Hf2].
  destruct (k a s1) as [[t2 s2] c]; cbn in *.
  split; [apply Forall_app; split|]; assumption.
Qed.

Lemma inv_try_catch {A} (m : M A) (handler : error -> M A) :
  always I P I m -> (forall e, always I P I (handler e)) ->
  always I P I (try_catch m handler).
Proof.
  intros Hm Hh s Hs. destruct (Hm s Hs) as [Ht Hf].
  unfold try_catch, trace_of, final in *.
  destruct (m s) as [[t1 s1] [a| e |]]; cbn in *; auto.
  destruct (Hh e s1 Hf) as [Ht2 Hf2].
  destruct (handler e s1) as [[t2 s2] c]; cbn in *.
  split; [apply Forall_app; split|]; assumption.
Qed.

Lemma inv_when (b : bool) (m : M unit) :
  always I P I m -> always I P I (when b m).
Proof. intros Hm. destruct b; [exact Hm | apply inv_ret]. Qed.

(** The loops, from what one record does. *)
Hypothesis processRecord_inv : forall now r, always I P I (processRecord now r).
Hypothesis console_log_inv : forall msg, always I P I (perform (console_log msg)).

Lemma for_records_inv clock i records : always I P I (for_records clock i records).
Proof.
  revert i. induction records as [|r rest IH]; intros i; cbn [for_records].
  - apply inv_ret.
  - apply inv_bind; [apply processRecord_inv | intros _; apply IH].
Qed.

Lemma applyS2Record_inv clock event : always I P I (applyS2Record clock event).
Proof.
  destruct event; cbn [applyS2Record].
  - apply for_records_inv.
  - apply console_log_inv.
Qed.

Lemma for_await_inv stream : always I P I (for_await stream).
Proof.
  induction stream as [| | e | clock event rest IH]; cbn [for_await].
  - apply inv_suspend.
  - apply inv_ret.
  - apply inv_throw.
  - apply inv_bind; [apply applyS2Record_inv | intros _; exact IH].
Qed.

End Invariants.

Ltac inv_step side :=
  first
    [ apply inv_ret | apply inv_this | apply inv_throw | apply inv_suspend
    | apply inv_when
    | apply inv_bind; [|intros ?]
    | apply inv_try_catch; [|intros ?]
    | apply inv_assign; side
    | apply inv_perform; side
    | match goal with
      | |- always _ _ _ (match ?x with _ => _ end) => destruct x
      | |- always _ _ _ (let _ := _ in _) => cbv zeta
      end ].

Ltac inv_auto db side :=
  repeat first [ solve [auto with db nocore] | inv_step side ].


Ltac unfold_methods :=
  unfold handle, startSetupFlow, onData, onResize, resumeS2Streaming,
    handleSetupInput, processSetupInput, testS2Connection, startS2Streaming,
    startS2Streaming_catch, sendKeystroke, sendWindowResize,
    records_append_call, processRecord, writeAsync, writelnAsync, sleep.

(** An invariant of every handler is an invariant of every run. *)
Lemma run_inv (I : StreamingTerminal -> Prop) (P : StreamingTerminal * effect -> Prop)
    parseInt parseFloat :
  (forall h ev, always I P I (handle parseInt parseFloat h ev)) ->
  forall evs s, I s ->
    Forall P (fst (run parseInt parseFloat evs s))
    /\ I (snd (run parseInt parseFloat evs s)).
Proof.
  intros Hh evs. induction evs as [|[h ev] rest IH]; intros s Hs; cbn [run].
  - split; [constructor | exact Hs].
  - destruct (Hh h ev s Hs) as [Ht Hf].
    destruct (IH _ Hf) as [Ht' Hf'].
    cbn [fst snd]. split; [apply Forall_app; split|]; assumption.
Qed.

(** ** Live mode *)

Create HintDb live.

Ltac live_side := unfold at_live, is_live; intros [] ?; cbn in *; auto.

Lemma processRecord_live now r :
  always is_live at_live is_live (processRecord now r).
Proof. unfold_methods. inv_auto live live_side. Qed.
#[local] Hint Resolve processRecord_live : live.

Lemma for_records_live clock i records :
  always is_live at_live is_live (for_records clock i records).
Proof.
  apply for_records_inv; auto with live.
Qed.

Lemma for_await_live stream : always is_live at_live is_live (for_await stream).
Proof.
  apply for_await_inv; auto with live. intros msg. apply inv_perform. live_side.
Qed.
#[local] Hint Resolve for_await_live : live.

Lemma handle_live parseInt parseFloat h ev :
  always is_live at_live is_live (handle parseInt parseFloat h ev).
Proof. unfold_methods. inv_auto live live_side. Qed.

(** C2: the session never leaves live mode.  From an object whose
    [isLiveMode] is true, whatever the handlers that run and whatever the
    environment answers, every call is made with [isLiveMode] true and the
    run ends with [isLiveMode] true; in particular after any sequence of
    records, however old their timestamps. *)
Theorem live_mode_is_one_way :
  (forall parseInt parseFloat evs s,
     isLiveMode s = true ->
     Forall (fun x => isLiveMode (fst x) = true) (fst (run parseInt parseFloat evs s))
     /\ isLiveMode (snd (run parseInt parseFloat evs s)) = true)
  /\
  (forall clock i records s,
     isLiveMode s = true ->
     Forall (fun x => isLiveMode (fst x) = true)
       (trace_of (for_records clock i records s))
     /\ isLiveMode (final (for_records clock i records s)) = true).
Proof.
  split.
  - intros parseInt parseFloat evs s Hs.
    exact (run_inv is_live at_live parseInt parseFloat
             (handle_live parseInt parseFloat) evs s Hs).
  - intros clock i records s Hs.
    exact (for_records_live clock i records s Hs).
Qed.

Lemma live_mode_is_one_way_witness :
  isLiveMode
    (snd (run parse_zero parse_one
            [(friendly_host, Data "l");
             (friendly_host, Stream false broken_stream);
             (friendly_host, Resize 100 40)]
            live_session)) = true
  /\
  isLiveMode
    (final (for_records (fun _ => 1700000000000) 0
              [record_at 1600000000000; record_at 5; record_at 0]
              (set_isLiveMode true (replay_session None)))) = true.
Proof.
  split.
  - apply (proj1 live_mode_is_one_way parse_zero parse_one
             [(friendly_host, Data "l");
              (friendly_host, Stream false broken_stream);
              (friendly_host, Resize 100 40)]
             live_session).
    reflexivity.
  - apply (proj2 live_mode_is_one_way (fun _ => 1700000000000) 0%nat
             [record_at 1600000000000; record_at 5; record_at 0]
             (set_isLiveMode true (replay_session None))).
    reflexivity.
Defined.

Lemma processRecord_catches_up now r s :
  5000 < now ->
  JS.truthy_opt (since s) = true -> isLiveMode s = false ->
  now - sr_timestamp r <= 5000 ->
  isLiveMode (final (processRecord now r s)) = true.
Proof.
  intros Hnow Hs Hl Hf. destruct s; cbn in *; subst.
  assert (Ht : JS.truthy_Z (sr_timestamp r) = true) by (apply truthy_Z_spec; lia).
  assert (Hle : (now - sr_timestamp r <=? 5000) = true) by (apply Z.leb_le; lia).
  unfold processRecord. unfold_M. rewrite Ht. cbn. rewrite Hle. cbn.
  rewrite Hs. symex; reflexivity.
Qed.

Lemma processRecord_when_live now r s :
  isLiveMode s = true ->
  processRecord now r s =
    ([(set_lastRecordTimestamp (Some (sr_timestamp r)) s,
       terminal_write [Lit (body_or_empty r)])],
     set_lastRecordTimestamp (Some (sr_timestamp r)) s, Normal tt).
Proof.
  intros Hl. destruct s; cbn in *; subst.
  unfold processRecord. unfold_M. symex; reflexivity.
Qed.

(** C3: with a wall clock later than 5 s after the epoch, a record delivered
    to a REPLAYING session (a start timestamp was given and [isLiveMode] is
    false) with now - record.timestamp <= 5000 leaves the session LIVE.  A
    LIVE session makes exactly one call for a record, the write of its body:
    no [sleep], and it stays LIVE. *)
Theorem live_catch_up :
  (forall now r s,
     5000 < now ->
     JS.truthy_opt (since s) = true -> isLiveMode s = false ->
     now - sr_timestamp r <= 5000 ->
     isLiveMode (final (processRecord now r s)) = true)
  /\
  (forall now r s,
     isLiveMode s = true ->
     let s' := set_lastRecordTimestamp (Some (sr_timestamp r)) s in
     processRecord now r s = ([(s', terminal_write [Lit (body_or_empty r)])], s', Normal tt)
     /\ isLiveMode s' = true
     /\ suspension (effects_of (processRecord now r s)) = 0%Q).
Proof.
  split; [exact processRecord_catches_up|].
  intros now r s Hl s'. subst s'.
  rewrite (processRecord_when_live now r s Hl).
  destruct s; cbn in *. auto.
Qed.

Lemma live_catch_up_witness :
  isLiveMode (final (processRecord 1700000000000 (record_at 1699999995000)
                       (replay_session (Some 1699999000000)))) = true
  /\ suspension (effects_of (processRecord 1700000000000 (record_at 1600000000000)
                   (set_isLiveMode true (replay_session (Some 1500000000000))))) = 0%Q.
Proof.
  split.
  - apply (proj1 live_catch_up 1700000000000 (record_at 1699999995000)
             (replay_session (Some 1699999000000)));
      solve [reflexivity | vm_compute; discriminate].
  - apply (proj2 live_catch_up 1700000000000 (record_at 1600000000000)
             (set_isLiveMode true (replay_session (Some 1500000000000)))).
    reflexivity.
Defined.
(** ** The input path *)

Lemma toString_decimal (n : N) :
  option_map N.of_uint (NilZero.uint_of_string (JS.toString n)) = Some n.
Proof.
  unfold JS.toString. destruct n as [|p].
  - reflexivity.
  - rewrite NilZero.usu by apply DecimalPos.Unsigned.to_uint_nonnil.
    cbn [option_map]. f_equal. apply DecimalN.Unsigned.of_to.
Qed.

Lemma sendKeystroke_run h data s :
  sendKeystroke h data s =
    match append_throws h with
    | None =>
        ([(s, records_append (keystrokes_stream s) (basin s)
                [keystroke_record data (Date_now h)])], s, Normal tt)
    | Some e =>
        ([(s, records_append (keystrokes_stream s) (basin s)
                [keystroke_record data (Date_now h)]);
          (s, console_error "Failed to send keystroke to S2:" e)], s, Normal tt)
    end.
Proof.
  unfold sendKeystroke. unfold_M. destruct (append_throws h); reflexivity.
Qed.

Lemma sendWindowResize_run h cols rows s :
  sendWindowResize h cols rows s =
    match append_throws h with
    | None =>
        ([(s, records_append (keystrokes_stream s) (basin s)
                [window_record cols rows (Date_now h)]);
          (s, console_log
                [Lit ("Sent window resize: " ++ JS.toString cols ++ "x"
                      ++ JS.toString rows)%string])], s, Normal tt)
    | Some e =>
        ([(s, records_append (keystrokes_stream s) (basin s)
                [window_record cols rows (Date_now h)]);
          (s, console_error "Failed to send window resize to S2:" e)], s, Normal tt)
    end.
Proof.
  unfold sendWindowResize. unfold_M. destruct (append_throws h); reflexivity.
Qed.

Lemma onData_streaming h data s :
  setupState s = STREAMING -> onData h data s = sendKeystroke h data s.
Proof.
  intros Hs. unfold onData. unfold_M. cbn.
  destruct (SetupState_eq_dec (setupState s) STREAMING); [|congruence].
  destruct (sendKeystroke h data s) as [[t s'] c]. reflexivity.
Qed.

Lemma onResize_streaming h cols rows s :
  setupState s = STREAMING ->
  final (onResize h cols rows s) = s
  /\ appends_of (effects_of (onResize h cols rows s)) =
       [(keystrokes_stream s, basin s, [window_record cols rows (Date_now h)])].
Proof.
  intros Hs. unfold onResize. unfold_M. cbn.
  destruct (SetupState_eq_dec (setupState s) STREAMING); [|congruence].
  rewrite sendWindowResize_run.
  destruct (append_throws h); cbn; auto.
Qed.

Create HintDb shapes.

Ltac shapes_side :=
  unfold appends_wire_shapes, anything;
  first [ intros ? ? ? ? ? H; cbn in H;
          first [ discriminate H
                | injection H as <- <- <-; eexists; split;
                  [reflexivity | constructor] ]
        | intros; exact Logic.I ].

Lemma processRecord_shapes now r :
  always anything appends_wire_shapes anything (processRecord now r).
Proof. unfold_methods. inv_auto shapes shapes_side. Qed.
#[local] Hint Resolve processRecord_shapes : shapes.

Lemma for_await_shapes stream :
  always anything appends_wire_shapes anything (for_await stream).
Proof.
  apply for_await_inv; auto with shapes. intros msg. apply inv_perform. shapes_side.
Qed.
#[local] Hint Resolve for_await_shapes : shapes.

Lemma handle_shapes parseInt parseFloat h ev :
  always anything appends_wire_shapes anything (handle parseInt parseFloat h ev).
Proof.
  unfold_methods. unfold keystroke_record, window_record.
  inv_auto shapes shapes_side.
Qed.

(** C8: in the STREAMING state a keystroke makes exactly one append, of one
    record whose body is the keystroke, whose only header is
    [type=keystroke] and whose timestamp is the reading of the wall clock; a
    resize makes exactly one append, of one record with an empty body, the
    headers [type=window], [rows] and [cols] in decimal, and the reading of
    the wall clock.  Every append of every run carries exactly one record of
    one of these two shapes. *)
Theorem appended_records_wire_shape :
  (forall h data s,
     setupState s = STREAMING ->
     appends_of (effects_of (onData h data s)) =
       [(keystrokes_stream s, basin s,
         [{| body := data;
             headers := [("type", "keystroke")];
             timestamp := Date_now h |}])])
  /\
  (forall h cols rows s,
     setupState s = STREAMING ->
     appends_of (effects_of (onResize h cols rows s)) =
       [(keystrokes_stream s, basin s,
         [{| body := "";
             headers := [("type", "window");
                         ("rows", JS.toString rows);
                         ("cols", JS.toString cols)];
             timestamp := Date_now h |}])]
     /\ option_map N.of_uint (NilZero.uint_of_string (JS.toString rows)) = Some rows
     /\ option_map N.of_uint (NilZero.uint_of_string (JS.toString cols)) = Some cols)
  /\
  (forall parseInt parseFloat evs s,
     Forall (fun x => forall stream s2Basin records,
                snd x = records_append stream s2Basin records ->
                exists r, records = [r] /\ wire_shape r)
       (fst (run parseInt parseFloat evs s))).
Proof.
  split; [|split].
  - intros h data s Hs. rewrite (onData_streaming h data s Hs), sendKeystroke_run.
    destruct (append_throws h); reflexivity.
  - intros h cols rows s Hs.
    split; [exact (proj2 (onResize_streaming h cols rows s Hs))|].
    split; apply toString_decimal.
  - intros parseInt parseFloat evs s.
    exact (proj1 (run_inv anything appends_wire_shapes parseInt parseFloat
                    (handle_shapes parseInt parseFloat) evs s Logic.I)).
Qed.

Lemma appended_records_wire_shape_witness :
  appends_of (effects_of (onData friendly_host "l" live_session)) =
    [("sessions/0001/term_input", "s2term-00001",
      [{| body := "l"; headers := [("type", "keystroke")];
          timestamp := 1700000000000 |}])]
  /\
  appends_of (effects_of (onResize friendly_host 100 40 live_session)) =
    [("sessions/0001/term_input", "s2term-00001",
      [{| body := "";
          headers := [("type", "window"); ("rows", "40"); ("cols", "100")];
          timestamp := 1700000000000 |}])].
Proof.
  split.
  - apply (proj1 appended_records_wire_shape friendly_host "l" live_session).
    reflexivity.
  - apply (proj1 (proj2 appended_records_wire_shape) friendly_host 100%N 40%N
             live_session).
    reflexivity.
Defined.

(** C6: when the append of a keystroke or of a resize is rejected, the
    method makes that one append, reports the error on the console and
    returns normally with the object unchanged: no second attempt, nothing
    thrown to the caller.  The next keystroke or resize is appended as
    usual. *)
Theorem append_failure_is_dropped :
  forall h e s,
    append_throws h = Some e ->
    (forall data,
       sendKeystroke h data s =
         ([(s, records_append (keystrokes_stream s) (basin s)
                 [keystroke_record data (Date_now h)]);
           (s, console_error "Failed to send keystroke to S2:" e)],
          s, Normal tt))
    /\
    (forall cols rows,
       sendWindowResize h cols rows s =
         ([(s, records_append (keystrokes_stream s) (basin s)
                 [window_record cols rows (Date_now h)]);
           (s, console_error "Failed to send window resize to S2:" e)],
          s, Normal tt))
    /\
    (setupState s = STREAMING ->
     forall data cols rows h' data' cols' rows',
       let s1 := final (onData h data s) in
       let s2 := final (onResize h cols rows s) in
       completion_of (onData h data s) = Normal tt
       /\ completion_of (onResize h cols rows s) = Normal tt
       /\ appends_of (effects_of (onData h' data' s1)) =
            [(keystrokes_stream s, basin s, [keystroke_record data' (Date_now h')])]
       /\ appends_of (effects_of (onResize h' cols' rows' s2)) =
            [(keystrokes_stream s, basin s,
              [window_record cols' rows' (Date_now h')])]).
Proof.
  intros h e s He. split; [|split].
  - intros data. rewrite sendKeystroke_run, He. reflexivity.
  - intros cols rows. rewrite sendWindowResize_run, He. reflexivity.
  - intros Hs data cols rows h' data' cols' rows' s1 s2.
    assert (H1 : s1 = s).
    { subst s1. rewrite (onData_streaming h data s Hs), sendKeystroke_run, He.
      reflexivity. }
    assert (H2 : s2 = s).
    { subst s2. exact (proj1 (onResize_streaming h cols rows s Hs)). }
    rewrite H1, H2. split; [|split; [|split]].
    + rewrite (onData_streaming h data s Hs), sendKeystroke_run, He. reflexivity.
    + unfold onResize. unfold_M. cbn.
      destruct (SetupState_eq_dec (setupState s) STREAMING); [|congruence].
      rewrite sendWindowResize_run, He. reflexivity.
    + rewrite (onData_streaming h' data' s Hs), sendKeystroke_run.
      destruct (append_throws h'); reflexivity.
    + exact (proj2 (onResize_streaming h' cols' rows' s Hs)).
Qed.

Lemma append_failure_is_dropped_witness :
  sendKeystroke failing_host "l" live_session =
    ([(live_session,
       records_append "sessions/0001/term_input" "s2term-00001"
         [keystroke_record "l" 1700000000000]);
      (live_session,
       console_error "Failed to send keystroke to S2:" "503 Service Unavailable")],
     live_session, Normal tt)
  /\
  appends_of (effects_of
    (onData friendly_host "s" (final (onData failing_host "l" live_session)))) =
    [("sessions/0001/term_input", "s2term-00001",
      [keystroke_record "s" 1700000000000])].
Proof.
  split.
  - apply (proj1 (append_failure_is_dropped failing_host "503 Service Unavailable"
                    live_session eq_refl)).
  - apply (proj2 (proj2 (append_failure_is_dropped failing_host
                           "503 Service Unavailable" live_session eq_refl))
             eq_refl "l" 80%N 24%N friendly_host "s" 80%N 24%N).
Defined.
(** ** Appends and the setup state *)

Lemma always_weaken {A} pre (P Q : StreamingTerminal * effect -> Prop) post (m : M A) :
  (forall x, P x -> Q x) -> always pre P post m -> always pre Q post m.
Proof.
  intros HPQ Hm s Hs. destruct (Hm s Hs) as [Ht Hf]. split; [|exact Hf].
  eapply Forall_impl; [exact HPQ | exact Ht].
Qed.

Create HintDb appends.

Ltac no_append_side := unfold no_append, anything; intros; first [reflexivity | exact Logic.I].

Lemma processRecord_no_append now r :
  always anything no_append anything (processRecord now r).
Proof. unfold_methods. inv_auto appends no_append_side. Qed.
#[local] Hint Resolve processRecord_no_append : appends.

Lemma for_await_no_append stream :
  always anything no_append anything (for_await stream).
Proof.
  apply for_await_inv; auto with appends. intros msg. apply inv_perform.
  no_append_side.
Qed.
#[local] Hint Resolve for_await_no_append : appends.

Lemma startS2Streaming_no_append h :
  always anything no_append anything (startS2Streaming h).
Proof. unfold_methods. inv_auto appends no_append_side. Qed.

Lemma resumeS2Streaming_no_append interactive stream :
  always anything no_append anything (resumeS2Streaming interactive stream).
Proof. unfold_methods. inv_auto appends no_append_side. Qed.

Lemma no_append_appends_of (t : Trace) :
  Forall no_append t -> appends_of (map snd t) = [].
Proof.
  induction 1 as [|[s e] t He Ht IH]; [reflexivity|].
  unfold no_append in He. cbn in *. destruct e; try discriminate; exact IH.
Qed.

Lemma appends_of_app (es1 es2 : list effect) :
  appends_of (es1 ++ es2) = appends_of es1 ++ appends_of es2.
Proof.
  induction es1 as [|e es1 IH]; [reflexivity|].
  destruct e; cbn; rewrite ?IH; reflexivity.
Qed.

(** [startS2Streaming] catches whatever is thrown inside it. *)
Lemma startS2Streaming_never_throws h s e :
  completion_of (startS2Streaming h s) <> Throw e.
Proof.
  unfold startS2Streaming, try_catch, completion_of.
  match goal with |- context [match ?b s with _ => _ end] =>
    destruct (b s) as [[t s1] [a|e'|]] end; cbn; discriminate.
Qed.

Lemma testS2Connection_connected h s tail :
  checkTail_result h = inr tail ->
  let s1 := set_setupState STREAMING s in
  testS2Connection h s =
    (connected_trace s tail
       ++ trace_of (sendWindowResize h (terminal_cols h) (terminal_rows h) s1)
       ++ trace_of (startS2Streaming h s1),
     final (startS2Streaming h s1),
     completion_of (startS2Streaming h s1)).
Proof.
  intros Htail s1.
  pose proof (startS2Streaming_never_throws h s1) as Hnt.
  unfold testS2Connection, connected_trace. unfold_M.
  cbn -[startS2Streaming sendWindowResize]. rewrite Htail.
  cbn -[startS2Streaming sendWindowResize].
  fold s1. rewrite sendWindowResize_run.
  destruct (append_throws h); cbn -[startS2Streaming];
    destruct (startS2Streaming h s1) as [[t s2] [a|e'|]];
    cbn in *; try reflexivity; exfalso; eapply Hnt; reflexivity.
Qed.

Lemma testS2Connection_refused h s e :
  checkTail_result h = inl e ->
  let s1 := set_setupState COLLECTING_TOKEN s in
  testS2Connection h s =
    ([(s, records_checkTail (basin s) (keystrokes_stream s));
      (s, terminal_writeln [Lit (red ("Connection failed: " ++ e))%string]);
      (s, terminal_writeln [Lit ""]);
      (s1, terminal_writeln [Lit "Please enter S2 token: "]);
      (s1, terminal_write [Lit "> "])],
     s1, Normal tt).
Proof.
  intros He s1. unfold testS2Connection. unfold_M.
  cbn -[startS2Streaming sendWindowResize]. rewrite He. reflexivity.
Qed.

Lemma no_append_initial_window h x : no_append x -> initial_window_only h x.
Proof.
  unfold no_append, initial_window_only. intros Hx stream b records He.
  rewrite He in Hx. discriminate.
Qed.

Lemma initial_window_while_streaming h x :
  initial_window_only h x -> append_while_streaming x.
Proof.
  unfold initial_window_only, append_while_streaming. intros Hx Ha.
  destruct x as [s e]. destruct e; try discriminate. cbn in *.
  exact (proj1 (Hx _ _ _ eq_refl)).
Qed.

Ltac not_an_append :=
  unfold initial_window_only, append_while_streaming, anything; cbn;
  first [ intros; discriminate | intros; exact Logic.I ].

Lemma testS2Connection_initial_window h :
  always anything (initial_window_only h) anything (testS2Connection h).
Proof.
  intros s _. split; [|exact Logic.I].
  destruct (checkTail_result h) as [e|tail] eqn:Htail.
  - rewrite (testS2Connection_refused h s e Htail). unfold trace_of. cbn.
    repeat constructor; not_an_append.
  - rewrite (testS2Connection_connected h s tail Htail). unfold trace_of at 1. cbn [fst].
    apply Forall_app. split; [|apply Forall_app; split].
    + unfold connected_trace. repeat constructor; not_an_append.
    + rewrite sendWindowResize_run. unfold trace_of.
      destruct (append_throws h); cbn [fst];
        (constructor;
         [ intros stream b records He; cbn in He; injection He as <- <- <-;
           split; reflexivity
         | repeat constructor; not_an_append ]).
    + eapply Forall_impl; [apply no_append_initial_window|].
      apply (startS2Streaming_no_append h _ Logic.I).
Qed.
#[local] Hint Resolve testS2Connection_initial_window : appends.

Ltac setup_side := first [ not_an_append | intros; exact Logic.I ].

Lemma handleSetupInput_initial_window h data :
  always anything (initial_window_only h) anything (handleSetupInput h data).
Proof.
  unfold handleSetupInput, processSetupInput, writeAsync, writelnAsync.
  inv_auto appends setup_side.
Qed.

Lemma onResize_run h cols rows s :
  onResize h cols rows s =
    let logged :=
      (s, console_log
            [Lit ("Terminal resized to " ++ JS.toString cols ++ "x"
                  ++ JS.toString rows)%string]) in
    if SetupState_eq_dec (setupState s) STREAMING
    then (logged :: trace_of (sendWindowResize h cols rows s), s, Normal tt)
    else ([logged], s, Normal tt).
Proof.
  unfold onResize. unfold_M. cbn.
  destruct (SetupState_eq_dec (setupState s) STREAMING); [|reflexivity].
  rewrite sendWindowResize_run. destruct (append_throws h); reflexivity.
Qed.

Lemma onData_setup h data s :
  setupState s <> STREAMING -> onData h data s = handleSetupInput h data s.
Proof.
  intros Hs. unfold onData. unfold_M. cbn.
  destruct (SetupState_eq_dec (setupState s) STREAMING); [congruence|].
  destruct (handleSetupInput h data s) as [[t s'] c]. reflexivity.
Qed.

Lemma handle_while_streaming parseInt parseFloat h ev :
  always anything append_while_streaming anything (handle parseInt parseFloat h ev).
Proof.
  destruct ev as [urlParams|data|cols rows|interactive stream]; cbn [handle].
  - assert (Ht : always anything append_while_streaming anything (testS2Connection h)).
    { eapply always_weaken; [apply (initial_window_while_streaming h)|].
      apply testS2Connection_initial_window. }
    unfold startSetupFlow, writeAsync, writelnAsync.
    inv_auto appends setup_side.
  - intros s _. split; [|exact Logic.I].
    destruct (SetupState_eq_dec (setupState s) STREAMING) as [Hs|Hs].
    + rewrite (onData_streaming h data s Hs), sendKeystroke_run.
      unfold trace_of.
      destruct (append_throws h); cbn [fst];
        repeat constructor; unfold append_while_streaming; cbn; auto; discriminate.
    + rewrite (onData_setup h data s Hs).
      eapply Forall_impl; [apply (initial_window_while_streaming h)|].
      apply (handleSetupInput_initial_window h data s Logic.I).
  - intros s _. split; [|exact Logic.I].
    rewrite onResize_run. cbv zeta.
    destruct (SetupState_eq_dec (setupState s) STREAMING) as [Hs|Hs];
      unfold trace_of at 1; cbn [fst].
    + rewrite sendWindowResize_run. unfold trace_of.
      destruct (append_throws h); cbn [fst];
        repeat constructor; unfold append_while_streaming; cbn; auto; discriminate.
    + repeat constructor. not_an_append.
  - eapply always_weaken; [|apply resumeS2Streaming_no_append].
    intros x Hx. apply (initial_window_while_streaming h).
    apply no_append_initial_window. exact Hx.
Qed.

(** C10, as the spec states it, fails: the Enter key typed at the token
    prompt is delivered while [setupState] is COLLECTING_TOKEN, the setup
    flow tests the connection, and the handling of that very event appends
    the initial window record. *)
Lemma setup_input_counterexample :
  setupState token_prompt <> STREAMING
  /\ appends_of (effects_of (onData friendly_host CR token_prompt)) =
       [("sessions/0001/term_input", "s2term-00001",
         [window_record 80 24 1700000000000])].
Proof.
  split; [discriminate | reflexivity].
Qed.

(** C10 (amended): no append is ever made while [setupState] is not
    STREAMING, in any run.  A resize delivered before STREAMING is only
    logged.  A user input delivered before STREAMING goes to the setup flow
    and is never appended as a keystroke: the handling of such an input can
    append only the initial window record of [testS2Connection], and does so
    after the state has become STREAMING. *)
Theorem no_append_before_streaming :
  (forall parseInt parseFloat evs s,
     Forall (fun x => is_append (snd x) = true -> setupState (fst x) = STREAMING)
       (fst (run parseInt parseFloat evs s)))
  /\
  (forall h cols rows s,
     setupState s <> STREAMING ->
     onResize h cols rows s =
       ([(s, console_log
               [Lit ("Terminal resized to " ++ JS.toString cols ++ "x"
                     ++ JS.toString rows)%string])],
        s, Normal tt))
  /\
  (forall h data s,
     setupState s <> STREAMING ->
     onData h data s = handleSetupInput h data s
     /\ Forall (fun x => forall stream s2Basin records,
                  snd x = records_append stream s2Basin records ->
                  setupState (fst x) = STREAMING
                  /\ records = [window_record (terminal_cols h) (terminal_rows h)
                                  (Date_now h)])
          (trace_of (onData h data s))).
Proof.
  split; [|split].
  - intros parseInt parseFloat evs s.
    exact (proj1 (run_inv anything append_while_streaming parseInt parseFloat
                    (handle_while_streaming parseInt parseFloat) evs s Logic.I)).
  - intros h cols rows s Hs. rewrite onResize_run. cbv zeta.
    destruct (SetupState_eq_dec (setupState s) STREAMING); [congruence|reflexivity].
  - intros h data s Hs. split; [exact (onData_setup h data s Hs)|].
    rewrite (onData_setup h data s Hs).
    exact (proj1 (handleSetupInput_initial_window h data s Logic.I)).
Qed.

Lemma no_append_before_streaming_witness :
  onResize friendly_host 100 40 token_prompt =
    ([(token_prompt, console_log [Lit "Terminal resized to 100x40"])],
     token_prompt, Normal tt)
  /\ onData friendly_host "x" token_prompt = handleSetupInput friendly_host "x" token_prompt.
Proof.
  split.
  - apply (proj1 (proj2 no_append_before_streaming) friendly_host 100%N 40%N
             token_prompt).
    discriminate.
  - apply (proj2 (proj2 no_append_before_streaming) friendly_host "x" token_prompt).
    discriminate.
Defined.

(** C4, as the spec states it, fails.  A resize observed during the setup is
    not forwarded.  And in a replay the only window record of the session is
    appended by [testS2Connection], with [isLiveMode] false and before the
    output log is read; when a fresh record later takes the session from
    REPLAYING to LIVE, nothing is appended. *)
Lemma window_record_counterexample :
  (setupState token_prompt = COLLECTING_TOKEN
   /\ appends_of (effects_of (onResize friendly_host 100 40 token_prompt)) = [])
  /\
  (let r := testS2Connection replay_host connecting_replay in
   map (fun x => (isLiveMode (fst x), snd x))
     (filter (fun x => is_append (snd x)) (trace_of r)) =
     [(false,
       records_append "sessions/0001/term_input" "s2term-00001"
         [window_record 80 24 1700000000000])]
   /\ isLiveMode (final r) = true)
  /\
  (let s := replay_session (Some 1699999940000) in
   let r := processRecord 1700000000000 (record_at 1699999999000) s in
   isLiveMode s = false /\ isLiveMode (final r) = true
   /\ appends_of (effects_of r) = []).
Proof.
  repeat split; vm_compute; reflexivity.
Qed.

(** C4 (amended): a resize observed in the STREAMING state makes one append,
    of one window record.  A successful connection test makes exactly one
    append, the window record of the terminal's size: it is the first call
    made after [setupState] has become STREAMING, the object being otherwise
    as [testS2Connection] found it, it comes before any read of the output
    log, and no append follows it.  Processing a record, which is where a
    replay enters live mode, appends nothing. *)
Theorem window_record_on_resize_and_on_connect :
  (forall h cols rows s,
     setupState s = STREAMING ->
     appends_of (effects_of (onResize h cols rows s)) =
       [(keystrokes_stream s, basin s,
         [{| body := "";
             headers := [("type", "window");
                         ("rows", JS.toString rows);
                         ("cols", JS.toString cols)];
             timestamp := Date_now h |}])])
  /\
  (forall h s tail,
     checkTail_result h = inr tail ->
     exists before after,
       trace_of (testS2Connection h s) =
         before
         ++ [(set_setupState STREAMING s,
              records_append (keystrokes_stream s) (basin s)
                [{| body := "";
                    headers := [("type", "window");
                                ("rows", JS.toString (terminal_rows h));
                                ("cols", JS.toString (terminal_cols h))];
                    timestamp := Date_now h |}])]
         ++ after
       /\ Forall (fun x => fst x = s) before
       /\ appends_of (map snd before) = []
       /\ reads_of (map snd before) = []
       /\ appends_of (map snd after) = [])
  /\
  (forall now r s, appends_of (effects_of (processRecord now r s)) = []).
Proof.
  split; [|split].
  - intros h cols rows s Hs. exact (proj2 (onResize_streaming h cols rows s Hs)).
  - intros h s tail Htail.
    rewrite (testS2Connection_connected h s tail Htail). unfold trace_of at 1.
    cbn [fst]. rewrite sendWindowResize_run.
    exists (connected_trace s tail).
    pose proof (no_append_appends_of _
      (proj1 (startS2Streaming_no_append h (set_setupState STREAMING s) Logic.I)))
      as Hafter.
    destruct (append_throws h); unfold trace_of at 1; cbn [fst];
      eexists; (split; [cbn [app]; reflexivity|]);
      (split; [unfold connected_trace; repeat constructor|]);
      (split; [reflexivity|]); (split; [reflexivity|]);
      rewrite map_cons; cbn [snd appends_of]; exact Hafter.
  - intros now r s.
    exact (no_append_appends_of _ (proj1 (processRecord_no_append now r s Logic.I))).
Qed.

Lemma window_record_on_resize_and_on_connect_witness :
  appends_of (effects_of (onResize friendly_host 100 40 live_session)) =
    [("sessions/0001/term_input", "s2term-00001",
      [{| body := "";
          headers := [("type", "window"); ("rows", "40"); ("cols", "100")];
          timestamp := 1700000000000 |}])]
  /\
  (exists before after,
     trace_of (testS2Connection replay_host connecting_replay) =
       before
       ++ [(set_setupState STREAMING connecting_replay,
            records_append "sessions/0001/term_input" "s2term-00001"
              [{| body := "";
                  headers := [("type", "window"); ("rows", "24"); ("cols", "80")];
                  timestamp := 1700000000000 |}])]
       ++ after
     /\ Forall (fun x => fst x = connecting_replay) before
     /\ appends_of (map snd before) = []
     /\ reads_of (map snd before) = []
     /\ appends_of (map snd after) = []).
Proof.
  split.
  - apply (proj1 window_record_on_resize_and_on_connect friendly_host 100%N 40%N
             live_session).
    reflexivity.
  - apply (proj1 (proj2 window_record_on_resize_and_on_connect) replay_host
             connecting_replay (7%N, 1699999999000%N)).
    reflexivity.
Defined.
(** ** Failures of the read stream *)

Lemma processRecord_completes now r s :
  completion_of (processRecord now r s) = Normal tt.
Proof.
  destruct s. unfold processRecord. unfold_M. symex; reflexivity.
Qed.

Lemma for_records_completes clock i records s :
  completion_of (for_records clock i records s) = Normal tt.
Proof.
  revert i s. induction records as [|r rest IH]; intros i s; [reflexivity|].
  cbn [for_records]. unfold bind.
  pose proof (processRecord_completes (clock i) r s) as Hr.
  destruct (processRecord (clock i) r s) as [[t s1] c]. cbn in Hr. subst c.
  specialize (IH (S i) s1).
  destruct (for_records clock (S i) rest s1) as [[t2 s2] c2]. exact IH.
Qed.

Lemma applyS2Record_completes clock event s :
  completion_of (applyS2Record clock event s) = Normal tt.
Proof.
  destruct event; [apply for_records_completes | reflexivity].
Qed.

Lemma for_await_outcome stream s :
  completion_of (for_await stream s) = outcome stream.
Proof.
  revert s. induction stream as [| | e | clock event rest IH]; intros s;
    try reflexivity.
  cbn [for_await outcome]. unfold bind.
  pose proof (applyS2Record_completes clock event s) as Hr.
  destruct (applyS2Record clock event s) as [[t s1] c]. cbn in Hr. subst c.
  specialize (IH s1). destruct (for_await rest s1) as [[t2 s2] c2]. exact IH.
Qed.

Create HintDb reads.

Ltac no_read_side := unfold no_read, anything; intros; exact Logic.I.

Lemma processRecord_no_read now r :
  always anything no_read anything (processRecord now r).
Proof. unfold_methods. inv_auto reads no_read_side. Qed.
#[local] Hint Resolve processRecord_no_read : reads.

Lemma for_await_no_read stream : always anything no_read anything (for_await stream).
Proof.
  apply for_await_inv; auto with reads. intros msg. apply inv_perform. no_read_side.
Qed.

Lemma no_read_reads_of (t : Trace) : Forall no_read t -> reads_of (map snd t) = [].
Proof.
  induction 1 as [|[s e] t He Ht IH]; [reflexivity|].
  unfold no_read in He. cbn in *. destruct e; try contradiction; exact IH.
Qed.

Lemma reads_of_app (es1 es2 : list effect) :
  reads_of (es1 ++ es2) = reads_of es1 ++ reads_of es2.
Proof.
  induction es1 as [|e es1 IH]; [reflexivity|].
  destruct e; cbn; rewrite ?IH; reflexivity.
Qed.

Lemma resumeS2Streaming_throws interactive stream e s :
  outcome stream = Throw e ->
  exists t s',
    trace_of (resumeS2Streaming interactive stream s) =
      t ++ [(s', console_error "S2 streaming error:" e);
            (s', terminal_writeln [Lit (red ("Streaming error: " ++ e))%string])]
    /\ reads_of (map snd t) = []
    /\ completion_of (resumeS2Streaming interactive stream s) = Normal tt.
Proof.
  intros He.
  pose proof (for_await_outcome stream s) as Hc. rewrite He in Hc.
  pose proof (proj1 (for_await_no_read stream s Logic.I)) as Hr.
  unfold resumeS2Streaming, startS2Streaming_catch. unfold_M.
  destruct (for_await stream s) as [[t s1] c]. cbn in Hc, Hr. subst c.
  exists t, s1. destruct interactive; cbn; rewrite ?app_nil_r;
    (split; [reflexivity|]); (split; [apply no_read_reads_of; exact Hr | reflexivity]).
Qed.
Ltac loop_facts :=
  match goal with
  | H : for_await ?it ?s = (?t, _, _) |- _ =>
      let Hr := fresh "Hr" in
      let Hc := fresh "Hc" in
      pose proof (no_read_reads_of _ (proj1 (for_await_no_read it s Logic.I))) as Hr;
      pose proof (for_await_outcome it s) as Hc;
      rewrite H in Hr, Hc; unfold trace_of, completion_of in Hr, Hc;
      cbn [fst snd] in Hr, Hc
  end.

Lemma startS2Streaming_reads_once h s :
  (length (reads_of (effects_of (startS2Streaming h s))) <= 1)%nat.
Proof.
  destruct s, h.
  unfold startS2Streaming, startS2Streaming_catch. unfold_M. symex.
  all: try (cbn; lia).
  all: loop_facts.
  all: cbn; rewrite ?map_app, ?reads_of_app, ?Hr; cbn; lia.
Qed.

Lemma startS2Streaming_throws h s events e :
  read_result h = inr (EventStream events) ->
  outcome events = Throw e ->
  exists t s' e',
    trace_of (startS2Streaming h s) =
      t ++ [(s', console_error "S2 streaming error:" e');
            (s', terminal_writeln [Lit (red ("Streaming error: " ++ e'))%string])]
    /\ completion_of (startS2Streaming h s) = Normal tt.
Proof.
  intros Hread He. unfold startS2Streaming.
  match goal with |- context [try_catch ?b _] => set (body := b) end.
  assert (Hb : exists e', completion_of (body s) = Throw e').
  { subst body. destruct s, h. cbn in Hread. subst.
    unfold_M. symex; try loop_facts; cbn; try (rewrite Hc, He); eauto. }
  destruct Hb as [e' Hb]. unfold try_catch, trace_of, completion_of in *.
  destruct (body s) as [[t s1] c]. cbn in Hb. subst c.
  exists t, s1, e'. split; reflexivity.
Qed.

(** C5, as the spec states it, fails: the class has no reconnection.  A
    session with no start timestamp reads the output log from the tail, goes
    live, renders the record it is delivered, and when the stream then throws
    it reports the error: its only read is the first one, and nothing follows
    the report.  A replay reads from its start timestamp, renders the record
    (so that [lastRecordTimestamp] is that record's timestamp), and when the
    stream throws it reports the error too: there is no read from the last
    consumed timestamp. *)
Lemma read_failure_counterexample :
  (let r := startS2Streaming broken_host live_session in
   isLiveMode (final r) = true
   /\ effects_of r =
        [console_log [Lit "Starting S2 stream reading..."];
         console_log [Lit "Starting from live tail"];
         records_read {| rp_stream := "sessions/0001/term_output";
                         rp_s2Basin := "s2term-00001";
                         rp_timestamp := None; rp_tailOffset := Some 0 |};
         terminal_writeln
           [Lit ("Now reading from "
                 ++ green "s2://s2term-00001/sessions/0001/term_output")%string];
         terminal_writeln [Lit "Terminal ready - start typing!"];
         terminal_writeln [Lit ""];
         terminal_write [Lit "ls"];
         console_error "S2 streaming error:" "connection reset";
         terminal_writeln [Lit (red "Streaming error: connection reset")]])
  /\
  (let r := startS2Streaming broken_host (replay_session None) in
   isLiveMode (final r) = false
   /\ lastRecordTimestamp (final r) = Some 1600000001000
   /\ effects_of r =
        [console_log [Lit "Starting S2 stream reading..."];
         console_log [Lit "Using timestamp: "; Num (JS.of_Z 1600000000000);
                      Lit " ("; ISODate (JS.of_Z 1600000000000); Lit ")"];
         records_read {| rp_stream := "sessions/0001/term_output";
                         rp_s2Basin := "s2term-00001";
                         rp_timestamp := Some (JS.of_Z 1600000000000);
                         rp_tailOffset := None |};
         terminal_writeln
           [Lit ("Now reading from "
                 ++ green "s2://s2term-00001/sessions/0001/term_output")%string];
         terminal_writeln [Lit "Terminal ready - start typing!"];
         terminal_writeln [Lit ""];
         terminal_write [Lit "ls"];
         console_error "S2 streaming error:" "connection reset";
         terminal_writeln [Lit (red "Streaming error: connection reset")]]).
Proof.
  repeat split; vm_compute; reflexivity.
Qed.

(** C5 (amended): when the read stream throws, in live mode or in replay,
    after any number of records, the Client Bridge reports the error on the
    console and on the terminal and stops reading: these two reports are the
    last calls it makes, no read follows, and the method returns normally.
    From its start to its end [startS2Streaming] reads the output log at most
    once. *)
Theorem read_failure_ends_reading :
  (forall interactive stream e s,
     outcome stream = Throw e ->
     exists t s',
       trace_of (resumeS2Streaming interactive stream s) =
         t ++ [(s', console_error "S2 streaming error:" e);
               (s', terminal_writeln [Lit (red ("Streaming error: " ++ e))%string])]
       /\ reads_of (map snd t) = []
       /\ completion_of (resumeS2Streaming interactive stream s) = Normal tt)
  /\
  (forall h s events e,
     read_result h = inr (EventStream events) ->
     outcome events = Throw e ->
     exists t s' e',
       trace_of (startS2Streaming h s) =
         t ++ [(s', console_error "S2 streaming error:" e');
               (s', terminal_writeln [Lit (red ("Streaming error: " ++ e'))%string])]
       /\ completion_of (startS2Streaming h s) = Normal tt)
  /\
  (forall h s,
     (length (reads_of (effects_of (startS2Streaming h s))) <= 1)%nat).
Proof.
  split; [exact resumeS2Streaming_throws|].
  split; [exact startS2Streaming_throws | exact startS2Streaming_reads_once].
Qed.

Lemma read_failure_ends_reading_witness :
  (exists t s',
     trace_of (resumeS2Streaming false broken_stream live_session) =
       t ++ [(s', console_error "S2 streaming error:" "connection reset");
             (s', terminal_writeln
                    [Lit (red ("Streaming error: " ++ "connection reset"))%string])]
     /\ reads_of (map snd t) = []
     /\ completion_of (resumeS2Streaming false broken_stream live_session) = Normal tt)
  /\
  (exists t s' e',
     trace_of (startS2Streaming broken_host live_session) =
       t ++ [(s', console_error "S2 streaming error:" e');
             (s', terminal_writeln [Lit (red ("Streaming error: " ++ e'))%string])]
     /\ completion_of (startS2Streaming broken_host live_session) = Normal tt).
Proof.
  split.
  - apply (proj1 read_failure_ends_reading false broken_stream "connection reset"
             live_session).
    reflexivity.
  - apply (proj1 (proj2 read_failure_ends_reading) broken_host live_session
             broken_stream "connection reset"); reflexivity.
Defined.
(** ** Session addressing *)

Create HintDb frames.

Ltac frame_side :=
  unfold named, since_is; intros [] ?; cbn in *; first [assumption | exact Logic.I].

Lemma for_await_named id stream :
  always (named id) (fun _ => True) (named id) (for_await stream).
Proof.
  apply for_await_inv.
  - intros now r. unfold_methods. inv_auto frames frame_side.
  - intros msg. apply inv_perform. frame_side.
Qed.
#[local] Hint Resolve for_await_named : frames.

Lemma testS2Connection_named id h :
  always (named id) (fun _ => True) (named id) (testS2Connection h).
Proof. unfold_methods. inv_auto frames frame_side. Qed.

Lemma for_await_since v stream :
  always (since_is v) (fun _ => True) (since_is v) (for_await stream).
Proof.
  apply for_await_inv.
  - intros now r. unfold_methods. inv_auto frames frame_side.
  - intros msg. apply inv_perform. frame_side.
Qed.
#[local] Hint Resolve for_await_since : frames.

Lemma testS2Connection_since v h :
  always (since_is v) (fun _ => True) (since_is v) (testS2Connection h).
Proof. unfold_methods. inv_auto frames frame_side. Qed.

Lemma startSetupFlow_query parseInt parseFloat h urlParams s id :
  JS.truthy_str (basinParam urlParams) = true ->
  sessionParam urlParams = Some id ->
  JS.truthy_str (sessionParam urlParams) = true ->
  JS.truthy_str (tokenParam urlParams) = true ->
  let s' := final (startSetupFlow parseInt parseFloat h urlParams s) in
  named id s'
  /\ since s' = (if JS.truthy_str (sinceParam urlParams)
                 then Some (parseInt (string_of (sinceParam urlParams))) else None).
Proof.
  intros Hb Hid Hs Ht s'. subst s'.
  unfold startSetupFlow. rewrite Hb, Hs, Ht. cbn [andb]. rewrite Hid. cbn [string_of].
  destruct s. unfold_M. unfold term_input, term_output.
  Opaque testS2Connection.
  destruct (JS.truthy_str (sinceParam urlParams)); symex.
  Transparent testS2Connection.
  all: try (split; [repeat split|]; reflexivity).
  all: match goal with
       | H : testS2Connection ?h ?s0 = (_, ?s1, _) |- _ =>
           pose proof (proj2 (testS2Connection_named id h s0
                                ltac:(repeat split; reflexivity))) as Hn;
           pose proof (proj2 (testS2Connection_since (since s0) h s0 eq_refl)) as Hv;
           rewrite H in Hn, Hv; unfold final, since_is in Hn, Hv;
           cbn [fst snd] in Hn, Hv
       end.
  all: split; assumption.
Qed.

Lemma processSetupInput_session h id s :
  setupState s = COLLECTING_SESSION ->
  named id (final (processSetupInput h id s)).
Proof.
  intros Hs. destruct s. cbn in Hs. subst.
  unfold processSetupInput, term_input, term_output. unfold_M. cbn.
  repeat split.
Qed.

(** C7: the two stream names are the session id between [sessions/] and
    [/term_input] or [/term_output].  It is so after the setup from the
    query string and after the session prompt of the interactive setup, from
    any object and whatever the environment answers; so the same id always
    gives the same two names. *)
Theorem stream_names_from_session_id :
  (forall parseInt parseFloat h urlParams s id,
     JS.truthy_str (basinParam urlParams) = true ->
     sessionParam urlParams = Some id -> id <> "" ->
     JS.truthy_str (tokenParam urlParams) = true ->
     let s' := final (startSetupFlow parseInt parseFloat h urlParams s) in
     keystrokes_stream s' = ("sessions/" ++ id ++ "/term_input")%string
     /\ pty_stream s' = ("sessions/" ++ id ++ "/term_output")%string)
  /\
  (forall h id s,
     setupState s = COLLECTING_SESSION ->
     let s' := final (processSetupInput h id s) in
     keystrokes_stream s' = ("sessions/" ++ id ++ "/term_input")%string
     /\ pty_stream s' = ("sessions/" ++ id ++ "/term_output")%string)
  /\
  (forall parseInt parseFloat h1 h2 urlParams id s1 s2,
     JS.truthy_str (basinParam urlParams) = true ->
     sessionParam urlParams = Some id -> id <> "" ->
     JS.truthy_str (tokenParam urlParams) = true ->
     setupState s2 = COLLECTING_SESSION ->
     let a := final (startSetupFlow parseInt parseFloat h1 urlParams s1) in
     let b := final (processSetupInput h2 id s2) in
     keystrokes_stream a = keystrokes_stream b /\ pty_stream a = pty_stream b).
Proof.
  assert (Hq : forall parseInt parseFloat h urlParams s id,
     JS.truthy_str (basinParam urlParams) = true ->
     sessionParam urlParams = Some id -> id <> "" ->
     JS.truthy_str (tokenParam urlParams) = true ->
     named id (final (startSetupFlow parseInt parseFloat h urlParams s))).
  { intros parseInt parseFloat h urlParams s id Hb Hid Hne Ht.
    apply (startSetupFlow_query parseInt parseFloat h urlParams s id); auto.
    rewrite Hid. destruct id; [congruence | reflexivity]. }
  split; [|split].
  - intros parseInt parseFloat h urlParams s id Hb Hid Hne Ht s'.
    exact (proj2 (Hq parseInt parseFloat h urlParams s id Hb Hid Hne Ht)).
  - intros h id s Hs s'. exact (proj2 (processSetupInput_session h id s Hs)).
  - intros parseInt parseFloat h1 h2 urlParams id s1 s2 Hb Hid Hne Ht Hs a b.
    destruct (Hq parseInt parseFloat h1 urlParams s1 id Hb Hid Hne Ht) as [_ [Ha1 Ha2]].
    destruct (processSetupInput_session h2 id s2 Hs) as [_ [Hb1 Hb2]].
    subst a b. rewrite Ha1, Ha2, Hb1, Hb2. split; reflexivity.
Qed.

Lemma stream_names_from_session_id_witness :
  keystrokes_stream
    (final (startSetupFlow parse_zero parse_one friendly_host (query None)
              new_StreamingTerminal)) = "sessions/0001/term_input"
  /\
  pty_stream
    (final (processSetupInput friendly_host "0001"
              (set_setupState COLLECTING_SESSION new_StreamingTerminal)))
    = "sessions/0001/term_output"
  /\
  keystrokes_stream
    (final (startSetupFlow parse_zero parse_one friendly_host (query None)
              new_StreamingTerminal))
  = keystrokes_stream
      (final (processSetupInput failing_host "0001"
                (set_setupState COLLECTING_SESSION token_prompt))).
Proof.
  split; [|split].
  - apply (proj1 stream_names_from_session_id parse_zero parse_one friendly_host
             (query None) new_StreamingTerminal "0001");
      solve [reflexivity | discriminate].
  - apply (proj1 (proj2 stream_names_from_session_id) friendly_host "0001"
             (set_setupState COLLECTING_SESSION new_StreamingTerminal)).
    reflexivity.
  - apply (proj2 (proj2 stream_names_from_session_id) parse_zero parse_one
             friendly_host failing_host (query None) "0001" new_StreamingTerminal
             (set_setupState COLLECTING_SESSION token_prompt));
      solve [reflexivity | discriminate].
Defined.

(** ** Sessions without a start timestamp *)

Lemma processRecord_without_since now r s :
  JS.truthy_opt (since s) = false ->
  processRecord now r s =
    ([(set_lastRecordTimestamp (Some (sr_timestamp r)) s,
       terminal_write [Lit (body_or_empty r)])],
     set_lastRecordTimestamp (Some (sr_timestamp r)) s, Normal tt).
Proof.
  intros Hs. destruct s; cbn in *.
  unfold processRecord. unfold_M.
  destruct (JS.truthy_Z (sr_timestamp r)); cbn;
    [destruct (now - sr_timestamp r <=? 5000); cbn|];
    rewrite ?Hs, ?andb_false_r; cbn;
    destruct lastRecordTimestamp0; cbn; rewrite ?Hs; reflexivity.
Qed.

Lemma processRecord_unpaced now r :
  always live_without_since unpaced live_without_since (processRecord now r).
Proof.
  intros s [Hs Hl]. rewrite (processRecord_without_since now r s Hs).
  unfold trace_of, final, live_without_since, unpaced. destruct s; cbn in *.
  split; [|split; assumption].
  constructor; [|constructor]. cbn. split; [assumption|]. split; [reflexivity|discriminate].
Qed.

Lemma for_await_unpaced stream :
  always live_without_since unpaced live_without_since (for_await stream).
Proof.
  apply for_await_inv; [exact processRecord_unpaced|].
  intros msg. apply inv_perform. intros s [Hs Hl].
  unfold unpaced. cbn. split; [assumption|]. split; [reflexivity|discriminate].
Qed.

Lemma startS2Streaming_without_since h s :
  JS.truthy_opt (since s) = false ->
  exists rest,
    trace_of (startS2Streaming h s) =
      [(s, console_log [Lit "Starting S2 stream reading..."]);
       (s, console_log [Lit "Starting from live tail"]);
       (set_isLiveMode true s,
        records_read {| rp_stream := pty_stream s; rp_s2Basin := basin s;
                        rp_timestamp := None; rp_tailOffset := Some 0 |})]
      ++ rest
    /\ Forall unpaced rest
    /\ isLiveMode (final (startS2Streaming h s)) = true.
Proof.
  intros Hs. destruct s, h. cbn in Hs.
  assert (Hn : forall n, since0 = Some n -> JS.truthy n = false).
  { intros n ->. exact Hs. }
  unfold startS2Streaming, startS2Streaming_catch. unfold_M. symex.
  all: try (rewrite (Hn _ eq_refl) in *; discriminate).
  all: try match goal with
       | H : for_await ?it ?s0 = (?t, ?s1, _) |- _ =>
           let Hu := fresh "Hu" in
           assert (Hu : live_without_since s0) by (split; [exact Hs | reflexivity]);
           apply (for_await_unpaced it s0) in Hu;
           rewrite H in Hu; unfold trace_of, final, live_without_since in Hu;
           cbn [fst snd] in Hu; destruct Hu as [Hu [_ Hl]]
       end.
  all: eexists; (split; [reflexivity|]).
  all: split; [|cbn; auto].
  all: repeat first
         [ assumption
         | apply Forall_app; split
         | apply Forall_nil
         | apply Forall_cons;
           [unfold unpaced; cbn;
            (split; [first [reflexivity | assumption]
                    | split; [reflexivity | discriminate]])|] ].
Qed.

(** C9: an absent [since], 0 and NaN are all falsy.  The interactive setup
    never assigns [since]; the setup from the query string leaves it
    undefined when the parameter is absent or empty, and otherwise stores
    what [parseInt] returns.  With a falsy [since], [startS2Streaming] reads
    the output log from tail offset 0 with no timestamp, having set
    [isLiveMode] first, and from then on every call is made in live mode,
    none is a [sleep] and none is the live-mode announcement of the
    catch-up; and a record is processed by the single write of its body,
    [isLiveMode] untouched. *)
Theorem no_since_starts_live_from_tail :
  (JS.truthy_opt None = false
   /\ JS.truthy_opt (Some (JS.of_Z 0)) = false
   /\ JS.truthy_opt (Some NaN) = false
   /\ since new_StreamingTerminal = None)
  /\
  (forall parseInt parseFloat h urlParams s id,
     JS.truthy_str (basinParam urlParams) = true ->
     sessionParam urlParams = Some id -> id <> "" ->
     JS.truthy_str (tokenParam urlParams) = true ->
     since (final (startSetupFlow parseInt parseFloat h urlParams s)) =
       (if JS.truthy_str (sinceParam urlParams)
        then Some (parseInt (string_of (sinceParam urlParams))) else None))
  /\
  (forall h s,
     JS.truthy_opt (since s) = false ->
     exists rest,
       trace_of (startS2Streaming h s) =
         [(s, console_log [Lit "Starting S2 stream reading..."]);
          (s, console_log [Lit "Starting from live tail"]);
          (set_isLiveMode true s,
           records_read {| rp_stream := pty_stream s; rp_s2Basin := basin s;
                           rp_timestamp := None; rp_tailOffset := Some 0 |})]
         ++ rest
       /\ Forall (fun x => isLiveMode (fst x) = true
                           /\ is_setTimeout (snd x) = false
                           /\ snd x <> terminal_writeln
                                         [Lit (green "[Live mode activated]")])
            rest
       /\ isLiveMode (final (startS2Streaming h s)) = true)
  /\
  (forall now r s,
     JS.truthy_opt (since s) = false ->
     let s' := set_lastRecordTimestamp (Some (sr_timestamp r)) s in
     processRecord now r s =
       ([(s', terminal_write [Lit (body_or_empty r)])], s', Normal tt)
     /\ isLiveMode s' = isLiveMode s).
Proof.
  split; [repeat split|].
  split; [|split].
  - intros parseInt parseFloat h urlParams s id Hb Hid Hne Ht.
    apply (startSetupFlow_query parseInt parseFloat h urlParams s id); auto.
    rewrite Hid. destruct id; [congruence | reflexivity].
  - exact startS2Streaming_without_since.
  - intros now r s Hs s'. split; [exact (processRecord_without_since now r s Hs)|].
    destruct s; reflexivity.
Qed.

Lemma no_since_starts_live_from_tail_witness :
  since (final (startSetupFlow parse_zero parse_one friendly_host (query (Some "0"))
                  new_StreamingTerminal)) = Some (JS.of_Z 0)
  /\
  (exists rest,
     trace_of (startS2Streaming friendly_host
                 (set_since (Some NaN) connecting_replay)) =
       [(set_since (Some NaN) connecting_replay,
         console_log [Lit "Starting S2 stream reading..."]);
        (set_since (Some NaN) connecting_replay,
         console_log [Lit "Starting from live tail"]);
        (set_isLiveMode true (set_since (Some NaN) connecting_replay),
         records_read {| rp_stream := "sessions/0001/term_output";
                         rp_s2Basin := "s2term-00001";
                         rp_timestamp := None; rp_tailOffset := Some 0 |})]
       ++ rest
     /\ Forall (fun x => isLiveMode (fst x) = true
                         /\ is_setTimeout (snd x) = false
                         /\ snd x <> terminal_writeln
                                       [Lit (green "[Live mode activated]")])
          rest
     /\ isLiveMode (final (startS2Streaming friendly_host
                             (set_since (Some NaN) connecting_replay))) = true)
  /\
  processRecord 1700000000000 (record_at 1699999999000)
    (set_since (Some (JS.of_Z 0)) (replay_session (Some 1699999990000))) =
    ([(set_lastRecordTimestamp (Some 1699999999000)
         (set_since (Some (JS.of_Z 0)) (replay_session (Some 1699999990000))),
       terminal_write [Lit "ls"])],
     set_lastRecordTimestamp (Some 1699999999000)
       (set_since (Some (JS.of_Z 0)) (replay_session (Some 1699999990000))),
     Normal tt).
Proof.
  split; [|split].
  - apply (proj1 (proj2 no_since_starts_live_from_tail) parse_zero parse_one
             friendly_host (query (Some "0")) new_StreamingTerminal "0001");
      solve [reflexivity | discriminate].
  - apply (proj1 (proj2 (proj2 no_since_starts_live_from_tail)) friendly_host
             (set_since (Some NaN) connecting_replay)).
    reflexivity.
  - apply (proj2 (proj2 (proj2 no_since_starts_live_from_tail)) 1700000000000
             (record_at 1699999999000)
             (set_since (Some (JS.of_Z 0)) (replay_session (Some 1699999990000)))).
    reflexivity.
Defined.
(** ** Rendering *)

Lemma bind_effects {A B} (m : M A) (k : A -> M B) s a :
  completion_of (m s) = Normal a ->
  effects_of (bind m k s) = effects_of (m s) ++ effects_of (k a (final (m s)))
  /\ final (bind m k s) = final (k a (final (m s)))
  /\ completion_of (bind m k s) = completion_of (k a (final (m s))).
Proof.
  unfold bind, effects_of, trace_of, final, completion_of.
  destruct (m s) as [[t1 s1] c]. cbn. intros ->.
  destruct (k a s1) as [[t2 s2] c2]. cbn. rewrite map_app. auto.
Qed.

Lemma writes_of_app (es1 es2 : list effect) :
  writes_of (es1 ++ es2) = writes_of es1 ++ writes_of es2.
Proof.
  induction es1 as [|e es1 IH]; [reflexivity|].
  destruct e; cbn; rewrite ?IH; reflexivity.
Qed.

Lemma processRecord_writes now r s :
  writes_of (effects_of (processRecord now r s)) = [rendered r].
Proof.
  destruct s. unfold processRecord, rendered. unfold_M. symex; reflexivity.
Qed.

Lemma for_records_writes clock i records s :
  writes_of (effects_of (for_records clock i records s)) = map rendered records.
Proof.
  revert i s. induction records as [|r rest IH]; intros i s; [reflexivity|].
  cbn [for_records map].
  destruct (bind_effects (processRecord (clock i) r)
              (fun _ => for_records clock (S i) rest) s tt
              (processRecord_completes (clock i) r s)) as [He _].
  rewrite He, writes_of_app, processRecord_writes, IH. reflexivity.
Qed.

Lemma applyS2Record_writes clock event s :
  writes_of (effects_of (applyS2Record clock event s)) =
    match event with
    | Batch records => map rendered records
    | OtherEvent _ => []
    end.
Proof.
  destruct event; [apply for_records_writes | reflexivity].
Qed.

(** X1: the loop over the read stream renders every record of every batch
    exactly once and in the order of delivery, whatever the mode and the
    pacing: the terminal writes of the loop are the bodies of the records,
    an absent body counting as empty, and events that are not batches render
    nothing. *)
Theorem for_await_renders_in_order :
  forall stream s,
    writes_of (effects_of (for_await stream s)) = map rendered (records_of stream).
Proof.
  induction stream as [| | e | clock event rest IH]; intros s; try reflexivity.
  cbn [for_await].
  destruct (bind_effects (applyS2Record clock event) (fun _ => for_await rest) s tt
              (applyS2Record_completes clock event s)) as [He _].
  rewrite He, writes_of_app, applyS2Record_writes, IH.
  destruct event; cbn [records_of]; [rewrite map_app|]; reflexivity.
Qed.

(** ** Pauses *)

Create HintDb sleeps.

Ltac sleeps_side :=
  unfold sleeps_in_replay, anything;
  first [ intros ? ? ? H; cbn in H; discriminate H | intros; exact Logic.I ].

Lemma processRecord_sleeps now r :
  always anything sleeps_in_replay anything (processRecord now r).
Proof.
  intros s _. split; [|exact Logic.I].
  destruct s. unfold processRecord. unfold_M. symex.
  all: repeat first [apply Forall_nil | apply Forall_cons].
  all: unfold sleeps_in_replay; cbn; intros ? Hms; try discriminate Hms.
  all: injection Hms as <-; repeat split; try assumption.
  all: destruct isLiveMode0; cbn in *; congruence.
Qed.
#[local] Hint Resolve processRecord_sleeps : sleeps.

Lemma for_await_sleeps stream :
  always anything sleeps_in_replay anything (for_await stream).
Proof.
  apply for_await_inv; auto with sleeps. intros msg. apply inv_perform. sleeps_side.
Qed.
#[local] Hint Resolve for_await_sleeps : sleeps.

Lemma handle_sleeps parseInt parseFloat h ev :
  always anything sleeps_in_replay anything (handle parseInt parseFloat h ev).
Proof. unfold_methods. inv_auto sleeps sleeps_side. Qed.

(** X2: in every run, each [sleep] is a pause of the replay: it is made with
    [isLiveMode] false, a truthy [since] and a truthy [lastRecordTimestamp],
    and for a positive time.  So a live session, a session without a start
    timestamp and the first record of a replay are never paused, and a record
    whose timestamp is not later than the previous one is not either. *)
Theorem sleeps_only_pace_the_replay :
  forall parseInt parseFloat evs s,
    Forall (fun x => forall ms, snd x = setTimeout ms ->
              isLiveMode (fst x) = false
              /\ JS.truthy_opt (since (fst x)) = true
              /\ JS.truthy_optZ (lastRecordTimestamp (fst x)) = true
              /\ JS.gt0 ms = true)
      (fst (run parseInt parseFloat evs s)).
Proof.
  intros parseInt parseFloat evs s.
  exact (proj1 (run_inv anything sleeps_in_replay parseInt parseFloat
                  (handle_sleeps parseInt parseFloat) evs s Logic.I)).
Qed.

Lemma suspension_app (es1 es2 : list effect) :
  (suspension (es1 ++ es2) == suspension es1 + suspension es2)%Q.
Proof.
  induction es1 as [|e es1 IH]; cbn [app suspension].
  - ring.
  - destruct e; try exact IH. rewrite IH. ring.
Qed.

Lemma pause_of_old_record now r s last q :
  JS.truthy_opt (since s) = true -> isLiveMode s = false ->
  5000 < now - sr_timestamp r ->
  lastRecordTimestamp s = Some last -> 0 < last ->
  speedup s = Fin q -> (0 < q)%Q ->
  sr_timestamp r = last \/ JS.normal (inject_Z (sr_timestamp r - last) / q) ->
  let exact := (inject_Z (sr_timestamp r - last) / q)%Q in
  (exact * (1 - JS.unit_roundoff)
   <= suspension (effects_of (processRecord now r s)))%Q
  /\ (suspension (effects_of (processRecord now r s))
      <= exact * (1 + JS.unit_roundoff))%Q.
Proof.
  intros Hs Hl Hf Hlast Hpos Hq Hq0 Hgap exact.
  rewrite (processRecord_replaying now r s last q) by assumption.
  rewrite suspension_paced by reflexivity. fold exact.
  destruct Hgap as [Heq|Hn].
  - assert (He : (exact == 0)%Q).
    { subst exact. rewrite Heq, Z.sub_diag. unfold Qeq, Qdiv, Qmult. simpl. lia. }
    rewrite binary64_not_positive by (rewrite He; apply Qle_refl).
    rewrite He. split; lra.
  - destruct (binary64_normal exact Hn) as [d [Hd [Hd0 [Hlo Hhi]]]].
    rewrite Hd. replace (JS.gt0 (Fin d)) with true
      by (symmetry; apply Qgtb0_spec; exact Hd0).
    cbn [JS.value]. split; lra.
Qed.

Lemma replay_of_old_records clock records :
  forall i s last q,
    JS.truthy_opt (since s) = true -> isLiveMode s = false ->
    lastRecordTimestamp s = Some last -> 0 < last ->
    speedup s = Fin q -> (0 < q)%Q ->
    all_old clock i records -> ascending last records ->
    paced_normally q last records ->
    let span := (inject_Z (last_timestamp last records - last) / q)%Q in
    (span * (1 - JS.unit_roundoff)
     <= suspension (effects_of (for_records clock i records s)))%Q
    /\ (suspension (effects_of (for_records clock i records s))
        <= span * (1 + JS.unit_roundoff))%Q
    /\ isLiveMode (final (for_records clock i records s)) = false.
Proof.
  induction records as [|r rest IH];
    intros i s last q Hs Hl Hlast Hpos Hq Hq0 Hold Hasc Hgaps span; subst span.
  - cbn [for_records last_timestamp]. rewrite Z.sub_diag.
    assert (H0 : (inject_Z 0 / q == 0)%Q) by (unfold Qeq, Qdiv, Qmult; simpl; lia).
    rewrite H0.
    change (suspension (effects_of (ret tt s))) with 0%Q.
    split; [lra | split; [lra | exact Hl]].
  - destruct Hold as [Hr Hold]. destruct Hasc as [Hle Hasc].
    destruct Hgaps as [Hgap Hgaps].
    cbn [for_records last_timestamp].
    destruct (bind_effects (processRecord (clock i) r)
                (fun _ => for_records clock (S i) rest) s tt
                (processRecord_completes (clock i) r s)) as [He [Hf _]].
    destruct (processRecord_stays_replaying (clock i) r s Hl Hr) as [Hfin _].
    rewrite He, Hf, Hfin.
    destruct (IH (S i) (set_lastRecordTimestamp (Some (sr_timestamp r)) s)
                (sr_timestamp r) q) as [IHlo [IHhi IHl]];
      try assumption; try (destruct s; cbn in *; assumption || reflexivity); try lia.
    destruct (pause_of_old_record (clock i) r s last q Hs Hl Hr Hlast Hpos Hq Hq0
                Hgap) as [Hlo Hhi].
    split; [|split; [|exact IHl]]; rewrite suspension_app.
    all: assert (Hsum : (inject_Z (last_timestamp (sr_timestamp r) rest - last) / q
                  == inject_Z (sr_timestamp r - last) / q
                     + inject_Z (last_timestamp (sr_timestamp r) rest
                                 - sr_timestamp r) / q)%Q)
      by (unfold Qdiv; rewrite <- Qmult_plus_distr_l, <- inject_Z_plus;
          apply Qmult_comp; [|reflexivity];
          apply inject_Z_injective; lia).
    all: rewrite Hsum; lra.
Qed.

(** X3: a replay compresses time by [speedup].  When a REPLAYING session
    with a positive [lastRecordTimestamp] and a positive [speedup] is
    delivered records that are all more than 5000 ms old and whose timestamps
    never go back, each gap between consecutive timestamps being nil or
    giving a quotient by [speedup] in the range of the normal numbers, the
    pauses of the batch add up to the time from [lastRecordTimestamp] to the
    last record's timestamp, divided by [speedup], within the relative error
    2^-53 of the roundings of the delays; and the session is still REPLAYING
    afterwards. *)
Theorem replay_takes_span_over_speedup :
  forall clock records i s last q,
    JS.truthy_opt (since s) = true -> isLiveMode s = false ->
    lastRecordTimestamp s = Some last -> 0 < last ->
    speedup s = Fin q -> (0 < q)%Q ->
    all_old clock i records -> ascending last records ->
    paced_normally q last records ->
    let span := (inject_Z (last_timestamp last records - last) / q)%Q in
    (span * (1 - JS.unit_roundoff)
     <= suspension (effects_of (for_records clock i records s)))%Q
    /\ (suspension (effects_of (for_records clock i records s))
        <= span * (1 + JS.unit_roundoff))%Q
    /\ isLiveMode (final (for_records clock i records s)) = false.
Proof.
  intros clock records. exact (replay_of_old_records clock records).
Qed.

Lemma replay_takes_span_over_speedup_witness :
  Qle (inject_Z (1600000600000 - 1600000000000) / 60 * (1 - JS.unit_roundoff))
      (suspension (effects_of
         (for_records (fun _ => 1700000000000) 0 ten_minutes fast_replay)))
  /\ Qle (suspension (effects_of
            (for_records (fun _ => 1700000000000) 0 ten_minutes fast_replay)))
         (inject_Z (1600000600000 - 1600000000000) / 60 * (1 + JS.unit_roundoff))
  /\ isLiveMode (final (for_records (fun _ => 1700000000000) 0 ten_minutes
                          fast_replay)) = false.
Proof.
  apply (replay_takes_span_over_speedup (fun _ => 1700000000000) ten_minutes 0%nat
           fast_replay 1600000000000 60%Q);
    try solve [vm_compute; repeat split; solve [reflexivity | discriminate]].
  vm_compute. repeat split; try discriminate; right; split;
    solve [reflexivity | discriminate].
Defined.

(** ** The announcement of live mode *)

Lemma announcements_app (es1 es2 : list effect) :
  announcements (es1 ++ es2) = (announcements es1 + announcements es2)%nat.
Proof.
  unfold announcements. rewrite filter_app, length_app. reflexivity.
Qed.

Lemma once_ret {A} (a : A) : once (ret a).
Proof. intros s. left. split; [reflexivity | auto]. Qed.

Lemma once_this : once this.
Proof. intros s. left. split; [reflexivity | auto]. Qed.

Lemma once_throw {A} (e : error) : once (@throw A e).
Proof. intros s. left. split; [reflexivity | auto]. Qed.

Lemma once_suspend {A} : once (@suspend A).
Proof. intros s. left. split; [reflexivity | auto]. Qed.

Lemma once_assign (f : StreamingTerminal -> StreamingTerminal) :
  (forall s, isLiveMode s = true -> isLiveMode (f s) = true) -> once (assign f).
Proof. intros Hf s. left. split; [reflexivity | apply Hf]. Qed.

Lemma once_perform (e : effect) : is_announcement e = false -> once (perform e).
Proof.
  intros He s. left. split; [|auto].
  unfold announcements, effects_of, trace_of, perform. cbn. rewrite He. reflexivity.
Qed.

Lemma announces_once_seq {A B} (s s1 : StreamingTerminal)
    (t1 t2 : Trace) (s2 : StreamingTerminal) (c1 : completion A) (c2 : completion B) :
  announces_once s (t1, s1, c1) -> announces_once s1 (t2, s2, c2) ->
  announces_once s (t1 ++ t2, s2, c2).
Proof.
  unfold announces_once, effects_of, trace_of, final. cbn [fst snd].
  rewrite map_app, announcements_app.
  intros [[H0 Hl]|[H1 [Hs Hl]]] [[H0' Hl']|[H1' [Hs' Hl']]].
  - left. rewrite H0, H0'. auto.
  - right. rewrite H0, H1'. repeat split; auto.
    destruct (isLiveMode s) eqn:E; [|reflexivity].
    rewrite (Hl eq_refl) in Hs'. discriminate.
  - right. rewrite H1, H0'. repeat split; auto.
  - congruence.
Qed.

Lemma once_bind {A B} (m : M A) (k : A -> M B) :
  once m -> (forall a, once (k a)) -> once (bind m k).
Proof.
  intros Hm Hk s. specialize (Hm s). unfold bind.
  destruct (m s) as [[t1 s1] [a|e|]]; try exact Hm.
  specialize (Hk a s1). destruct (k a s1) as [[t2 s2] c2].
  exact (announces_once_seq s s1 t1 t2 s2 (Normal a) c2 Hm Hk).
Qed.

Lemma once_try_catch {A} (m : M A) (handler : error -> M A) :
  once m -> (forall e, once (handler e)) -> once (try_catch m handler).
Proof.
  intros Hm Hh s. specialize (Hm s). unfold try_catch.
  destruct (m s) as [[t1 s1] [a|e|]]; try exact Hm.
  specialize (Hh e s1). destruct (handler e s1) as [[t2 s2] c2].
  exact (announces_once_seq s s1 t1 t2 s2 (Throw e) c2 Hm Hh).
Qed.

Lemma once_when (b : bool) (m : M unit) : once m -> once (when b m).
Proof. intros Hm. destruct b; [exact Hm | apply once_ret]. Qed.

Lemma processRecord_once now r : once (processRecord now r).
Proof.
  intros s. destruct s. unfold processRecord, announces_once. unfold_M. symex.
  all: first [ left; split; [reflexivity | auto; fail]
             | right; repeat split; try reflexivity;
               destruct isLiveMode0; cbn in *; congruence ].
Qed.

Lemma for_records_once clock i records : once (for_records clock i records).
Proof.
  revert i. induction records as [|r rest IH]; intros i; cbn [for_records].
  - apply once_ret.
  - apply once_bind; [apply processRecord_once | intros _; apply IH].
Qed.

Lemma for_await_once stream : once (for_await stream).
Proof.
  induction stream as [| | e | clock event rest IH]; cbn [for_await].
  - apply once_suspend.
  - apply once_ret.
  - apply once_throw.
  - apply once_bind; [|intros _; exact IH].
    destruct event; cbn [applyS2Record];
      [apply for_records_once | apply once_perform; reflexivity].
Qed.

Create HintDb announce.
#[local] Hint Resolve for_await_once : announce.

Ltac once_side :=
  first [ reflexivity | intros [] ?; cbn in *; auto ].

Ltac once_auto :=
  repeat first
    [ solve [auto with announce nocore]
    | apply once_ret | apply once_this | apply once_throw | apply once_suspend
    | apply once_when
    | apply once_bind; [|intros ?]
    | apply once_try_catch; [|intros ?]
    | apply once_assign; once_side
    | apply once_perform; once_side
    | match goal with
      | |- once (match ?x with _ => _ end) => destruct x
      | |- once (let _ := _ in _) => cbv zeta
      end ].

Lemma handle_once parseInt parseFloat h ev : once (handle parseInt parseFloat h ev).
Proof. unfold_methods. once_auto. Qed.

Lemma run_once parseInt parseFloat evs :
  forall s,
    announces_once (A:=unit) s
      (fst (run parseInt parseFloat evs s), snd (run parseInt parseFloat evs s),
       Normal tt).
Proof.
  induction evs as [|[h ev] rest IH]; intros s; cbn [run fst snd].
  - left. split; [reflexivity | auto].
  - pose proof (handle_once parseInt parseFloat h ev s) as Hh.
    unfold trace_of, final in *.
    destruct (handle parseInt parseFloat h ev s) as [[t1 s1] c1]. cbn [fst snd] in *.
    exact (announces_once_seq s s1 t1 _ _ c1 (Normal tt) Hh (IH s1)).
Qed.

(** X4: live mode is announced at most once.  In every run of handlers, from
    any object, the line [[Live mode activated]] is written to the terminal
    at most once, and never when the run starts from a live session. *)
Theorem live_mode_announced_at_most_once :
  forall parseInt parseFloat evs s,
    (announcements (map snd (fst (run parseInt parseFloat evs s))) <= 1)%nat
    /\ (isLiveMode s = true ->
        announcements (map snd (fst (run parseInt parseFloat evs s))) = 0%nat).
Proof.
  intros parseInt parseFloat evs s.
  destruct (run_once parseInt parseFloat evs s) as [[H0 _]|[H1 [Hs _]]];
    unfold effects_of, trace_of in *; cbn [fst] in *.
  - rewrite H0. split; [lia | reflexivity].
  - rewrite H1. split; [lia | intros Hl; congruence].
Qed.

Lemma live_mode_announced_at_most_once_witness :
  announcements
    (map snd (fst (run parse_zero parse_one
                     [(friendly_host, Stream false broken_stream);
                      (friendly_host, Data "l")]
                     live_session))) = 0%nat.
Proof.
  apply (proj2 (live_mode_announced_at_most_once parse_zero parse_one
                  [(friendly_host, Stream false broken_stream);
                   (friendly_host, Data "l")]
                  live_session)).
  reflexivity.
Defined.

(** ** What the handlers leave alone *)

Ltac session_side :=
  unfold same_session, same_replay; intros [] ?; cbn in *;
  first [assumption | exact Logic.I].

Create HintDb sessions.

Lemma for_await_same_session s0 stream :
  always (same_session s0) (fun _ => True) (same_session s0) (for_await stream).
Proof.
  apply for_await_inv.
  - intros now r. unfold_methods. inv_auto sessions session_side.
  - intros msg. apply inv_perform. session_side.
Qed.

#[local] Hint Resolve for_await_same_session : sessions.

Lemma resumeS2Streaming_same_session s0 interactive stream :
  always (same_session s0) (fun _ => True) (same_session s0)
    (resumeS2Streaming interactive stream).
Proof.
  unfold_methods. inv_auto sessions session_side.
Qed.

Lemma startS2Streaming_same_session s0 h :
  always (same_session s0) (fun _ => True) (same_session s0) (startS2Streaming h).
Proof.
  unfold_methods. inv_auto sessions session_side.
Qed.

Lemma same_session_refl s : same_session s s.
Proof. unfold same_session. repeat split. Qed.

Lemma handle_streaming parseInt parseFloat h ev s0 s :
  setupState s0 = STREAMING -> after_load ev = true ->
  same_session s0 s ->
  same_session s0 (final (handle parseInt parseFloat h ev s)).
Proof.
  intros H0 Hev Hs.
  assert (Hst : setupState s = STREAMING).
  { destruct Hs as [_ [_ [_ [Hst _]]]]. congruence. }
  destruct ev as [urlParams|data|cols rows|interactive stream];
    [discriminate Hev| | |]; cbn [handle].
  - rewrite (onData_streaming h data s Hst), sendKeystroke_run.
    destruct (append_throws h); exact Hs.
  - rewrite (proj1 (onResize_streaming h cols rows s Hst)). exact Hs.
  - exact (proj2 (resumeS2Streaming_same_session s0 interactive stream s Hs)).
Qed.

(** X5: STREAMING is final.  Once [setupState] is STREAMING, no keystroke,
    resize or event of the read stream (its failure included) changes it, nor
    the basin, the session number, the token, the two stream names, [since]
    or [speedup]: the setup is never entered again and the session stays
    attached to the same two logs. *)
Theorem streaming_is_final :
  forall parseInt parseFloat evs s,
    setupState s = STREAMING ->
    Forall (fun hev => after_load (snd hev) = true) evs ->
    let s' := snd (run parseInt parseFloat evs s) in
    setupState s' = STREAMING
    /\ basin s' = basin s /\ sessionNumber s' = sessionNumber s
    /\ token s' = token s
    /\ keystrokes_stream s' = keystrokes_stream s /\ pty_stream s' = pty_stream s
    /\ since s' = since s /\ speedup s' = speedup s.
Proof.
  intros parseInt parseFloat evs s Hs Hevs s'. subst s'.
  assert (H : same_session s (snd (run parseInt parseFloat evs s))).
  { generalize (same_session_refl s). generalize s at 2 4 as x.
    induction Hevs as [|[h ev] rest Hev Hrest IH]; intros x Hx; cbn [run snd].
    - exact Hx.
    - apply IH. apply (handle_streaming parseInt parseFloat h ev s x Hs Hev Hx). }
  destruct H as [Hb [Hn [Ht [Hst [Hk [Hp [Hsi Hsp]]]]]]].
  rewrite Hst. repeat split; assumption.
Qed.

Lemma streaming_is_final_witness :
  setupState
    (snd (run parse_zero parse_one
            [(failing_host, Data CR);
             (friendly_host, Resize 100 40);
             (friendly_host, Stream true broken_stream);
             (friendly_host, Data "x")]
            live_session)) = STREAMING.
Proof.
  apply (streaming_is_final parse_zero parse_one
           [(failing_host, Data CR);
            (friendly_host, Resize 100 40);
            (friendly_host, Stream true broken_stream);
            (friendly_host, Data "x")]
           live_session).
  - reflexivity.
  - repeat constructor.
Defined.

Lemma for_await_same_replay s0 stream :
  always (same_replay s0) (fun _ => True) (same_replay s0) (for_await stream).
Proof.
  apply for_await_inv.
  - intros now r. unfold_methods. inv_auto sessions session_side.
  - intros msg. apply inv_perform. session_side.
Qed.

#[local] Hint Resolve for_await_same_replay : sessions.

Lemma handle_same_replay parseInt parseFloat s0 h ev :
  keeps_replay ev = true ->
  always (same_replay s0) (fun _ => True) (same_replay s0)
    (handle parseInt parseFloat h ev).
Proof.
  intros Hev.
  destruct ev as [urlParams|data|cols rows|interactive stream]; cbn [handle].
  - cbn in Hev. apply negb_true_iff in Hev.
    unfold startSetupFlow. rewrite Hev. unfold_methods. inv_auto sessions session_side.
  - unfold_methods. inv_auto sessions session_side.
  - unfold_methods. inv_auto sessions session_side.
  - unfold_methods. inv_auto sessions session_side.
Qed.

(** X6: only a query string with the three credentials sets the replay.
    Keystrokes, resizes, events of the read stream and the load of a page
    whose query string lacks the basin, the session or the token leave
    [since] and [speedup] as they are, whatever [since] and [speedup]
    parameters that query string has; so a session set up at the prompts,
    from a new object, has no start timestamp and a speedup of 1. *)
Theorem replay_is_set_by_query_only :
  forall parseInt parseFloat evs s,
    Forall (fun hev => keeps_replay (snd hev) = true) evs ->
    since (snd (run parseInt parseFloat evs s)) = since s
    /\ speedup (snd (run parseInt parseFloat evs s)) = speedup s.
Proof.
  intros parseInt parseFloat evs s Hevs.
  assert (H : same_replay s (snd (run parseInt parseFloat evs s))).
  { assert (H0 : same_replay s s) by (split; reflexivity).
    revert H0. generalize s at 2 4 as x.
    induction Hevs as [|[h ev] rest Hev Hrest IH]; intros x Hx; cbn [run snd].
    - exact Hx.
    - apply IH.
      exact (proj2 (handle_same_replay parseInt parseFloat s h ev Hev x Hx)). }
  exact H.
Qed.

Lemma replay_is_set_by_query_only_witness :
  since
    (snd (run parse_zero parse_one
            [(friendly_host,
              Loaded {| basinParam := Some "s2term-00001"; sessionParam := None;
                        tokenParam := Some "t"; sinceParam := Some "1600000000000";
                        speedupParam := Some "60" |});
             (friendly_host, Data "b"); (friendly_host, Data CR);
             (friendly_host, Data "7"); (friendly_host, Data CR);
             (friendly_host, Data "t"); (friendly_host, Data CR)]
            new_StreamingTerminal)) = None.
Proof.
  refine (proj1 (replay_is_set_by_query_only parse_zero parse_one
                   [(friendly_host,
                     Loaded {| basinParam := Some "s2term-00001"; sessionParam := None;
                               tokenParam := Some "t";
                               sinceParam := Some "1600000000000";
                               speedupParam := Some "60" |});
                    (friendly_host, Data "b"); (friendly_host, Data CR);
                    (friendly_host, Data "7"); (friendly_host, Data CR);
                    (friendly_host, Data "t"); (friendly_host, Data CR)]
                   new_StreamingTerminal _)).
  repeat constructor.
Defined.

(** ** The input line of the setup *)

Lemma printable_not_a_key data :
  printable data = true -> String.eqb data CR = false /\ String.eqb data DEL = false.
Proof.
  intros Hp. split; apply String.eqb_neq; intros ->; vm_compute in Hp; discriminate.
Qed.

Lemma handleSetupInput_printable h data s :
  printable data = true ->
  let s' := set_currentInput (currentInput s ++ data)%string s in
  handleSetupInput h data s = ([(s', terminal_write [Lit data])], s', Normal tt).
Proof.
  intros Hp s'. destruct (printable_not_a_key data Hp) as [Hcr Hdel].
  unfold handleSetupInput. rewrite Hcr, Hdel.
  unfold printable in Hp. rewrite Hp. reflexivity.
Qed.

Lemma handleSetupInput_backspace h s :
  handleSetupInput h DEL s =
    match currentInput s with
    | EmptyString => ([], s, Normal tt)
    | _ =>
        let s' := set_currentInput (JS.slice_0_m1 (currentInput s)) s in
        ([(s', terminal_write [Lit (BS ++ " " ++ BS)%string])], s', Normal tt)
    end.
Proof.
  unfold handleSetupInput.
  change (String.eqb DEL CR) with false. change (String.eqb DEL DEL) with true.
  cbv iota. unfold_M. destruct (currentInput s) as [|c rest]; reflexivity.
Qed.

Lemma slice_after_append (x : string) (c : ascii) :
  JS.slice_0_m1 (x ++ String c "") = x.
Proof.
  induction x as [|a x IH]; [reflexivity|].
  change (String a x ++ String c "")%string with (String a (x ++ String c "")).
  destruct (x ++ String c "")%string eqn:E; [destruct x; discriminate E|].
  exact (f_equal (String a) IH).
Qed.

(** X7: the input line of the setup can be edited.  Before STREAMING, a
    printable character is appended to [currentInput] and echoed, and a
    backspace after it restores the object as it was, erasing the echo with
    backspace, space, backspace; a backspace on an empty line does nothing at
    all. *)
Theorem setup_line_editing :
  (forall h h' c s,
     setupState s <> STREAMING ->
     printable (String c "") = true ->
     let s1 := final (onData h (String c "") s) in
     currentInput s1 = (currentInput s ++ String c "")%string
     /\ effects_of (onData h (String c "") s) = [terminal_write [Lit (String c "")]]
     /\ final (onData h' DEL s1) = s
     /\ effects_of (onData h' DEL s1) = [terminal_write [Lit (BS ++ " " ++ BS)%string]])
  /\
  (forall h s,
     setupState s <> STREAMING -> currentInput s = "" ->
     onData h DEL s = ([], s, Normal tt)).
Proof.
  split.
  - intros h h' c s Hs Hp s1. subst s1.
    rewrite (onData_setup h (String c "") s Hs).
    rewrite (handleSetupInput_printable h (String c "") s Hp).
    unfold final, effects_of, trace_of. cbn [fst snd map].
    rewrite onData_setup by (destruct s; exact Hs).
    rewrite handleSetupInput_backspace.
    assert (Hc : currentInput (set_currentInput (currentInput s ++ String c "") s)
                 = (currentInput s ++ String c "")%string) by (destruct s; reflexivity).
    rewrite Hc.
    destruct (currentInput s ++ String c "")%string eqn:E.
    { destruct (currentInput s); discriminate E. }
    rewrite <- E, slice_after_append. cbn [fst snd map].
    repeat split. destruct s; reflexivity.
  - intros h s Hs He. rewrite (onData_setup h DEL s Hs), handleSetupInput_backspace, He.
    reflexivity.
Qed.

Lemma setup_line_editing_witness :
  final (onData friendly_host DEL (final (onData friendly_host "x" token_prompt)))
    = token_prompt
  /\ onData friendly_host DEL basin_prompt = ([], basin_prompt, Normal tt).
Proof.
  split.
  - apply (proj1 setup_line_editing friendly_host friendly_host "x"%char token_prompt);
      [discriminate | reflexivity].
  - apply (proj2 setup_line_editing friendly_host basin_prompt);
      [discriminate | reflexivity].
Defined.

Lemma printable_by_first c rest :
  Ascii.compare " " c <> Gt -> Ascii.compare c "~" = Lt ->
  printable (String c rest) = true.
Proof.
  intros Hlo Hhi. unfold printable, String.leb.
  cbn [String.compare]. rewrite Hhi.
  destruct (Ascii.compare " " c) eqn:E; try congruence; try reflexivity.
  destruct rest; reflexivity.
Qed.

Lemma control_not_printable c rest :
  Ascii.compare c " " = Lt -> printable (String c rest) = false.
Proof.
  intros Hc. unfold printable, String.leb. cbn [String.compare].
  rewrite Ascii.compare_antisym, Hc. reflexivity.
Qed.

Lemma tilde_not_printable c rest :
  printable (String "~" (String c rest)) = false.
Proof.
  unfold printable, String.leb. cbn [String.compare].
  change (Ascii.compare " " "~") with Lt. change (Ascii.compare "~" "~") with Eq.
  reflexivity.
Qed.

(** X8: what the setup accepts as typed text is decided by the first code
    unit of the data.  Before STREAMING, data whose first code unit is
    between space and [}] is appended whole to [currentInput] and echoed,
    whatever follows it (a pasted text with a control code in it is taken as
    it is).  Data whose first code unit is below space, other than the Enter
    key itself, are ignored without any call and any change (so are the
    escape sequences of the arrow keys), and so is [~] followed by
    anything. *)
Theorem setup_accepts_by_first_code_unit :
  (forall h c rest s,
     setupState s <> STREAMING ->
     Ascii.compare " " c <> Gt -> Ascii.compare c "~" = Lt ->
     let s' := set_currentInput (currentInput s ++ String c rest)%string s in
     onData h (String c rest) s = ([(s', terminal_write [Lit (String c rest)])], s', Normal tt))
  /\
  (forall h c rest s,
     setupState s <> STREAMING ->
     Ascii.compare c " " = Lt -> String c rest <> CR ->
     onData h (String c rest) s = ([], s, Normal tt))
  /\
  (forall h c rest s,
     setupState s <> STREAMING ->
     onData h (String "~" (String c rest)) s = ([], s, Normal tt)).
Proof.
  split; [|split].
  - intros h c rest s Hs Hlo Hhi s'. subst s'.
    rewrite (onData_setup h _ s Hs).
    apply handleSetupInput_printable. apply printable_by_first; assumption.
  - intros h c rest s Hs Hc Hcr.
    rewrite (onData_setup h _ s Hs). unfold handleSetupInput.
    apply String.eqb_neq in Hcr. rewrite Hcr.
    assert (Hdel : String.eqb (String c rest) DEL = false).
    { apply String.eqb_neq. intros E. injection E as -> _. vm_compute in Hc.
      discriminate. }
    rewrite Hdel. pose proof (control_not_printable c rest Hc) as Hp.
    unfold printable in Hp. rewrite Hp. reflexivity.
  - intros h c rest s Hs.
    rewrite (onData_setup h _ s Hs). unfold handleSetupInput.
    change (String.eqb (String "~" (String c rest)) CR) with false.
    change (String.eqb (String "~" (String c rest)) DEL) with false.
    pose proof (tilde_not_printable c rest) as Hp.
    unfold printable in Hp. rewrite Hp. reflexivity.
Qed.

Lemma setup_accepts_by_first_code_unit_witness :
  onData friendly_host (String "a" ("b" ++ CR ++ "c")) token_prompt =
    ([(set_currentInput
         (currentInput token_prompt ++ String "a" ("b" ++ CR ++ "c"))%string
         token_prompt,
       terminal_write [Lit (String "a" ("b" ++ CR ++ "c"))])],
     set_currentInput
       (currentInput token_prompt ++ String "a" ("b" ++ CR ++ "c"))%string
       token_prompt,
     Normal tt)
  /\ onData friendly_host (ESC ++ "[A") token_prompt = ([], token_prompt, Normal tt)
  /\ onData friendly_host "~~" token_prompt = ([], token_prompt, Normal tt).
Proof.
  split; [|split].
  - apply (proj1 setup_accepts_by_first_code_unit friendly_host "a"%char
             ("b" ++ CR ++ "c")%string token_prompt);
      solve [reflexivity | discriminate].
  - apply (proj1 (proj2 setup_accepts_by_first_code_unit) friendly_host
             (ascii_of_nat 27) "[A" token_prompt);
      solve [reflexivity | discriminate].
  - apply (proj2 (proj2 setup_accepts_by_first_code_unit) friendly_host "~"%char ""
             token_prompt).
    discriminate.
Defined.

(** ** The prompts of the setup *)

Lemma testS2Connection_final h s tail :
  checkTail_result h = inr tail ->
  same_session (set_setupState STREAMING s) (final (testS2Connection h s)).
Proof.
  intros Htail. rewrite (testS2Connection_connected h s tail Htail).
  unfold final at 1. cbn [fst snd].
  exact (proj2 (startS2Streaming_same_session _ h _ (same_session_refl _))).
Qed.

Lemma handleSetupInput_enter_basin h s :
  setupState s = COLLECTING_BASIN ->
  final (handleSetupInput h CR s) =
    set_currentInput ""
      (set_setupState COLLECTING_SESSION (set_basin (JS.trim (currentInput s)) s)).
Proof.
  intros Hs. destruct s. cbn in Hs. subst.
  unfold handleSetupInput, processSetupInput.
  change (String.eqb CR CR) with true. cbv iota. unfold_M. reflexivity.
Qed.

Lemma handleSetupInput_enter_session h s :
  setupState s = COLLECTING_SESSION ->
  final (handleSetupInput h CR s) =
    set_currentInput ""
      (set_setupState COLLECTING_TOKEN
         (set_pty_stream (term_output (JS.trim (currentInput s)))
            (set_keystrokes_stream (term_input (JS.trim (currentInput s)))
               (set_sessionNumber (JS.trim (currentInput s)) s)))).
Proof.
  intros Hs. destruct s. cbn in Hs. subst.
  unfold handleSetupInput, processSetupInput.
  change (String.eqb CR CR) with true. cbv iota. unfold_M. reflexivity.
Qed.

Lemma handleSetupInput_enter_token h s :
  setupState s = COLLECTING_TOKEN ->
  let r := testS2Connection h
             (set_setupState TESTING_CONNECTION
                (set_token (JS.trim (currentInput s)) s)) in
  final (handleSetupInput h CR s) =
    match completion_of r with
    | Normal _ => set_currentInput "" (final r)
    | _ => final r
    end.
Proof.
  intros Hs r. subst r. destruct s. cbn in Hs. subst.
  unfold handleSetupInput, processSetupInput.
  change (String.eqb CR CR) with true. cbv iota. unfold_M.
  cbn -[testS2Connection].
  match goal with |- context [testS2Connection h ?x] =>
    destruct (testS2Connection h x) as [[t s2] [a|e|]] end; reflexivity.
Qed.

Lemma onData_typed h data s :
  setupState s <> STREAMING -> printable data = true ->
  final (onData h data s) = set_currentInput (currentInput s ++ data)%string s.
Proof.
  intros Hs Hp. rewrite (onData_setup h data s Hs).
  rewrite (handleSetupInput_printable h data s Hp). reflexivity.
Qed.

Lemma onData_enter_token h s tail :
  setupState s = COLLECTING_TOKEN -> checkTail_result h = inr tail ->
  same_session (set_setupState STREAMING (set_token (JS.trim (currentInput s)) s))
    (final (onData h CR s)).
Proof.
  intros Hs Htail.
  rewrite onData_setup by congruence.
  rewrite (handleSetupInput_enter_token h s Hs). cbv zeta.
  pose proof (testS2Connection_final h
                (set_setupState TESTING_CONNECTION
                   (set_token (JS.trim (currentInput s)) s)) tail Htail) as Hf.
  assert (Hsame : same_session
            (set_setupState STREAMING (set_token (JS.trim (currentInput s)) s))
            (final (testS2Connection h
                      (set_setupState TESTING_CONNECTION
                         (set_token (JS.trim (currentInput s)) s))))).
  { destruct s; exact Hf. }
  destruct (completion_of _); exact Hsame.
Qed.

Lemma typed_key h data s :
  setupState s <> STREAMING -> printable data = true ->
  onData h data s =
    ([(set_currentInput (currentInput s ++ data)%string s, terminal_write [Lit data])],
     set_currentInput (currentInput s ++ data)%string s, Normal tt).
Proof.
  intros Hs Hp. rewrite (onData_setup h data s Hs).
  exact (handleSetupInput_printable h data s Hp).
Qed.

Lemma enter_returns_at_basin h s :
  setupState s = COLLECTING_BASIN -> completion_of (onData h CR s) = Normal tt.
Proof.
  intros Hs. rewrite onData_setup by congruence.
  destruct s. cbn in Hs. subst.
  unfold handleSetupInput, processSetupInput.
  change (String.eqb CR CR) with true. cbv iota. unfold_M. reflexivity.
Qed.

Lemma enter_returns_at_session h s :
  setupState s = COLLECTING_SESSION -> completion_of (onData h CR s) = Normal tt.
Proof.
  intros Hs. rewrite onData_setup by congruence.
  destruct s. cbn in Hs. subst.
  unfold handleSetupInput, processSetupInput.
  change (String.eqb CR CR) with true. cbv iota. unfold_M. reflexivity.
Qed.

(** X9: the prompts lead to the session that was typed, when the keys are
    typed one at a time.  From the basin prompt with an empty input line,
    three lines of printable text, each followed by the Enter key, every key
    being delivered when the handler of the previous one has returned: the
    handlers of the first five keys do return, and a tail check that succeeds
    at the last Enter leaves the object STREAMING with the trimmed lines as
    basin, session number and token, and with the two stream names of that
    session number; [since] is untouched. *)
Theorem prompts_configure_the_session :
  forall h1 h2 h3 h4 h5 h b n t tail s,
    setupState s = COLLECTING_BASIN -> currentInput s = "" ->
    printable b = true -> printable n = true -> printable t = true ->
    checkTail_result h = inr tail ->
    exists s5,
      typed_in_turn [(h1, b); (h2, CR); (h3, n); (h4, CR); (h5, t)] s = Some s5
      /\ let s' := final (onData h CR s5) in
         setupState s' = STREAMING
         /\ basin s' = JS.trim b
         /\ sessionNumber s' = JS.trim n
         /\ token s' = JS.trim t
         /\ keystrokes_stream s' = ("sessions/" ++ JS.trim n ++ "/term_input")%string
         /\ pty_stream s' = ("sessions/" ++ JS.trim n ++ "/term_output")%string
         /\ since s' = since s.
Proof.
  intros h1 h2 h3 h4 h5 h b n t tail s Hs Hcur Hb Hn Ht Htail.
  destruct s. cbn in Hs, Hcur. subst.
  cbn [typed_in_turn].
  rewrite (typed_key h1 b) by solve [assumption | cbn; discriminate].
  unfold completion_of at 1, final at 1. cbn [fst snd].
  rewrite (enter_returns_at_basin h2) by reflexivity.
  rewrite (onData_setup h2 CR) by (cbn; discriminate).
  rewrite handleSetupInput_enter_basin by reflexivity.
  rewrite (typed_key h3 n) by solve [assumption | cbn; discriminate].
  unfold completion_of at 1, final at 1. cbn [fst snd].
  rewrite (enter_returns_at_session h4) by reflexivity.
  rewrite (onData_setup h4 CR) by (cbn; discriminate).
  rewrite handleSetupInput_enter_session by reflexivity.
  rewrite (typed_key h5 t) by solve [assumption | cbn; discriminate].
  unfold completion_of at 1, final at 1. cbn [fst snd].
  eexists. split; [reflexivity|]. cbv zeta.
  match goal with |- context [final (onData h CR ?x)] =>
    pose proof (onData_enter_token h x tail eq_refl Htail) as Hfin;
    destruct (final (onData h CR x))
  end.
  unfold same_session in Hfin. cbn in Hfin. cbn.
  destruct Hfin as [H1 [H2 [H3 [H4 [H5 [H6 [H7 H8]]]]]]].
  repeat split; assumption.
Qed.

Lemma prompts_configure_the_session_witness :
  exists s5,
    typed_in_turn
      [(friendly_host, " s2term-00001"); (friendly_host, CR);
       (friendly_host, "0001 "); (friendly_host, CR);
       (friendly_host, "secret")] basin_prompt = Some s5
    /\ let s' := final (onData friendly_host CR s5) in
       setupState s' = STREAMING
       /\ basin s' = JS.trim " s2term-00001"
       /\ sessionNumber s' = JS.trim "0001 "
       /\ token s' = JS.trim "secret"
       /\ keystrokes_stream s'
          = ("sessions/" ++ JS.trim "0001 " ++ "/term_input")%string
       /\ pty_stream s'
          = ("sessions/" ++ JS.trim "0001 " ++ "/term_output")%string
       /\ since s' = since basin_prompt.
Proof.
  apply (prompts_configure_the_session
           friendly_host friendly_host friendly_host friendly_host friendly_host
           friendly_host " s2term-00001" "0001 " "secret" (7%N, 1699999999000%N)
           basin_prompt); reflexivity.
Defined.

Lemma onData_enter_token_refused h s e :
  setupState s = COLLECTING_TOKEN -> checkTail_result h = inl e ->
  final (onData h CR s) =
    set_currentInput ""
      (set_setupState COLLECTING_TOKEN (set_token (JS.trim (currentInput s)) s)).
Proof.
  intros Hs He.
  rewrite onData_setup by congruence.
  rewrite (handleSetupInput_enter_token h s Hs). cbv zeta.
  rewrite (testS2Connection_refused h _ e He). destruct s; reflexivity.
Qed.

Lemma enter_returns_when_refused h s e :
  setupState s = COLLECTING_TOKEN -> checkTail_result h = inl e ->
  completion_of (onData h CR s) = Normal tt.
Proof.
  intros Hs He. rewrite onData_setup by congruence.
  destruct s. cbn in Hs. subst.
  unfold handleSetupInput, processSetupInput.
  change (String.eqb CR CR) with true. cbv iota. unfold_M.
  cbn -[testS2Connection].
  match goal with |- context [testS2Connection h ?x] =>
    rewrite (testS2Connection_refused h x e He) end.
  reflexivity.
Qed.

(** X10: the tail check decides where the setup goes.  When it is refused,
    [testS2Connection] reports the failure and puts the object back at the
    token prompt, otherwise unchanged, without any append or read; when it
    succeeds, the object ends STREAMING, whatever the read stream does.  So a
    refused token can be typed again, when the keys are typed one at a time,
    each delivered when the handler of the previous one has returned: the
    handler of a refused Enter at the token prompt returns, so does the one
    of a new line, and an Enter that then passes the tail check leaves the
    object STREAMING with the new token, on the same basin and logs. *)
Theorem tail_check_decides_the_state :
  (forall h s e,
     checkTail_result h = inl e ->
     final (testS2Connection h s) = set_setupState COLLECTING_TOKEN s
     /\ completion_of (testS2Connection h s) = Normal tt
     /\ appends_of (effects_of (testS2Connection h s)) = []
     /\ reads_of (effects_of (testS2Connection h s)) = [])
  /\
  (forall h s tail,
     checkTail_result h = inr tail ->
     setupState (final (testS2Connection h s)) = STREAMING)
  /\
  (forall h1 h2 h3 e tail t s,
     setupState s = COLLECTING_TOKEN ->
     checkTail_result h1 = inl e -> printable t = true ->
     checkTail_result h3 = inr tail ->
     exists s2,
       typed_in_turn [(h1, CR); (h2, t)] s = Some s2
       /\ let s' := final (onData h3 CR s2) in
          setupState s' = STREAMING /\ token s' = JS.trim t
          /\ basin s' = basin s
          /\ keystrokes_stream s' = keystrokes_stream s
          /\ pty_stream s' = pty_stream s).
Proof.
  split; [|split].
  - intros h s e He. rewrite (testS2Connection_refused h s e He). repeat split.
  - intros h s tail Htail.
    destruct (testS2Connection_final h s tail Htail) as [_ [_ [_ [Hst _]]]].
    rewrite Hst. destruct s; reflexivity.
  - intros h1 h2 h3 e tail t s Hs He Ht Htail.
    destruct s. cbn in Hs. subst. cbn [typed_in_turn].
    rewrite (enter_returns_when_refused h1 _ e) by solve [reflexivity | assumption].
    rewrite (onData_enter_token_refused h1 _ e) by solve [reflexivity | assumption].
    rewrite (typed_key h2 t) by solve [assumption | cbn; discriminate].
    unfold completion_of at 1, final at 1. cbn [fst snd].
    eexists. split; [reflexivity|]. cbv zeta.
    match goal with |- context [final (onData h3 CR ?x)] =>
      pose proof (onData_enter_token h3 x tail eq_refl Htail) as Hfin;
      destruct (final (onData h3 CR x))
    end.
    unfold same_session in Hfin. cbn in Hfin. cbn.
    destruct Hfin as [H1 [H2 [H3 [H4 [H5 [H6 [H7 H8]]]]]]].
    repeat split; assumption.
Qed.

Lemma tail_check_decides_the_state_witness :
  final (testS2Connection refusing_host connecting_replay)
    = set_setupState COLLECTING_TOKEN connecting_replay
  /\ setupState (final (testS2Connection replay_host connecting_replay)) = STREAMING
  /\ exists s2,
       typed_in_turn [(refusing_host, CR); (friendly_host, "better")] token_prompt
         = Some s2
       /\ token (final (onData friendly_host CR s2)) = JS.trim "better".
Proof.
  split; [|split].
  - apply (proj1 tail_check_decides_the_state refusing_host connecting_replay
             "401 Unauthorized").
    reflexivity.
  - apply (proj1 (proj2 tail_check_decides_the_state) replay_host connecting_replay
             (7%N, 1699999999000%N)).
    reflexivity.
  - destruct (proj2 (proj2 tail_check_decides_the_state)
                refusing_host friendly_host friendly_host "401 Unauthorized"
                (7%N, 1699999999000%N) "better" token_prompt
                eq_refl eq_refl eq_refl eq_refl) as [s2 [H2 [_ [Ht _]]]].
    exists s2. split; [exact H2 | exact Ht].
Defined.

(** ** The names of the logs *)

Lemma append_cons (c : ascii) (x y : string) :
  (String c x ++ y)%string = String c (x ++ y).
Proof. reflexivity. Qed.

Lemma list_of_append (x y : string) :
  list_ascii_of_string (x ++ y) = list_ascii_of_string x ++ list_ascii_of_string y.
Proof.
  induction x as [|c x IH]; [reflexivity|].
  rewrite append_cons. cbn [list_ascii_of_string app]. rewrite IH. reflexivity.
Qed.

Lemma list_of_injective (x y : string) :
  list_ascii_of_string x = list_ascii_of_string y -> x = y.
Proof.
  intros H. rewrite <- (string_of_list_ascii_of_string x),
    <- (string_of_list_ascii_of_string y), H. reflexivity.
Qed.

Lemma append_cancel_l (p x y : string) : (p ++ x)%string = (p ++ y)%string -> x = y.
Proof.
  induction p as [|c p IH]; [exact (fun H => H)|].
  rewrite !append_cons. intros H. injection H as H. exact (IH H).
Qed.

Lemma append_cancel_r (x y q : string) : (x ++ q)%string = (y ++ q)%string -> x = y.
Proof.
  intros H. apply list_of_injective.
  apply (f_equal list_ascii_of_string) in H. rewrite !list_of_append in H.
  exact (app_inv_tail _ _ _ H).
Qed.

(** X11: sessions do not share logs.  Two session numbers with the same
    input log name, or with the same output log name, are equal, and the
    input log name of a session number is never the output log name of any
    session number. *)
Theorem sessions_do_not_share_logs :
  forall a b,
    (term_input a = term_input b -> a = b)
    /\ (term_output a = term_output b -> a = b)
    /\ term_input a <> term_output b.
Proof.
  intros a b. unfold term_input, term_output. split; [|split].
  - intros H. apply append_cancel_l in H. exact (append_cancel_r _ _ _ H).
  - intros H. apply append_cancel_l in H. exact (append_cancel_r _ _ _ H).
  - intros H. apply append_cancel_l in H.
    apply (f_equal list_ascii_of_string) in H. rewrite !list_of_append in H.
    apply (f_equal (@rev ascii)) in H. rewrite !rev_app_distr in H.
    cbv [list_ascii_of_string rev app] in H. discriminate H.
Qed.

Lemma sessions_do_not_share_logs_witness :
  "0001" = "0001" /\ "7" = "7" /\ term_input "0001" <> term_output "0001".
Proof.
  split; [|split].
  - apply (proj1 (sessions_do_not_share_logs "0001" "0001")). reflexivity.
  - apply (proj1 (proj2 (sessions_do_not_share_logs "7" "7"))). reflexivity.
  - exact (proj2 (proj2 (sessions_do_not_share_logs "0001" "0001"))).
Defined.

(** ** The start of the replay *)

Ltac loop_reads :=
  match goal with
  | H : for_await ?it ?s = (?t, _, _) |- _ =>
      let Hr := fresh "Hr" in
      pose proof (no_read_reads_of _ (proj1 (for_await_no_read it s Logic.I))) as Hr;
      rewrite H in Hr; unfold trace_of in Hr; cbn [fst snd] in Hr
  end.

Lemma startS2Streaming_replay_reads h s n :
  since s = Some n -> JS.truthy n = true ->
  reads_of (effects_of (startS2Streaming h s)) =
    if JS.valid_time n
    then [{| rp_stream := pty_stream s; rp_s2Basin := basin s;
             rp_timestamp := Some n; rp_tailOffset := None |}]
    else [].
Proof.
  intros Hs Hn. destruct s, h. cbn in Hs. subst.
  unfold startS2Streaming, startS2Streaming_catch. unfold_M. cbn. rewrite Hn.
  destruct (JS.valid_time n); symex; try reflexivity.
  all: loop_reads.
  all: cbn; rewrite ?map_app, ?reads_of_app, ?Hr; reflexivity.
Qed.

Lemma startS2Streaming_replay_start h s n :
  since s = Some n -> JS.truthy n = true -> JS.valid_time n = true ->
  exists rest,
    trace_of (startS2Streaming h s) =
      [(s, console_log [Lit "Starting S2 stream reading..."]);
       (s, console_log [Lit "Using timestamp: "; Num n; Lit " ("; ISODate n; Lit ")"]);
       (s, records_read {| rp_stream := pty_stream s; rp_s2Basin := basin s;
                           rp_timestamp := Some n; rp_tailOffset := None |})]
      ++ rest.
Proof.
  intros Hs Hn Hv. destruct s, h. cbn in Hs. subst.
  unfold startS2Streaming, startS2Streaming_catch. unfold_M. cbn. rewrite Hn.
  cbn. rewrite Hv. symex; eexists; reflexivity.
Qed.

(** X12: a replay reads the output log once, from [since].  With a truthy
    [since] that is a valid time, the first three calls of
    [startS2Streaming] are its two log lines and the read of the output log
    from the timestamp [since], with no tail offset and with the object still
    as it was ([isLiveMode] is not set), and that read is the only one,
    whatever the stream delivers.  With a truthy [since] that is not a valid
    time, the log line throws and the output log is not read at all. *)
Theorem replay_reads_once_from_since :
  (forall h s n,
     since s = Some n -> JS.truthy n = true -> JS.valid_time n = true ->
     reads_of (effects_of (startS2Streaming h s)) =
       [{| rp_stream := pty_stream s; rp_s2Basin := basin s;
           rp_timestamp := Some n; rp_tailOffset := None |}]
     /\ exists rest,
          trace_of (startS2Streaming h s) =
            [(s, console_log [Lit "Starting S2 stream reading..."]);
             (s, console_log
                   [Lit "Using timestamp: "; Num n; Lit " ("; ISODate n; Lit ")"]);
             (s, records_read {| rp_stream := pty_stream s; rp_s2Basin := basin s;
                                 rp_timestamp := Some n; rp_tailOffset := None |})]
            ++ rest)
  /\
  (forall h s n,
     since s = Some n -> JS.truthy n = true -> JS.valid_time n = false ->
     reads_of (effects_of (startS2Streaming h s)) = []
     /\ completion_of (startS2Streaming h s) = Normal tt).
Proof.
  split.
  - intros h s n Hs Hn Hv. split.
    + rewrite (startS2Streaming_replay_reads h s n Hs Hn), Hv. reflexivity.
    + exact (startS2Streaming_replay_start h s n Hs Hn Hv).
  - intros h s n Hs Hn Hv. split.
    + rewrite (startS2Streaming_replay_reads h s n Hs Hn), Hv. reflexivity.
    + destruct s, h. cbn in Hs. subst.
      unfold startS2Streaming, startS2Streaming_catch. unfold_M. cbn. rewrite Hn.
      cbn. rewrite Hv. reflexivity.
Qed.

Lemma replay_reads_once_from_since_witness :
  reads_of (effects_of (startS2Streaming broken_host (replay_session None))) =
    [{| rp_stream := "sessions/0001/term_output"; rp_s2Basin := "s2term-00001";
        rp_timestamp := Some (JS.of_Z 1600000000000); rp_tailOffset := None |}]
  /\
  reads_of (effects_of
    (startS2Streaming broken_host (set_since (Some PosInf) (replay_session None))))
    = [].
Proof.
  split.
  - apply (proj1 replay_reads_once_from_since broken_host (replay_session None)
             (JS.of_Z 1600000000000)); reflexivity.
  - apply (proj2 replay_reads_once_from_since broken_host
             (set_since (Some PosInf) (replay_session None)) PosInf); reflexivity.
Defined.

(** X13: a start timestamp outside the range of [Date] aborts the setup.
    When the query string has the three credentials and a [since] that
    [parseInt] reads as a truthy number that is not a valid time, the setup
    flow throws a RangeError while announcing the start timestamp: the
    connection is never tested, no call to S2 is made and [setupState] is
    left as it was. *)
Theorem invalid_since_aborts_setup :
  forall parseInt parseFloat h urlParams s,
    JS.truthy_str (basinParam urlParams) = true ->
    JS.truthy_str (sessionParam urlParams) = true ->
    JS.truthy_str (tokenParam urlParams) = true ->
    JS.truthy_str (sinceParam urlParams) = true ->
    JS.truthy (parseInt (string_of (sinceParam urlParams))) = true ->
    JS.valid_time (parseInt (string_of (sinceParam urlParams))) = false ->
    let r := startSetupFlow parseInt parseFloat h urlParams s in
    completion_of r = Throw RangeError
    /\ Forall (fun e => is_S2_call e = false) (effects_of r)
    /\ setupState (final r) = setupState s.
Proof.
  intros parseInt parseFloat h urlParams s Hb Hs Ht Hsi Hn Hv r. subst r.
  unfold startSetupFlow. rewrite Hb, Hs, Ht, Hsi. cbn [andb].
  destruct s. unfold_M. cbn. rewrite Hn. cbn. rewrite Hv. cbn.
  repeat split. repeat constructor.
Qed.

Lemma invalid_since_aborts_setup_witness :
  completion_of
    (startSetupFlow parse_late parse_one friendly_host
       (query (Some "8640000000000001")) new_StreamingTerminal) = Throw RangeError.
Proof.
  apply (invalid_since_aborts_setup parse_late parse_one friendly_host
           (query (Some "8640000000000001")) new_StreamingTerminal); reflexivity.
Defined.

(** ** The calls to S2 *)

Create HintDb logs.

Ltac logs_side := unfold on_own_logs, anything; intros; cbn; exact Logic.I.

Lemma processRecord_own_logs now r :
  always anything on_own_logs anything (processRecord now r).
Proof. unfold_methods. inv_auto logs logs_side. Qed.
#[local] Hint Resolve processRecord_own_logs : logs.

Lemma for_await_own_logs stream :
  always anything on_own_logs anything (for_await stream).
Proof.
  apply for_await_inv; auto with logs. intros msg. apply inv_perform. logs_side.
Qed.
#[local] Hint Resolve for_await_own_logs : logs.

Lemma resumeS2Streaming_own_logs interactive stream :
  always anything on_own_logs anything (resumeS2Streaming interactive stream).
Proof. unfold_methods. inv_auto logs logs_side. Qed.

Ltac own_logs_trace :=
  repeat first
    [ assumption
    | apply Forall_app; split
    | apply Forall_nil
    | apply Forall_cons; [unfold on_own_logs; cbn; first [exact Logic.I | split; reflexivity]|] ].

Lemma startS2Streaming_own_logs h :
  always anything on_own_logs anything (startS2Streaming h).
Proof.
  intros s _. split; [|exact Logic.I]. destruct s, h.
  unfold startS2Streaming, startS2Streaming_catch. unfold_M. symex.
  all: try match goal with
       | H : for_await ?it ?s0 = (?t, _, _) |- _ =>
           let Hu := fresh "Hu" in
           pose proof (proj1 (for_await_own_logs it s0 Logic.I)) as Hu;
           rewrite H in Hu; unfold trace_of in Hu; cbn [fst snd] in Hu
       end.
  all: own_logs_trace.
Qed.

Lemma testS2Connection_own_logs h :
  always anything on_own_logs anything (testS2Connection h).
Proof.
  intros s _. split; [|exact Logic.I].
  destruct (checkTail_result h) as [e|tail] eqn:Htail.
  - rewrite (testS2Connection_refused h s e Htail). unfold trace_of. cbn [fst].
    own_logs_trace.
  - rewrite (testS2Connection_connected h s tail Htail). unfold trace_of at 1.
    cbn [fst]. apply Forall_app. split; [|apply Forall_app; split].
    + unfold connected_trace. own_logs_trace.
    + rewrite sendWindowResize_run. unfold trace_of.
      destruct (append_throws h); cbn [fst]; destruct s; own_logs_trace.
    + apply (startS2Streaming_own_logs h _ Logic.I).
Qed.
#[local] Hint Resolve testS2Connection_own_logs : logs.

Lemma handle_own_logs parseInt parseFloat h ev :
  always anything on_own_logs anything (handle parseInt parseFloat h ev).
Proof.
  destruct ev as [urlParams|data|cols rows|interactive stream]; cbn [handle].
  - unfold startSetupFlow, writeAsync, writelnAsync. inv_auto logs logs_side.
  - intros s _. split; [|exact Logic.I].
    destruct (SetupState_eq_dec (setupState s) STREAMING) as [Hs|Hs].
    + rewrite (onData_streaming h data s Hs), sendKeystroke_run. unfold trace_of.
      destruct (append_throws h); cbn [fst]; own_logs_trace.
    + rewrite (onData_setup h data s Hs).
      assert (Hh : always anything on_own_logs anything (handleSetupInput h data)).
      { unfold handleSetupInput, processSetupInput, writeAsync, writelnAsync.
        inv_auto logs logs_side. }
      exact (proj1 (Hh s Logic.I)).
  - intros s _. split; [|exact Logic.I].
    rewrite onResize_run. cbv zeta.
    destruct (SetupState_eq_dec (setupState s) STREAMING) as [Hs|Hs];
      unfold trace_of at 1; cbn [fst].
    + rewrite sendWindowResize_run. unfold trace_of.
      destruct (append_throws h); cbn [fst]; own_logs_trace.
    + own_logs_trace.
  - apply resumeS2Streaming_own_logs.
Qed.

(** ** The calls to S2, and the names of the logs *)

Lemma input_is_not_output (a b : string) : term_input a <> term_output b.
Proof.
  unfold term_input, term_output. intros H. apply append_cancel_l in H.
  apply (f_equal list_ascii_of_string) in H. rewrite !list_of_append in H.
  apply (f_equal (@rev ascii)) in H. rewrite !rev_app_distr in H.
  cbv [list_ascii_of_string rev app] in H. discriminate H.
Qed.

Lemma always_conseq {A} (pre pre' post post' : StreamingTerminal -> Prop) P (m : M A) :
  always pre' P post' m ->
  (forall s, pre s -> pre' s) -> (forall s, post' s -> post s) ->
  always pre P post m.
Proof.
  intros Hm Hpre Hpost s Hs. destruct (Hm s (Hpre s Hs)) as [Ht Hf].
  split; [exact Ht | exact (Hpost _ Hf)].
Qed.

Lemma always_assign_then {B} (pre pre' post : StreamingTerminal -> Prop) P
    (f : StreamingTerminal -> StreamingTerminal) (k : unit -> M B) :
  (forall s, pre s -> pre' (f s)) ->
  always pre' P post (k tt) ->
  always pre P post (bind (assign f) k).
Proof.
  intros Hf Hk s Hs. destruct (Hk (f s) (Hf s Hs)) as [Ht Hp].
  unfold bind, assign, trace_of, final in *.
  destruct (k tt (f s)) as [[t2 s2] c]. cbn in *. split; assumption.
Qed.

Lemma always_this_then {B} (pre post : StreamingTerminal -> Prop) P
    (k : StreamingTerminal -> M B) :
  (forall s0, always (fun s => pre s /\ s = s0) P post (k s0)) ->
  always pre P post (bind this k).
Proof.
  intros Hk s Hs. destruct (Hk s s (conj Hs eq_refl)) as [Ht Hp].
  unfold bind, this, trace_of, final in *.
  destruct (k s s) as [[t2 s2] c]. cbn in *. split; assumption.
Qed.

Create HintDb names.

Ltac names_side :=
  unfold calls_when_named, has_names, well_named;
  first [ intros [] H; cbn in *; first [exact H | intros _; exact H]
        | intros ? ? H; cbn in H; discriminate H ].

Lemma processRecord_keeps_names (I : StreamingTerminal -> Prop) now r :
  (forall s b, I s -> I (set_isLiveMode b s)) ->
  (forall s t, I s -> I (set_lastRecordTimestamp t s)) ->
  always I calls_when_named I (processRecord now r).
Proof.
  intros H1 H2. unfold_methods.
  repeat first
    [ apply inv_assign; intros s Hs; first [apply H1 | apply H2]; exact Hs
    | apply inv_perform; intros ? ? H; cbn in H; discriminate H
    | inv_step idtac ].
Qed.

Lemma for_await_keeps_names (I : StreamingTerminal -> Prop) stream :
  (forall s b, I s -> I (set_isLiveMode b s)) ->
  (forall s t, I s -> I (set_lastRecordTimestamp t s)) ->
  always I calls_when_named I (for_await stream).
Proof.
  intros H1 H2. apply for_await_inv.
  - intros now r. apply processRecord_keeps_names; assumption.
  - intros msg. apply inv_perform. intros ? ? H. cbn in H. discriminate H.
Qed.

Lemma named_isLiveMode s b : has_names s -> has_names (set_isLiveMode b s).
Proof. destruct s. exact (fun H => H). Qed.

Lemma named_lastRecordTimestamp s t : has_names s -> has_names (set_lastRecordTimestamp t s).
Proof. destruct s. exact (fun H => H). Qed.

Lemma well_named_isLiveMode s b : well_named s -> well_named (set_isLiveMode b s).
Proof. destruct s. exact (fun H => H). Qed.

Lemma well_named_lastRecordTimestamp s t :
  well_named s -> well_named (set_lastRecordTimestamp t s).
Proof. destruct s. exact (fun H => H). Qed.

Lemma for_await_named_calls stream :
  always has_names calls_when_named has_names (for_await stream).
Proof.
  apply for_await_keeps_names;
    [exact named_isLiveMode | exact named_lastRecordTimestamp].
Qed.
#[local] Hint Resolve for_await_named_calls : names.

Lemma resumeS2Streaming_well_named interactive stream :
  always well_named calls_when_named well_named (resumeS2Streaming interactive stream).
Proof.
  unfold resumeS2Streaming, startS2Streaming_catch, writelnAsync.
  apply inv_bind.
  - apply inv_try_catch.
    + apply for_await_keeps_names;
        [exact well_named_isLiveMode | exact well_named_lastRecordTimestamp].
    + intros e. inv_auto names names_side.
  - intros _. inv_auto names names_side.
Qed.

Lemma startS2Streaming_named_calls h :
  always has_names calls_when_named has_names (startS2Streaming h).
Proof. unfold_methods. inv_auto names names_side. Qed.
#[local] Hint Resolve startS2Streaming_named_calls : names.

Lemma testS2Connection_named_calls h :
  always has_names calls_when_named has_names (testS2Connection h).
Proof. unfold_methods. inv_auto names names_side. Qed.
#[local] Hint Resolve testS2Connection_named_calls : names.

Lemma sendKeystroke_named_calls h data :
  always has_names calls_when_named has_names (sendKeystroke h data).
Proof. unfold_methods. inv_auto names names_side. Qed.

Lemma sendWindowResize_named_calls h cols rows :
  always has_names calls_when_named has_names (sendWindowResize h cols rows).
Proof. unfold_methods. inv_auto names names_side. Qed.

Lemma has_names_well_named s : has_names s -> well_named s.
Proof. intros H. left. exact H. Qed.

Lemma streaming_has_names s :
  well_named s -> setupState s = STREAMING -> has_names s.
Proof. intros [H|[H|[H|H]]] Hs; [exact H| | |]; congruence. Qed.

Lemma token_prompt_has_names s :
  well_named s -> setupState s = COLLECTING_TOKEN -> has_names s.
Proof. intros [H|[H|[H|H]]] Hs; [exact H| | |]; congruence. Qed.

Lemma processSetupInput_well_named h input :
  always well_named calls_when_named well_named (processSetupInput h input).
Proof.
  unfold processSetupInput. apply always_this_then. intros s0.
  destruct (setupState s0) eqn:Hst.
  - eapply always_conseq; [apply (inv_ret well_named)| |]; tauto.
  - (* COLLECTING_BASIN *)
    apply (always_assign_then _ anything); [exact (fun _ _ => Logic.I)|].
    apply (always_assign_then _ (fun s => setupState s = COLLECTING_SESSION));
      [intros []; reflexivity|].
    eapply always_conseq with (post' := fun s => setupState s = COLLECTING_SESSION);
      [|exact (fun _ H => H) | unfold well_named; tauto].
    unfold writeAsync, writelnAsync. inv_auto names names_side.
  - (* COLLECTING_SESSION *)
    apply (always_assign_then _ anything); [exact (fun _ _ => Logic.I)|].
    apply (always_assign_then _ (fun s => exists a, keystrokes_stream s = term_input a)).
    { intros [] _. eexists. reflexivity. }
    apply (always_assign_then _ has_names).
    { intros [] [a Ha]. exists a. eexists. split; [exact Ha | reflexivity]. }
    eapply always_conseq with (post' := has_names);
      [|exact (fun _ H => H) | exact has_names_well_named].
    unfold writeAsync, writelnAsync. inv_auto names names_side.
  - (* COLLECTING_TOKEN *)
    eapply always_conseq with (pre' := has_names) (post' := has_names);
      [| |exact has_names_well_named].
    + unfold writelnAsync. inv_auto names names_side.
    + intros s [Hs ->]. exact (token_prompt_has_names _ Hs Hst).
  - eapply always_conseq; [apply (inv_ret well_named)| |]; tauto.
  - eapply always_conseq; [apply (inv_ret well_named)| |]; tauto.
Qed.
#[local] Hint Resolve processSetupInput_well_named : names.

Lemma handleSetupInput_well_named h data :
  always well_named calls_when_named well_named (handleSetupInput h data).
Proof.
  unfold handleSetupInput, writeAsync, writelnAsync. inv_auto names names_side.
Qed.

Lemma startSetupFlow_well_named parseInt parseFloat h urlParams :
  always well_named calls_when_named well_named
    (startSetupFlow parseInt parseFloat h urlParams).
Proof.
  unfold startSetupFlow, writeAsync, writelnAsync.
  apply inv_bind; [inv_auto names names_side | intros _].
  apply inv_bind; [inv_auto names names_side | intros _].
  destruct (_ && _).
  - do 5 (apply (always_assign_then _ anything); [exact (fun _ _ => Logic.I)|]).
    apply (always_assign_then _ (fun s => exists a, keystrokes_stream s = term_input a)).
    { intros [] _. eexists. reflexivity. }
    apply (always_assign_then _ has_names).
    { intros [] [a Ha]. exists a. eexists. split; [exact Ha | reflexivity]. }
    eapply always_conseq with (post' := has_names);
      [|exact (fun _ H => H) | exact has_names_well_named].
    inv_auto names names_side.
  - apply (always_assign_then _ (fun s => setupState s = COLLECTING_BASIN));
      [intros []; reflexivity|].
    eapply always_conseq with (post' := fun s => setupState s = COLLECTING_BASIN);
      [|exact (fun _ H => H) | unfold well_named; tauto].
    inv_auto names names_side.
Qed.

Lemma handle_well_named parseInt parseFloat h ev :
  always well_named calls_when_named well_named (handle parseInt parseFloat h ev).
Proof.
  destruct ev as [urlParams|data|cols rows|interactive stream]; cbn [handle].
  - apply startSetupFlow_well_named.
  - intros s Hs.
    destruct (SetupState_eq_dec (setupState s) STREAMING) as [Hst|Hst].
    + rewrite (onData_streaming h data s Hst).
      destruct (sendKeystroke_named_calls h data s (streaming_has_names s Hs Hst))
        as [Ht Hf].
      split; [exact Ht | left; exact Hf].
    + rewrite (onData_setup h data s Hst).
      exact (handleSetupInput_well_named h data s Hs).
  - intros s Hs. rewrite onResize_run. cbv zeta.
    destruct (SetupState_eq_dec (setupState s) STREAMING) as [Hst|Hst];
      unfold trace_of at 1, final at 1; cbn [fst snd].
    + split; [|exact Hs]. apply Forall_cons.
      * intros H. discriminate H.
      * exact (proj1 (sendWindowResize_named_calls h cols rows s
                        (streaming_has_names s Hs Hst))).
    + split; [|exact Hs]. apply Forall_cons; [|apply Forall_nil].
      intros H. discriminate H.
  - apply resumeS2Streaming_well_named.
Qed.

Lemma right_log_of_own_log x :
  on_own_logs x -> calls_when_named x -> on_right_log x.
Proof.
  destruct x as [s e]. unfold on_own_logs, calls_when_named, on_right_log.
  destruct e; cbn; try (intros; exact Logic.I).
  - intros [H _] Hn. destruct (Hn eq_refl) as [a [b [Ha Hb]]]. exists a. congruence.
  - intros [H _] Hn. destruct (Hn eq_refl) as [a [b [Ha Hb]]]. exists a. congruence.
  - intros [H _] Hn. destruct (Hn eq_refl) as [a [b [Ha Hb]]]. exists b. congruence.
Qed.

Lemma written_on_input_logs (t : Trace) :
  Forall on_right_log t ->
  forall stream, In stream (written (map snd t)) -> exists a, stream = term_input a.
Proof.
  unfold written. induction t as [|[s e] t IH]; intros Ht stream Hin; [destruct Hin|].
  inversion Ht as [|? ? Hx Ht']; subst.
  destruct e; cbn in Hin; try exact (IH Ht' stream Hin).
  destruct Hin as [<-|Hin]; [exact Hx | exact (IH Ht' stream Hin)].
Qed.

Lemma read_from_output_logs (t : Trace) :
  Forall on_right_log t ->
  forall stream, In stream (read_from (map snd t)) -> exists b, stream = term_output b.
Proof.
  unfold read_from. induction t as [|[s e] t IH]; intros Ht stream Hin; [destruct Hin|].
  inversion Ht as [|? ? Hx Ht']; subst.
  destruct e; cbn in Hin; try exact (IH Ht' stream Hin).
  destruct Hin as [<-|Hin]; [exact Hx | exact (IH Ht' stream Hin)].
Qed.

(** X14: every call to S2 is made on the object's own logs, and appends and
    reads never meet.  (1) In every run, each append and each tail check is
    made on the basin and the [keystrokes_stream] that the object holds at
    that moment, and each read on its basin and its [pty_stream].  (2) In
    every run from an object that has its two stream names, or whose session
    prompt is still to be answered (a new object is one), every stream that
    is appended to is the input log of a session number and every stream
    that is read is the output log of one; so no stream is both appended to
    and read: the output log is never written and no record is read from
    the input log. *)
Theorem S2_calls_use_own_logs :
  (forall parseInt parseFloat evs s,
     Forall (fun x =>
               match snd x with
               | records_append stream s2Basin _ =>
                   stream = keystrokes_stream (fst x) /\ s2Basin = basin (fst x)
               | records_checkTail s2Basin stream =>
                   stream = keystrokes_stream (fst x) /\ s2Basin = basin (fst x)
               | records_read params =>
                   rp_stream params = pty_stream (fst x)
                   /\ rp_s2Basin params = basin (fst x)
               | _ => True
               end)
       (fst (run parseInt parseFloat evs s)))
  /\
  (forall parseInt parseFloat evs s,
     well_named s ->
     let calls := map snd (fst (run parseInt parseFloat evs s)) in
     (forall stream, In stream (written calls) -> exists a, stream = term_input a)
     /\ (forall stream, In stream (read_from calls) -> exists b, stream = term_output b)
     /\ (forall stream, In stream (written calls) -> ~ In stream (read_from calls))).
Proof.
  split.
  - intros parseInt parseFloat evs s.
    exact (proj1 (run_inv anything on_own_logs parseInt parseFloat
                    (handle_own_logs parseInt parseFloat) evs s Logic.I)).
  - intros parseInt parseFloat evs s Hs calls. subst calls.
    pose proof (proj1 (run_inv anything on_own_logs parseInt parseFloat
                         (handle_own_logs parseInt parseFloat) evs s Logic.I)) as Hown.
    pose proof (proj1 (run_inv well_named calls_when_named parseInt parseFloat
                         (handle_well_named parseInt parseFloat) evs s Hs)) as Hnamed.
    assert (Hright : Forall on_right_log (fst (run parseInt parseFloat evs s))).
    { rewrite Forall_forall in *. intros x Hx.
      apply right_log_of_own_log; [apply Hown | apply Hnamed]; exact Hx. }
    pose proof (written_on_input_logs _ Hright) as Hw.
    pose proof (read_from_output_logs _ Hright) as Hr.
    split; [exact Hw | split; [exact Hr|]].
    intros stream Hin Hin'.
    destruct (Hw stream Hin) as [a Ha]. destruct (Hr stream Hin') as [b Hb].
    apply (input_is_not_output a b). congruence.
Qed.

Lemma S2_calls_use_own_logs_witness :
  written (map snd (fst (run parse_zero parse_one
     [(friendly_host, Loaded (query None)); (friendly_host, Data "l")]
     new_StreamingTerminal)))
    = ["sessions/0001/term_input"; "sessions/0001/term_input"]
  /\ read_from (map snd (fst (run parse_zero parse_one
     [(friendly_host, Loaded (query None)); (friendly_host, Data "l")]
     new_StreamingTerminal)))
    = ["sessions/0001/term_output"]
  /\ forall stream,
       In stream (written (map snd (fst (run parse_zero parse_one
          [(friendly_host, Loaded (query None)); (friendly_host, Data "l")]
          new_StreamingTerminal)))) ->
       ~ In stream (read_from (map snd (fst (run parse_zero parse_one
          [(friendly_host, Loaded (query None)); (friendly_host, Data "l")]
          new_StreamingTerminal)))).
Proof.
  split; [reflexivity|]. split; [reflexivity|].
  refine (proj2 (proj2 (proj2 S2_calls_use_own_logs parse_zero parse_one
            [(friendly_host, Loaded (query None)); (friendly_host, Data "l")]
            new_StreamingTerminal _))).
  right. left. reflexivity.
Defined.

(** ** Batches *)

Lemma bind_ext {A B} (m : M A) (k k' : A -> M B) s :
  (forall a s1, k a s1 = k' a s1) -> bind m k s = bind m k' s.
Proof.
  intros H. unfold bind. destruct (m s) as [[t1 s1] [a|e|]]; try reflexivity.
  rewrite H. reflexivity.
Qed.

Lemma bind_assoc {A B C} (m : M A) (k : A -> M B) (k2 : B -> M C) s :
  bind (bind m k) k2 s = bind m (fun a => bind (k a) k2) s.
Proof.
  unfold bind. destruct (m s) as [[t1 s1] [a|e|]]; try reflexivity.
  destruct (k a s1) as [[t2 s2] [b|e|]]; try reflexivity.
  destruct (k2 b s2) as [[t3 s3] c]. rewrite app_assoc. reflexivity.
Qed.

Lemma bind_ret_l {A B} (a : A) (k : A -> M B) s : bind (ret a) k s = k a s.
Proof.
  unfold bind, ret. destruct (k a s) as [[t2 s2] c]. reflexivity.
Qed.

Lemma for_records_app clock a b :
  forall i s,
    for_records clock i (a ++ b) s =
      bind (for_records clock i a)
        (fun _ => for_records clock (i + length a) b) s.
Proof.
  induction a as [|r a IH]; intros i s.
  - cbn [app for_records length]. rewrite bind_ret_l, Nat.add_0_r. reflexivity.
  - cbn [app for_records length]. rewrite bind_assoc. apply bind_ext.
    intros _ s1. rewrite IH.
    replace (i + S (length a))%nat with (S i + length a)%nat by lia. reflexivity.
Qed.

Lemma bind_ext_l {A B} (m m' : M A) (k : A -> M B) s :
  m s = m' s -> bind m k s = bind m' k s.
Proof. intros H. unfold bind. rewrite H. reflexivity. Qed.

Lemma for_records_shift clock n b :
  forall i s,
    for_records (fun k => clock (n + k)%nat) i b s = for_records clock (n + i) b s.
Proof.
  induction b as [|r b IH]; intros i s; [reflexivity|].
  cbn [for_records]. cbv beta.
  apply bind_ext. intros _ s1. rewrite IH, <- plus_n_Sm. reflexivity.
Qed.

(** X15: the boundaries of batches do not matter.  A batch delivered in two
    pieces is processed exactly as the whole batch, the wall clock being read
    at the same moments: same calls in the same order, same final object,
    same completion. *)
Theorem batch_boundaries_do_not_matter :
  forall clock a b rest s,
    for_await (Yield clock (Batch (a ++ b)) rest) s =
    for_await
      (Yield clock (Batch a)
         (Yield (fun k => clock (length a + k)%nat) (Batch b) rest)) s.
Proof.
  intros clock a b rest s. cbn [for_await applyS2Record].
  rewrite (bind_ext_l _ _ _ s (for_records_app clock a b 0%nat s)).
  rewrite bind_assoc. apply bind_ext. intros _ s1.
  apply bind_ext_l. rewrite for_records_shift.
  replace (length a + 0)%nat with (0 + length a)%nat by lia. reflexivity.
Qed.
(** ** The end of a replay *)

Lemma processRecord_since now r s :
  since (final (processRecord now r s)) = since s.
Proof. destruct s. unfold processRecord. unfold_M. symex; reflexivity. Qed.

Lemma for_records_since clock records :
  forall i s, since (final (for_records clock i records s)) = since s.
Proof.
  induction records as [|r rest IH]; intros i s; [reflexivity|].
  cbn [for_records].
  destruct (bind_effects (processRecord (clock i) r)
              (fun _ => for_records clock (S i) rest) s tt
              (processRecord_completes (clock i) r s)) as [_ [Hf _]].
  rewrite Hf, IH. apply processRecord_since.
Qed.

Lemma processRecord_announces now r s :
  5000 < now ->
  JS.truthy_opt (since s) = true -> isLiveMode s = false ->
  now - sr_timestamp r <= 5000 ->
  suspension (effects_of (processRecord now r s)) = 0%Q
  /\ announcements (effects_of (processRecord now r s)) = 1%nat.
Proof.
  intros Hnow Hs Hl Hf. destruct s; cbn in *; subst.
  assert (Ht : JS.truthy_Z (sr_timestamp r) = true) by (apply truthy_Z_spec; lia).
  assert (Hle : (now - sr_timestamp r <=? 5000) = true) by (apply Z.leb_le; lia).
  unfold processRecord. unfold_M. rewrite Ht. cbn. rewrite Hle. cbn.
  rewrite Hs.
  symex; try (rewrite String.eqb_refl in *; discriminate); split; reflexivity.
Qed.

Lemma for_records_when_live clock records :
  forall i s, isLiveMode s = true ->
    suspension (effects_of (for_records clock i records s)) = 0%Q
    /\ announcements (effects_of (for_records clock i records s)) = 0%nat
    /\ isLiveMode (final (for_records clock i records s)) = true.
Proof.
  induction records as [|r rest IH]; intros i s Hl; [cbn; auto|].
  cbn [for_records].
  destruct (bind_effects (processRecord (clock i) r)
              (fun _ => for_records clock (S i) rest) s tt
              (processRecord_completes (clock i) r s)) as [He [Hf _]].
  rewrite He, Hf, (processRecord_when_live (clock i) r s Hl).
  apply (IH (S i) (set_lastRecordTimestamp (Some (sr_timestamp r)) s)).
  destruct s; exact Hl.
Qed.

(** X16: a replay ends at the first fresh record.  When a REPLAYING session
    with a positive [lastRecordTimestamp] and a positive [speedup] is
    delivered old records (each more than 5000 ms old, timestamps never going
    back, each gap nil or giving a quotient by [speedup] in the range of the
    normal numbers), then a record at most 5000 ms old, then any records at
    all, the pauses add up to the span of the old records divided by
    [speedup], within the relative error 2^-53 of the roundings of the
    delays: the gap before the fresh record is not waited for and nothing is
    paused after it.  Live mode is announced exactly once and the session
    ends LIVE. *)
Theorem replay_ends_at_first_fresh_record :
  forall clock old fresh later i s last q,
    JS.truthy_opt (since s) = true -> isLiveMode s = false ->
    lastRecordTimestamp s = Some last -> 0 < last ->
    speedup s = Fin q -> (0 < q)%Q ->
    all_old clock i old -> ascending last old ->
    paced_normally q last old ->
    5000 < clock (i + length old)%nat ->
    clock (i + length old)%nat - sr_timestamp fresh <= 5000 ->
    let span := (inject_Z (last_timestamp last old - last) / q)%Q in
    (span * (1 - JS.unit_roundoff)
     <= suspension (effects_of (for_records clock i (old ++ fresh :: later) s)))%Q
    /\ (suspension (effects_of (for_records clock i (old ++ fresh :: later) s))
        <= span * (1 + JS.unit_roundoff))%Q
    /\ announcements
         (effects_of (for_records clock i (old ++ fresh :: later) s)) = 1%nat
    /\ isLiveMode (final (for_records clock i (old ++ fresh :: later) s)) = true.
Proof.
  intros clock old fresh later i s last q Hs Hl Hlast Hpos Hq Hq0 Hold Hasc Hgaps
    Hnow Hf span.
  rewrite for_records_app.
  destruct (bind_effects (for_records clock i old)
              (fun _ => for_records clock (i + length old) (fresh :: later)) s tt
              (for_records_completes clock i old s)) as [He [Hfin _]].
  rewrite He, Hfin. clear He Hfin.
  destruct (replay_of_old_records clock old i s last q Hs Hl Hlast Hpos Hq Hq0
              Hold Hasc Hgaps) as [Hlo [Hhi Hl1]].
  fold span in Hlo, Hhi.
  assert (Hs1 : JS.truthy_opt (since (final (for_records clock i old s))) = true)
    by (rewrite for_records_since; exact Hs).
  assert (Ha1 : announcements (effects_of (for_records clock i old s)) = 0%nat).
  { destruct (for_records_once clock i old s) as [[H _]|[_ [_ H]]];
      [exact H | congruence]. }
  set (s1 := final (for_records clock i old s)) in *.
  cbn [for_records].
  destruct (bind_effects (processRecord (clock (i + length old)%nat) fresh)
              (fun _ => for_records clock (S (i + length old)) later) s1 tt
              (processRecord_completes _ fresh s1)) as [He [Hfin _]].
  rewrite He, Hfin. clear He Hfin.
  destruct (processRecord_announces _ fresh s1 Hnow Hs1 Hl1 Hf) as [Hsus2 Ha2].
  pose proof (processRecord_catches_up _ fresh s1 Hnow Hs1 Hl1 Hf) as Hl2.
  destruct (for_records_when_live clock later (S (i + length old)) _ Hl2)
    as [Hsus3 [Ha3 Hl3]].
  rewrite !announcements_app, Ha1, Ha2, Ha3.
  assert (Htot : (suspension
                    (effects_of (for_records clock i old s) ++
                     effects_of (processRecord (clock (i + length old)%nat) fresh s1) ++
                     effects_of
                       (for_records clock (S (i + length old)) later
                          (final (processRecord (clock (i + length old)%nat) fresh s1))))
                  == suspension (effects_of (for_records clock i old s)))%Q).
  { rewrite !suspension_app, Hsus2, Hsus3. ring. }
  rewrite Htot.
  split; [exact Hlo | split; [exact Hhi | split; [reflexivity | exact Hl3]]].
Qed.

Lemma replay_ends_at_first_fresh_record_witness :
  Qle (inject_Z (1600000600000 - 1600000000000) / 60 * (1 - JS.unit_roundoff))
      (suspension (effects_of
         (for_records (fun _ => 1700000000000) 0
            (ten_minutes ++ record_at 1699999999000 :: [record_at 5]) fast_replay)))
  /\ Qle (suspension (effects_of
         (for_records (fun _ => 1700000000000) 0
            (ten_minutes ++ record_at 1699999999000 :: [record_at 5]) fast_replay)))
         (inject_Z (1600000600000 - 1600000000000) / 60 * (1 + JS.unit_roundoff))
  /\ announcements (effects_of
         (for_records (fun _ => 1700000000000) 0
            (ten_minutes ++ record_at 1699999999000 :: [record_at 5]) fast_replay))
     = 1%nat
  /\ isLiveMode (final
         (for_records (fun _ => 1700000000000) 0
            (ten_minutes ++ record_at 1699999999000 :: [record_at 5]) fast_replay))
     = true.
Proof.
  apply (replay_ends_at_first_fresh_record (fun _ => 1700000000000) ten_minutes
           (record_at 1699999999000) [record_at 5] 0%nat fast_replay
           1600000000000 60%Q);
    try solve [vm_compute; repeat split; solve [reflexivity | discriminate]].
  vm_compute. repeat split; try discriminate; right; split;
    solve [reflexivity | discriminate].
Defined.

(** ** Input while streaming *)

Lemma filter_on_screen_app (es1 es2 : list effect) :
  filter on_screen (es1 ++ es2) = filter on_screen es1 ++ filter on_screen es2.
Proof. apply filter_app. Qed.

Lemma handle_input parseInt parseFloat h ev s :
  setupState s = STREAMING -> is_input (h, ev) = true ->
  final (handle parseInt parseFloat h ev s) = s
  /\ appends_of (effects_of (handle parseInt parseFloat h ev s)) = [forwarded s (h, ev)]
  /\ filter on_screen (effects_of (handle parseInt parseFloat h ev s)) = [].
Proof.
  intros Hs Hev.
  destruct ev as [urlParams|data|cols rows|interactive stream];
    try discriminate Hev; cbn [handle].
  - rewrite (onData_streaming h data s Hs), sendKeystroke_run.
    destruct (append_throws h); repeat split; reflexivity.
  - rewrite onResize_run.
    destruct (SetupState_eq_dec (setupState s) STREAMING); [|congruence].
    rewrite sendWindowResize_run.
    destruct (append_throws h); repeat split; reflexivity.
Qed.

(** X17: what is typed while streaming is forwarded, not echoed.  From a
    STREAMING session, a sequence of keystrokes and window resizes leaves the
    object as it was, makes one append per event, in order, each on the
    session's input log with the one record of that event, and never writes
    to the terminal, whether the appends succeed or fail: there is no local
    echo. *)
Theorem input_is_forwarded_not_echoed :
  forall parseInt parseFloat evs s,
    setupState s = STREAMING -> forallb is_input evs = true ->
    snd (run parseInt parseFloat evs s) = s
    /\ appends_of (map snd (fst (run parseInt parseFloat evs s)))
       = map (forwarded s) evs
    /\ filter on_screen (map snd (fst (run parseInt parseFloat evs s))) = [].
Proof.
  intros parseInt parseFloat evs s Hs.
  induction evs as [|[h ev] rest IH]; intros Hev; [repeat split|].
  cbn [forallb] in Hev. apply andb_true_iff in Hev. destruct Hev as [Hev Hrest].
  destruct (handle_input parseInt parseFloat h ev s Hs Hev) as [Hf [Ha Hw]].
  destruct (IH Hrest) as [IHf [IHa IHw]].
  cbn [run]. cbv zeta. cbn [fst snd]. rewrite Hf.
  fold (effects_of (handle parseInt parseFloat h ev s)) in *.
  rewrite map_app, appends_of_app, filter_on_screen_app.
  change (map snd (trace_of (handle parseInt parseFloat h ev s)))
    with (effects_of (handle parseInt parseFloat h ev s)).
  rewrite Ha, Hw, IHa, IHw. repeat split. exact IHf.
Qed.

Lemma input_is_forwarded_not_echoed_witness :
  snd (run parse_zero parse_one
         [(friendly_host, Data "l"); (failing_host, Resize 120 40);
          (friendly_host, Data "s")] live_session) = live_session
  /\ appends_of (map snd (fst (run parse_zero parse_one
         [(friendly_host, Data "l"); (failing_host, Resize 120 40);
          (friendly_host, Data "s")] live_session)))
     = map (forwarded live_session)
         [(friendly_host, Data "l"); (failing_host, Resize 120 40);
          (friendly_host, Data "s")]
  /\ filter on_screen (map snd (fst (run parse_zero parse_one
         [(friendly_host, Data "l"); (failing_host, Resize 120 40);
          (friendly_host, Data "s")] live_session))) = [].
Proof.
  apply (input_is_forwarded_not_echoed parse_zero parse_one
           [(friendly_host, Data "l"); (failing_host, Resize 120 40);
            (friendly_host, Data "s")] live_session); reflexivity.
Defined.
(** ** The speedup *)

Lemma div_not_positive (z : Z) (n : number) :
  0 <= z -> n = NaN \/ JS.negative n = true ->
  JS.gt0 (JS.div (JS.of_Z z) n) = false.
Proof.
  intros Hz [->|Hn]; [reflexivity|].
  assert (Ha : JS.negative (JS.of_Z z) = false).
  { unfold JS.negative, JS.of_Z, JS.Qltb0. cbn. apply Z.ltb_ge. exact Hz. }
  unfold JS.div. rewrite Ha, Hn.
  destruct n as [| | | |q]; try discriminate Hn; try reflexivity.
  - unfold JS.of_Z. cbn. destruct (JS.Qeqb0 (inject_Z z)); reflexivity.
  - unfold JS.of_Z. cbn [JS.is_zero JS.value xorb JS.signed_zero JS.signed_inf].
    destruct (JS.Qeqb0 q) eqn:Hq0.
    + destruct (JS.Qeqb0 (inject_Z z)); reflexivity.
    + destruct (JS.Qeqb0 (inject_Z z)); [reflexivity|].
      apply binary64_not_positive.
      unfold JS.negative, JS.Qltb0 in Hn. apply Z.ltb_lt in Hn.
      destruct q as [[|p|p] d]; cbn in Hn; try lia.
      unfold Qle, Qdiv, Qmult, Qinv. cbn. lia.
Qed.

Lemma div_by_zero (z : Z) (q : Q) :
  0 < z -> (q == 0)%Q -> JS.div (JS.of_Z z) (Fin q) = PosInf.
Proof.
  intros Hz Hq.
  assert (Hq0 : JS.Qeqb0 q = true).
  { unfold JS.Qeqb0. apply Z.eqb_eq. revert Hq. unfold Qeq. cbn. lia. }
  assert (Hz0 : JS.Qeqb0 (inject_Z z) = false).
  { unfold JS.Qeqb0. cbn. apply Z.eqb_neq. lia. }
  assert (Hn : JS.Qltb0 q = false).
  { unfold JS.Qltb0. apply Z.ltb_ge. apply Z.eqb_eq in Hq0. lia. }
  assert (Hzn : JS.Qltb0 (inject_Z z) = false).
  { unfold JS.Qltb0. cbn. apply Z.ltb_ge. lia. }
  unfold JS.div, JS.of_Z. cbn [JS.is_zero JS.negative].
  rewrite Hq0, Hz0, Hn, Hzn. reflexivity.
Qed.

Lemma pauses_app (es1 es2 : list effect) :
  pauses (es1 ++ es2) = pauses es1 ++ pauses es2.
Proof. apply filter_app. Qed.

Lemma processRecord_unpaced_speedup now r s :
  speedup s = NaN \/ JS.negative (speedup s) = true ->
  (forall last, lastRecordTimestamp s = Some last -> last <= sr_timestamp r) ->
  pauses (effects_of (processRecord now r s)) = []
  /\ speedup (final (processRecord now r s)) = speedup s.
Proof.
  intros Hq Hlast. destruct s; cbn in *.
  assert (Hd : forall last, lastRecordTimestamp0 = Some last ->
                 JS.gt0 (JS.div (JS.of_Z (sr_timestamp r - last)) speedup0) = false).
  { intros last H. apply div_not_positive; [|exact Hq].
    specialize (Hlast last H). lia. }
  unfold processRecord. unfold_M. symex.
  all: try (rewrite (Hd _ eq_refl) in *; discriminate).
  all: split; reflexivity.
Qed.

Lemma for_records_unpaced_speedup clock records :
  forall i s,
    speedup s = NaN \/ JS.negative (speedup s) = true ->
    ascending_from (lastRecordTimestamp s) records ->
    pauses (effects_of (for_records clock i records s)) = [].
Proof.
  induction records as [|r rest IH]; intros i s Hq Hasc; [reflexivity|].
  cbn [for_records].
  destruct (bind_effects (processRecord (clock i) r)
              (fun _ => for_records clock (S i) rest) s tt
              (processRecord_completes (clock i) r s)) as [He _].
  rewrite He, pauses_app.
  destruct (processRecord_unpaced_speedup (clock i) r s Hq) as [Hp Hsp].
  { intros last Hl. rewrite Hl in Hasc. exact (proj1 Hasc). }
  rewrite Hp. cbn [app]. apply IH.
  - rewrite Hsp. exact Hq.
  - rewrite processRecord_last. cbn [ascending_from].
    destruct (lastRecordTimestamp s); [exact (proj2 Hasc) | exact Hasc].
Qed.

(** X18: a speedup that is not positive does not compress time.  (1) With a
    speedup that is NaN or negative (-0 included), records whose timestamps
    never go back are rendered without any pause, whatever the mode of the
    session.  (2) With a speedup of +0, a REPLAYING session that is delivered
    an old record later than the previous one asks for a pause of
    +Infinity. *)
Theorem only_positive_speedup_paces :
  (forall clock records i s,
     speedup s = NaN \/ JS.negative (speedup s) = true ->
     ascending_from (lastRecordTimestamp s) records ->
     pauses (effects_of (for_records clock i records s)) = [])
  /\
  (forall now r s last q,
     JS.truthy_opt (since s) = true -> isLiveMode s = false ->
     5000 < now - sr_timestamp r ->
     lastRecordTimestamp s = Some last -> 0 < last -> last < sr_timestamp r ->
     speedup s = Fin q -> (q == 0)%Q ->
     pauses (effects_of (processRecord now r s)) = [setTimeout PosInf]).
Proof.
  split.
  - intros clock records. exact (for_records_unpaced_speedup clock records).
  - intros now r s last q Hs Hl Hf Hlast Hpos Hlt Hq Hq0.
    destruct s; cbn in *; subst.
    assert (Hnf : (now - sr_timestamp r <=? 5000) = false) by (apply Z.leb_gt; lia).
    assert (Hlt' : JS.truthy_Z last = true) by (apply truthy_Z_spec; lia).
    assert (Ht : JS.truthy_Z (sr_timestamp r) = true) by (apply truthy_Z_spec; lia).
    assert (Hd : JS.div (JS.of_Z (sr_timestamp r - last)) (Fin q) = PosInf)
      by (apply div_by_zero; [lia | exact Hq0]).
    unfold processRecord. unfold_M. rewrite Ht. cbn. rewrite Hnf. cbn.
    rewrite Hs, Hlt', Hd. reflexivity.
Qed.

Lemma only_positive_speedup_paces_witness :
  pauses (effects_of (for_records (fun _ => 1700000000000) 0 ten_minutes
                        backward_replay)) = []
  /\ pauses (effects_of (processRecord 1700000000000 (record_at 1600000200000)
                           still_replay)) = [setTimeout PosInf].
Proof.
  split.
  - apply (proj1 only_positive_speedup_paces (fun _ => 1700000000000) ten_minutes
             0%nat backward_replay).
    + right. reflexivity.
    + vm_compute. repeat split; discriminate.
  - apply (proj2 only_positive_speedup_paces 1700000000000
             (record_at 1600000200000) still_replay 1600000000000 0%Q);
      vm_compute; solve [reflexivity | discriminate].
Defined.
(** ** The line typed at the token prompt *)

Create HintDb lines.

Ltac line_side :=
  intros [] ?; cbn in *; first [assumption | exact Logic.I].

Lemma for_await_same_line c stream :
  always (fun s => currentInput s = c) (fun _ => True)
         (fun s => currentInput s = c) (for_await stream).
Proof.
  apply for_await_inv.
  - intros now r. unfold_methods. inv_auto lines line_side.
  - intros msg. apply inv_perform. line_side.
Qed.
#[local] Hint Resolve for_await_same_line : lines.

Lemma startS2Streaming_same_line c h :
  always (fun s => currentInput s = c) (fun _ => True)
         (fun s => currentInput s = c) (startS2Streaming h).
Proof. unfold_methods. inv_auto lines line_side. Qed.

Lemma startS2Streaming_stays_open h s events :
  read_result h = inr (EventStream events) ->
  outcome events = Suspended ->
  JS.truthy_opt (since s) = false ->
  completion_of (startS2Streaming h s) = Suspended.
Proof.
  intros Hread Ho Hs. destruct s, h. cbn in Hread, Hs. subst.
  assert (Hn : forall n, since0 = Some n -> JS.truthy n = false).
  { intros n ->. exact Hs. }
  unfold startS2Streaming, startS2Streaming_catch. unfold_M. symex.
  all: try (rewrite (Hn _ eq_refl) in *; discriminate).
  all: try loop_facts; try congruence; try reflexivity.
Qed.

(** X19: the line typed at the token prompt outlives the prompt.  (1) When
    Enter is pressed at the token prompt of a session without a start
    timestamp, the tail check succeeds and the read stream stays open, the
    handler is left waiting in the read loop: the session is STREAMING but
    [currentInput] still holds the line that was typed.  (2) The line is
    cleared when the loop of that handler is over, by the end of the stream
    or by its failure. *)
Theorem token_line_kept_while_reading :
  (forall h s tail events,
     setupState s = COLLECTING_TOKEN ->
     checkTail_result h = inr tail ->
     read_result h = inr (EventStream events) ->
     outcome events = Suspended ->
     JS.truthy_opt (since s) = false ->
     completion_of (onData h CR s) = Suspended
     /\ setupState (final (onData h CR s)) = STREAMING
     /\ currentInput (final (onData h CR s)) = currentInput s)
  /\
  (forall stream s,
     outcome stream <> Suspended ->
     completion_of (resumeS2Streaming true stream s) = Normal tt
     /\ currentInput (final (resumeS2Streaming true stream s)) = "").
Proof.
  split.
  - intros h s tail events Hst Htail Hread Ho Hs.
    pose proof (onData_enter_token h s tail Hst Htail) as Hsame.
    rewrite onData_setup in * by congruence.
    set (s0 := set_setupState TESTING_CONNECTION
                 (set_token (JS.trim (currentInput s)) s)).
    assert (Hc : completion_of (testS2Connection h s0) = Suspended).
    { rewrite (testS2Connection_connected h s0 tail Htail). cbv zeta.
      unfold completion_of at 1. cbn [snd].
      apply (startS2Streaming_stays_open h _ events Hread Ho).
      destruct s; exact Hs. }
    assert (Hl : currentInput (final (testS2Connection h s0)) = currentInput s).
    { rewrite (testS2Connection_connected h s0 tail Htail). cbv zeta.
      unfold final at 1. cbn [fst snd].
      refine (proj2 (startS2Streaming_same_line (currentInput s) h
                       (set_setupState STREAMING s0) _)).
      destruct s; reflexivity. }
    assert (Hf : final (handleSetupInput h CR s) = final (testS2Connection h s0)
                 /\ completion_of (handleSetupInput h CR s) = Suspended).
    { subst s0. destruct s. cbn in Hst. subst.
      unfold handleSetupInput, processSetupInput.
      change (String.eqb CR CR) with true. cbv iota. unfold_M.
      cbn -[testS2Connection]. cbn -[testS2Connection] in Hc.
      match goal with |- context [testS2Connection h ?x] =>
        destruct (testS2Connection h x) as [[t s2] [a|e|]] end;
        try discriminate Hc. split; reflexivity. }
    destruct Hf as [Hf Hcomp]. split; [exact Hcomp|]. split.
    + destruct Hsame as [_ [_ [_ [H _]]]]. destruct s; exact H.
    + rewrite Hf. exact Hl.
  - intros stream s Ho.
    pose proof (for_await_outcome stream s) as Hc.
    unfold resumeS2Streaming, startS2Streaming_catch. unfold_M.
    destruct (for_await stream s) as [[t s1] c]. cbn in Hc. subst c.
    destruct (outcome stream) as [[]|e|]; [| |congruence];
      cbn; split; reflexivity.
Qed.

Lemma token_line_kept_while_reading_witness :
  (completion_of (onData open_host CR typed_token) = Suspended
   /\ setupState (final (onData open_host CR typed_token)) = STREAMING
   /\ currentInput (final (onData open_host CR typed_token)) = "secret")
  /\ (completion_of (resumeS2Streaming true broken_stream
                       (final (onData open_host CR typed_token))) = Normal tt
      /\ currentInput (final (resumeS2Streaming true broken_stream
                                (final (onData open_host CR typed_token)))) = "").
Proof.
  split.
  - apply (proj1 token_line_kept_while_reading open_host typed_token
             (7%N, 1699999999000%N) Pending); reflexivity.
  - apply (proj2 token_line_kept_while_reading broken_stream
             (final (onData open_host CR typed_token))).
    vm_compute. discriminate.
Defined.
